(** * Demand-metrics engine: column resolution, normalisation, team and
      status classification, daily aggregation.

    A shallow embedding of

    - [process_demands_csv.py]    ([normalize_name], [get_team]),
    - [dashboard/data_processor.py] ([identify_columns], [_map_to_team],
      [process_dataframe]),
    - [api/app/services/data_service.py] ([get_situacao_column],
      [get_daily_metrics], [get_teams], [get_date_range]),
    - [scripts/demand_dashboard.py] ([calculate_daily_metrics]),

    followed by the properties of these functions.

    Data model.  A Python [str] is a sequence of Unicode code points
    ([list N]); the tables of [upper] and of the NFKD decomposition are
    those of the Latin-1 repertoire (U+0000..U+00FF), which holds every
    literal of the program and the Portuguese text of its sources.  A
    pandas frame is a header (the column labels with the type of each
    column) and a list of rows; a row binds a label to the text of the
    cell or to its timestamp (nanoseconds since the epoch), and a label
    without binding is a missing cell ([NaN], [NaT]).  A Python [dict]
    iterated in insertion order is an association list; counters are
    integers. *)

From Stdlib Require Import Strings.String Strings.Ascii.
From Stdlib Require Import List Bool Arith ZArith NArith Lia.
From Stdlib Require Import Sorting.Permutation Sorting.Sorted.
Import ListNotations.

(* ===================================================================== *)
(** * Text: Python [str] operations *)
(* ===================================================================== *)

Module Text.

Local Open Scope N_scope.

(** A text is the list of its code points. *)
Definition str := list N.

(** A literal of the source written with ASCII characters only. *)
Definition lit (s : string) : str := map N_of_ascii (list_ascii_of_string s).

Fixpoint str_eqb (a b : str) : bool :=
  match a, b with
  | [], [] => true
  | x :: a', y :: b' => N.eqb x y && str_eqb a' b'
  | _, _ => false
  end.

(** [x in xs] for a list of texts. *)
Definition mem (x : str) (xs : list str) : bool := existsb (str_eqb x) xs.

(** An ordered roster pairs a team with its members.  [team] is the first
    entry of the roster whose members contain [r]; no entry of the roster
    contains [r]. *)
Definition first_match (roster : list (str * list str)) (r team : str) : Prop :=
  exists pre members post,
    roster = pre ++ (team, members) :: post /\
    mem r members = true /\
    forall entry, In entry pre -> mem r (snd entry) = false.

Definition no_match (roster : list (str * list str)) (r : str) : Prop :=
  forall entry, In entry roster -> mem r (snd entry) = false.

(** ** [str.isspace] on one code point (the Unicode White_Space set that
       Python uses, which has no member outside the ranges listed). *)
Definition isspace (c : N) : bool :=
  ((9 <=? c) && (c <=? 13)) || ((28 <=? c) && (c <=? 32))
  || (c =? 0x85) || (c =? 0xA0) || (c =? 0x1680)
  || ((0x2000 <=? c) && (c <=? 0x200A))
  || (c =? 0x2028) || (c =? 0x2029) || (c =? 0x202F)
  || (c =? 0x205F) || (c =? 0x3000).

Fixpoint lstrip (s : str) : str :=
  match s with
  | c :: s' => if isspace c then lstrip s' else s
  | [] => []
  end.

(** [s.rstrip()]: a character stays when something after it stays or it
    is not a space. *)
Fixpoint rstrip (s : str) : str :=
  match s with
  | [] => []
  | c :: s' =>
    match rstrip s' with
    | [] => if isspace c then [] else [c]
    | t => c :: t
    end
  end.

(** [s.strip()] *)
Definition strip (s : str) : str := rstrip (lstrip s).

(** ** [str.upper]

    Full case mapping of one code point.  The table is complete for the
    Basic Latin and Latin-1 Supplement blocks (U+0000..U+00FF): the ASCII
    letters, MICRO SIGN (to GREEK CAPITAL MU), SHARP S (to "SS"), the
    accented letters U+00E0..U+00FE except the division sign, and
    Y WITH DIAERESIS (to U+0178).  Code points above U+00FF are left as
    they are. *)
Definition upper_cp (c : N) : list N :=
  if (0x61 <=? c) && (c <=? 0x7A) then [c - 0x20]
  else if c =? 0xB5 then [0x39C]
  else if c =? 0xDF then [0x53; 0x53]
  else if (0xE0 <=? c) && (c <=? 0xFE) && negb (c =? 0xF7) then [c - 0x20]
  else if c =? 0xFF then [0x178]
  else [c].

Definition upper (s : str) : str := flat_map upper_cp s.

(** ** [unicodedata.normalize('NFKD', s)]

    Compatibility decomposition of one code point, complete for
    U+0000..U+00FF and for the two images of [upper_cp] outside that
    block.  [base_mark b m] is a base letter followed by a combining
    mark. *)
Definition base_mark (b m : N) : list N := [b; m].

Definition grave := 0x300.
Definition acute := 0x301.
Definition circumflex := 0x302.
Definition tilde := 0x303.
Definition diaeresis := 0x308.
Definition ring := 0x30A.
Definition cedilla := 0x327.
Definition macron := 0x304.

(** Decomposition of the accented letters U+00C0..U+00DD; [None] for the
    letters of that range without one (AE, ETH, multiplication sign,
    O WITH STROKE). *)
Definition nfkd_capital (c : N) : option (list N) :=
  match c with
  | 0xC0 => Some (base_mark 0x41 grave)
  | 0xC1 => Some (base_mark 0x41 acute)
  | 0xC2 => Some (base_mark 0x41 circumflex)
  | 0xC3 => Some (base_mark 0x41 tilde)
  | 0xC4 => Some (base_mark 0x41 diaeresis)
  | 0xC5 => Some (base_mark 0x41 ring)
  | 0xC7 => Some (base_mark 0x43 cedilla)
  | 0xC8 => Some (base_mark 0x45 grave)
  | 0xC9 => Some (base_mark 0x45 acute)
  | 0xCA => Some (base_mark 0x45 circumflex)
  | 0xCB => Some (base_mark 0x45 diaeresis)
  | 0xCC => Some (base_mark 0x49 grave)
  | 0xCD => Some (base_mark 0x49 acute)
  | 0xCE => Some (base_mark 0x49 circumflex)
  | 0xCF => Some (base_mark 0x49 diaeresis)
  | 0xD1 => Some (base_mark 0x4E tilde)
  | 0xD2 => Some (base_mark 0x4F grave)
  | 0xD3 => Some (base_mark 0x4F acute)
  | 0xD4 => Some (base_mark 0x4F circumflex)
  | 0xD5 => Some (base_mark 0x4F tilde)
  | 0xD6 => Some (base_mark 0x4F diaeresis)
  | 0xD9 => Some (base_mark 0x55 grave)
  | 0xDA => Some (base_mark 0x55 acute)
  | 0xDB => Some (base_mark 0x55 circumflex)
  | 0xDC => Some (base_mark 0x55 diaeresis)
  | 0xDD => Some (base_mark 0x59 acute)
  | _ => None
  end.

Definition nfkd_cp (c : N) : list N :=
  match nfkd_capital c with
  | Some d => d
  | None =>
    (* the small letters decompose like their capitals, base + 0x20 *)
    match (if (0xE0 <=? c) && (c <=? 0xFD) then nfkd_capital (c - 0x20)
           else None) with
    | Some (b :: m) => (b + 0x20) :: m
    | _ =>
      match c with
      | 0xA0 => [0x20]                      (* NO-BREAK SPACE *)
      | 0xA8 => [0x20; diaeresis]           (* DIAERESIS *)
      | 0xAA => [0x61]                      (* FEMININE ORDINAL *)
      | 0xAF => [0x20; macron]              (* MACRON *)
      | 0xB2 => [0x32]                      (* SUPERSCRIPT TWO *)
      | 0xB3 => [0x33]                      (* SUPERSCRIPT THREE *)
      | 0xB4 => [0x20; acute]               (* ACUTE ACCENT *)
      | 0xB5 => [0x3BC]                     (* MICRO SIGN *)
      | 0xB8 => [0x20; cedilla]             (* CEDILLA *)
      | 0xB9 => [0x31]                      (* SUPERSCRIPT ONE *)
      | 0xBA => [0x6F]                      (* MASCULINE ORDINAL *)
      | 0xBC => [0x31; 0x2044; 0x34]        (* ONE QUARTER *)
      | 0xBD => [0x31; 0x2044; 0x32]        (* ONE HALF *)
      | 0xBE => [0x33; 0x2044; 0x34]        (* THREE QUARTERS *)
      | 0xFF => base_mark 0x79 diaeresis
      | 0x178 => base_mark 0x59 diaeresis
      | _ => [c]
      end
    end
  end.

(** The canonical reordering of combining marks that NFKD performs after
    decomposing only permutes code points above U+007F; the one caller
    drops them right away, so the marks are left where they arise. *)
Definition NFKD (s : str) : str := flat_map nfkd_cp s.

(** [s.encode('ASCII', 'ignore').decode('ASCII')] *)
Definition encode_ascii_ignore (s : str) : str := filter (fun c => c <? 128) s.

(** The characters on which the tables above yield plain capitals: the
    ASCII characters, the Latin-1 letters that decompose into a letter and
    a mark, and SHARP S. *)
Definition accented_letter (c : N) : bool :=
  match nfkd_capital c with
  | Some _ => true
  | None => ((0xE0 <=? c) && (c <=? 0xFD)
             && match nfkd_capital (c - 0x20) with
                | Some _ => true
                | None => false
                end)
            || (c =? 0xFF)
  end.

Definition plain_char (c : N) : bool :=
  (c <? 128) || accented_letter c || (c =? 0xDF).

Definition plain_text (s : str) : bool := forallb plain_char s.

(** What [upper], [NFKD] and the ASCII encoding together make of one
    character. *)
Definition fold_cp (c : N) : str := encode_ascii_ignore (NFKD (upper_cp c)).

(** ASCII characters other than the small letters. *)
Definition capital_ascii (c : N) : bool :=
  (c <? 128) && negb ((0x61 <=? c) && (c <=? 0x7A)).

(** A text that [strip] leaves alone: no space in front, none at the end. *)
Definition head_ok (s : str) : bool :=
  match s with
  | [] => true
  | c :: _ => negb (isspace c)
  end.

Fixpoint last_ok (s : str) : bool :=
  match s with
  | [] => true
  | [c] => negb (isspace c)
  | _ :: s' => last_ok s'
  end.

(** ** Substring test [p in s] *)
Fixpoint startswith (p s : str) : bool :=
  match p, s with
  | [], _ => true
  | x :: p', y :: s' => N.eqb x y && startswith p' s'
  | _ :: _, [] => false
  end.

Fixpoint contains (p s : str) : bool :=
  startswith p s ||
  match s with
  | [] => false
  | _ :: s' => contains p s'
  end.

(** [Series.str.contains('A|B|C')] on one value: the pattern is an
    alternation of literals, so the search succeeds when one of them
    occurs. *)
Definition contains_any (alts : list str) (s : str) : bool :=
  existsb (fun p => contains p s) alts.

(** The texts for which the tables of [upper] and [NFKD] above are
    complete: every character in U+0000..U+00FF. *)
Definition latin1 (s : str) : bool := forallb (fun c => c <? 256) s.

(** A text without white space. *)
Definition nospace (s : str) : bool := forallb (fun c => negb (isspace c)) s.

End Text.

(* ===================================================================== *)
(** * Frames: the part of pandas the program uses *)
(* ===================================================================== *)

Module Frame.
Import Text.

Local Open Scope Z_scope.

(** Column types the program tells apart ([df[col].dtype == 'object'],
    [pd.api.types.is_datetime64_any_dtype]); [float64] is the type of a
    column of numbers, such as a column read without any value. *)
Inductive dtype := object | datetime64 | float64.

(** A Python [dict] / a labelled row: the first binding of a key. *)
Definition lookup {V : Type} (k : str) (m : list (str * V)) : option V :=
  option_map snd (find (fun kv => str_eqb (fst kv) k) m).

(** [m[k] = v]: the binding of [k] is replaced where it stands, a new key
    goes to the end. *)
Fixpoint dict_set {V : Type} (k : str) (v : V) (m : list (str * V))
  : list (str * V) :=
  match m with
  | [] => [(k, v)]
  | (k', v') :: m' =>
    if str_eqb k' k then (k, v) :: m' else (k', v') :: dict_set k v m'
  end.

(** [del m[k]], when present. *)
Definition dict_del {V : Type} (k : str) (m : list (str * V))
  : list (str * V) :=
  filter (fun kv => negb (str_eqb (fst kv) k)) m.

(** A row gives, under a column label, the text of the cell, which is
    what [astype(str)] shows of it (cells of object columns; no binding
    is [NaN]), or its timestamp in nanoseconds since the epoch (cells of
    [datetime64] columns; no binding is [NaT]).  The columns that the
    program reads as text (team, status, channel) are columns of text:
    each cell has its own text, whatever the other rows hold. *)
Record Row := mkRow { text : list (str * str); stamp : list (str * Z) }.

Record DataFrame := mkDataFrame {
  columns : list (str * dtype);     (* [df.columns], with [df.dtypes] *)
  rows : list Row
}.

Definition labels (df : DataFrame) : list str := map fst (columns df).

(** [col in df.columns] *)
Definition has_column (col : str) (df : DataFrame) : bool := mem col (labels df).

(** How many columns carry a label.  [df[col]] is a series when one
    column does and a frame when several do; a frame has no [.str],
    [.dt], [.dtype] or [.unique], and reading one raises. *)
Definition column_count (col : str) (df : DataFrame) : nat :=
  List.length (filter (str_eqb col) (labels df)).

Definition is_frame (col : str) (df : DataFrame) : bool :=
  (1 <? column_count col df)%nat.

(** [pd.api.types.is_datetime64_any_dtype(df[col])]: the type of the
    series; the test is false of a frame. *)
Definition is_datetime64_any_dtype (col : str) (df : DataFrame) : bool :=
  negb (is_frame col df) &&
  match lookup col (columns df) with
  | Some datetime64 => true
  | _ => false
  end.

(** [df.empty]: no row or no column. *)
Definition empty (df : DataFrame) : bool :=
  match columns df, rows df with
  | _ :: _, _ :: _ => false
  | _, _ => true
  end.

(** [len(df)] *)
Definition len (df : DataFrame) : nat := length (rows df).

(** [df[mask]] and [df.iloc[a:b]] keep the header. *)
Definition with_rows (df : DataFrame) (rs : list Row) : DataFrame :=
  {| columns := columns df; rows := rs |}.

Definition iloc (a b : nat) (df : DataFrame) : DataFrame :=
  with_rows df (firstn (b - a) (skipn a (rows df))).

(** [df[col].astype(str)] on one row: a missing value prints as "nan". *)
Definition astype_str (col : str) (r : Row) : str :=
  match lookup col (text r) with
  | Some s => s
  | None => lit "nan"
  end.

(** Nanoseconds in a day; [Series.dt.date] and [datetime.date()] keep the
    day of a timestamp. *)
Definition day_ns : Z := 86400 * 1000000000.

Definition date_of (t : Z) : Z := t / day_ns.

(** [(df[col].dt.date == date.date())] on one row; [NaT] compares false. *)
Definition dt_date_eq (col : str) (date : Z) (r : Row) : bool :=
  match lookup col (stamp r) with
  | Some t => date_of t =? date_of date
  | None => false
  end.

(** [mask.sum()] of a boolean series derived row by row from [df]. *)
Definition mask_sum (mask : Row -> bool) (rs : list Row) : Z :=
  Z.of_nat (length (filter mask rs)).

(** Days from 1970-01-01 to a day of the proleptic Gregorian calendar. *)
Definition days_from_civil (y m d : Z) : Z :=
  let y' := if m <=? 2 then y - 1 else y in
  let era := y' / 400 in
  let yoe := y' - era * 400 in
  let mp := if m <=? 2 then m + 9 else m - 3 in
  let doy := (153 * mp + 2) / 5 + d - 1 in
  let doe := yoe * 365 + yoe / 4 - yoe / 100 + doy in
  era * 146097 + doe - 719468.

(** [datetime.min] and [datetime.max] *)
Definition datetime_min : Z := days_from_civil 1 1 1 * day_ns.
Definition datetime_max : Z :=
  days_from_civil 9999 12 31 * day_ns + (day_ns - 1000).

End Frame.

(* ===================================================================== *)
(** * process_demands_csv.py: name normalisation and team of a name *)
(* ===================================================================== *)

Module DemandasProcessor.
Import Text.

Local Open Scope N_scope.

(** [DemandasProcessor.normalize_name] (the same function is
    [DemandasAnalyzer.normalize_name] of demandas_daily02.py).  [None] is
    a missing value, returned as it is. *)
Definition normalize_name (name : option str) : option str :=
  match name with
  | None => None
  | Some name =>
    let name := NFKD (upper (strip name)) in
    let name := encode_ascii_ignore name in
    Some name
  end.

(** The value of [normalize_name] on a text. *)
Definition normalized (name : str) : str :=
  match normalize_name (Some name) with
  | Some n => n
  | None => name
  end.

(** Team rosters as written in [__init__] ... *)
Definition equipe_julio_names : list str :=
  [lit "ADRIANO"; lit "ELISANGELA"; lit "FELIPE"; lit "IGOR";
   lit "ANA GESSICA"; lit "ALINE"; lit "NUNO"; lit "THALISSON";
   lit "LUARA"; lit "MATHEUS"; lit "JULIANE"; lit "POLIANA"; lit "YURI";
   lit "ANA L" ++ [0xCD] ++ lit "DIA"].

Definition equipe_leandro_adriano_names : list str :=
  [lit "ALINE SALVADOR"; lit "AMANDA SANTANA"; lit "BRUNO MARIANO";
   lit "EDIANE"; lit "FABIANA"; lit "GREICY"; lit "ITAYNNARA";
   lit "IZABEL"; lit "JULIANA"; lit "JULIA"; lit "KATIA";
   lit "MARIA BRUNA"; lit "MONYZA"; lit "SABRINA"; lit "SOFIA";
   lit "VICTOR ADRIANO"; lit "VITORIA"].

(** ... and as [__init__] leaves them, each name normalised. *)
Definition equipe_julio : list str := map normalized equipe_julio_names.
Definition equipe_leandro_adriano : list str :=
  map normalized equipe_leandro_adriano_names.

(** The team labels of [get_team]. *)
Definition Sem_Responsavel : str := lit "Sem Respons" ++ [0xE1] ++ lit "vel".
Definition Equipe_Julio : str := lit "Equipe J" ++ [0xFA] ++ lit "lio".
Definition Equipe_Leandro_e_Adriano : str := lit "Equipe Leandro e Adriano".
Definition Outros : str := lit "Outros".

(** The rosters in the order in which [get_team] tests them. *)
Definition get_team_rosters : list (str * list str) :=
  [(Equipe_Julio, equipe_julio);
   (Equipe_Leandro_e_Adriano, equipe_leandro_adriano)].

(** [get_team], the classifier local to [calculate_totals]. *)
Definition get_team (resp : option str) : str :=
  match resp with
  | None => Sem_Responsavel
  | Some resp =>
    let resp := normalized resp in
    if mem resp equipe_julio then Equipe_Julio
    else if mem resp equipe_leandro_adriano then Equipe_Leandro_e_Adriano
    else Outros
  end.

End DemandasProcessor.

(* ===================================================================== *)
(** * demandas_daily02.py: the team of a normalised name *)
(* ===================================================================== *)

Module DemandasAnalyzer.
Import Text.

(** [DemandasAnalyzer.normalize_name] has the body of
    [DemandasProcessor.normalize_name], and [__init__] builds the same two
    rosters from the same names. *)
Definition normalize_name := DemandasProcessor.normalize_name.
Definition equipe_julio := DemandasProcessor.equipe_julio.
Definition equipe_leandro_adriano := DemandasProcessor.equipe_leandro_adriano.

(** [get_team], the lambda of [analyze_resolutions_by_team]: it tests the
    value as it stands in the column, which [load_sheet] has normalised. *)
Definition get_team (resp : option str) : str :=
  match resp with
  | None => DemandasProcessor.Sem_Responsavel
  | Some resp =>
    if mem resp equipe_julio then DemandasProcessor.Equipe_Julio
    else if mem resp equipe_leandro_adriano
         then DemandasProcessor.Equipe_Leandro_e_Adriano
         else DemandasProcessor.Outros
  end.

(** [target_date.strftime('%d/%m/%Y')], the form in which the reports
    print a date: the day and the month on two digits, the year (of four
    digits, from 1000 to 9999) in full. *)
Definition digit_char (n : Z) : N := Z.to_N (48 + n).

Definition two_digits (n : Z) : str :=
  [digit_char (n / 10); digit_char (n mod 10)]%Z.

Definition four_digits (n : Z) : str :=
  [digit_char (n / 1000); digit_char (n / 100 mod 10);
   digit_char (n / 10 mod 10); digit_char (n mod 10)]%Z.

Definition strftime_dmy (y m d : Z) : str :=
  two_digits d ++ [47%N] ++ two_digits m ++ [47%N] ++ four_digits y.

End DemandasAnalyzer.

(* ===================================================================== *)
(** * dashboard/data_processor.py *)
(* ===================================================================== *)

Module DataProcessor.
Import Text Frame.

Local Open Scope N_scope.

Definition resolucao : str := lit "resolucao".
Definition responsavel : str := lit "responsavel".
Definition situacao : str := lit "situacao".
Definition equipe : str := lit "equipe".

(** [EXPECTED_COLUMNS], in the order of the dict literal. *)
Definition EXPECTED_COLUMNS : list (str * list str) :=
  [(resolucao, [lit "RESOLUCAO"; lit "DATA"; lit "DATA RESOLUCAO";
                lit "DT_RESOLUCAO"; lit "RESOLU"]);
   (responsavel, [lit "RESPONSAVEL"; lit "RESP"; lit "ATENDENTE";
                  lit "ATEND"; lit "RESPONS"]);
   (situacao, [lit "SITUACAO"; lit "STATUS"; lit "SITU";
               lit "UNNAMED: 9"; lit "  "])].

(** [TEAM_MAPPING], in the order of the dict literal. *)
Definition TEAM_MAPPING : list (str * list str) :=
  [(lit "JULIO", [lit "JULIO"]);
   (lit "LEANDRO", [lit "LEANDRO"]);
   (lit "ADRIANO", [lit "ADRIANO"])].

Definition OUTROS : str := lit "OUTROS".
Definition NAO_INFORMADO : str := lit "N" ++ [0xC3] ++ lit "O INFORMADO".

(** The inner loop of [identify_columns]: the first category, in the
    order of [EXPECTED_COLUMNS], one of whose names occurs in the
    upper-cased, stripped label. *)
Definition expected_target (col_upper : str) : option str :=
  option_map fst
    (find (fun entry => existsb (fun name => contains name col_upper)
                                (snd entry))
          EXPECTED_COLUMNS).

(** The body of the loop of [identify_columns] over the labels. *)
Definition identify_step (mapping : list (str * str)) (col : str)
  : list (str * str) :=
  let col_upper := strip (upper col) in
  match expected_target col_upper with
  | Some target => dict_set col target mapping
  | None => mapping
  end.

(** [identify_columns]: the dict from raw labels to category names. *)
Definition identify_columns (columns : list str) : list (str * str) :=
  fold_left identify_step columns [].

(** [_map_to_team] over a roster; the method reads [self.TEAM_MAPPING]. *)
Definition map_to_team_in (roster : list (str * list str)) (r : str) : str :=
  match find (fun entry => mem r (snd entry)) roster with
  | Some (team, _) => team
  | None => OUTROS
  end.

Definition _map_to_team (r : str) : str := map_to_team_in TEAM_MAPPING r.

(** ** [pd.to_datetime(s, format='%d/%m/%Y', errors='coerce')] on a text

    The directives are matched as by the regular expression of
    [strptime]: [%d] is [3[0-1]|[1-2]\d|0[1-9]|[1-9]| [1-9]], [%m] is
    [1[0-2]|0[1-9]|[1-9]], [%Y] is four digits; the alternatives are tried
    in this order; the first match must use the whole text.  The day must
    exist in the calendar, and midnight of it must fit the 64-bit
    nanosecond range of a timestamp.  [None] is [NaT].  The digits are
    the ASCII digits, the only decimal digits among the code points up
    to U+00FF, for which the tables of the texts are complete. *)
Definition is_digit (c : N) : bool := (48 <=? c) && (c <=? 57).
Definition digit (c : N) : Z := Z.of_N (c - 48).
Definition between (a c b : N) : bool := (a <=? c) && (c <=? b).

Definition match_d (s : str) : list (Z * str) :=
  (match s with
   | 51 :: c :: s' => if between 48 c 49 then [((30 + digit c)%Z, s')] else []
   | _ => [] end) ++
  (match s with
   | c1 :: c2 :: s' =>
     if between 49 c1 50 && is_digit c2
     then [((10 * digit c1 + digit c2)%Z, s')] else []
   | _ => [] end) ++
  (match s with
   | 48 :: c :: s' => if between 49 c 57 then [(digit c, s')] else []
   | _ => [] end) ++
  (match s with
   | c :: s' => if between 49 c 57 then [(digit c, s')] else []
   | _ => [] end) ++
  (match s with
   | 32 :: c :: s' => if between 49 c 57 then [(digit c, s')] else []
   | _ => [] end).

Definition match_m (s : str) : list (Z * str) :=
  (match s with
   | 49 :: c :: s' => if between 48 c 50 then [((10 + digit c)%Z, s')] else []
   | _ => [] end) ++
  (match s with
   | 48 :: c :: s' => if between 49 c 57 then [(digit c, s')] else []
   | _ => [] end) ++
  (match s with
   | c :: s' => if between 49 c 57 then [(digit c, s')] else []
   | _ => [] end).

Definition match_Y (s : str) : list (Z * str) :=
  match s with
  | a :: b :: c :: d :: s' =>
    if is_digit a && is_digit b && is_digit c && is_digit d
    then [((1000 * digit a + 100 * digit b + 10 * digit c + digit d)%Z, s')]
    else []
  | _ => []
  end.

Definition match_slash (s : str) : list str :=
  match s with
  | 47 :: s' => [s']
  | _ => []
  end.

(** All the matches of [%d/%m/%Y] at the start of [s], in the order in
    which a backtracking matcher finds them. *)
Definition match_dmy (s : str) : list (Z * Z * Z * str) :=
  flat_map (fun d =>
    flat_map (fun s1 =>
      flat_map (fun m =>
        flat_map (fun s2 =>
          map (fun y => (fst d, fst m, fst y, snd y)) (match_Y s2))
          (match_slash (snd m)))
        (match_m s1))
      (match_slash (snd d)))
    (match_d s).

Definition is_leap (y : Z) : bool :=
  ((y mod 4 =? 0) && negb (y mod 100 =? 0) || (y mod 400 =? 0))%Z.

Definition days_in_month (y m : Z) : Z :=
  (if m =? 2 then (if is_leap y then 29 else 28)
   else if (m =? 4) || (m =? 6) || (m =? 9) || (m =? 11) then 30
   else 31)%Z.

Definition to_datetime_dmy (s : str) : option Z :=
  match match_dmy s with
  | (d, m, y, []) :: _ =>
    let t := (days_from_civil y m d * day_ns)%Z in
    if ((1 <=? y) && (d <=? days_in_month y m)
        && (- (2 ^ 63 - 1) <=? t) && (t <=? 2 ^ 63 - 1))%Z
    then Some t else None
  | _ => None
  end.

(** ** [process_dataframe] *)

(** Row-wise pieces of the column assignments. *)
Definition set_text (col : str) (v : str) (r : Row) : Row :=
  {| text := dict_set col v (text r); stamp := stamp r |}.

(** [df[col].fillna(v)] on one row. *)
Definition fillna (col : str) (v : str) (r : Row) : Row :=
  match lookup col (text r) with
  | Some _ => r
  | None => set_text col v r
  end.

(** [df[col].astype(str).str.strip().str.upper()] on one row, after
    [fillna]. *)
Definition strip_upper (col : str) (r : Row) : Row :=
  set_text col (upper (strip (astype_str col r))) r.

(** [df.rename(columns=mapping)] *)
Definition renamed (mapping : list (str * str)) (col : str) : str :=
  match lookup col mapping with
  | Some target => target
  | None => col
  end.

Definition rename_row (mapping : list (str * str)) (r : Row) : Row :=
  {| text := map (fun kv => (renamed mapping (fst kv), snd kv)) (text r);
     stamp := map (fun kv => (renamed mapping (fst kv), snd kv)) (stamp r) |}.

Definition rename (mapping : list (str * str)) (df : DataFrame) : DataFrame :=
  {| columns := map (fun c => (renamed mapping (fst c), snd c)) (columns df);
     rows := map (rename_row mapping) (rows df) |}.

(** How many columns carry a label. *)
Definition count_label (col : str) (df : DataFrame) : nat :=
  List.length (filter (str_eqb col) (labels df)).

Definition set_dtype (col : str) (dt : dtype) (df : DataFrame) : DataFrame :=
  {| columns := if has_column col df
                then map (fun c => if str_eqb (fst c) col then (col, dt) else c)
                         (columns df)
                else columns df ++ [(col, dt)];
     rows := rows df |}.

(** [pd.to_datetime(df[col], format='%d/%m/%Y', errors='coerce')]: the
    value given to the cell of one row, in a column of type [dt]. *)
Definition to_datetime_cell (col : str) (dt : dtype) (r : Row) : option Z :=
  match dt with
  | datetime64 => lookup col (stamp r)
  | _ =>
    match lookup col (text r) with
    | Some s => to_datetime_dmy s
    | None => None
    end
  end.

(** [df[col] = pd.to_datetime(df[col], ...)] on one row. *)
Definition to_datetime_row (col : str) (dt : dtype) (r : Row) : Row :=
  match dt with
  | datetime64 => r
  | _ =>
    {| text := dict_del col (text r);
       stamp := match to_datetime_cell col dt r with
                | Some t => dict_set col t (dict_del col (stamp r))
                | None => dict_del col (stamp r)
                end |}
  end.

(** [df[col].notna()] for the date column. *)
Definition notna_stamp (col : str) (r : Row) : bool :=
  match lookup col (stamp r) with
  | Some _ => true
  | None => false
  end.

(** The first loop on one row: the cells of object columns are filled and
    made text. *)
Definition fill_row (df : DataFrame) (r : Row) : Row :=
  fold_left (fun r c =>
               match snd c with
               | object => fillna (fst c) NAO_INFORMADO r
               | _ => r
               end)
            (columns df) r.

Definition fill_objects (df : DataFrame) : DataFrame :=
  with_rows df (map (fill_row df) (rows df)).

(** The type of the one column labelled [col]. *)
Definition dtype_of (col : str) (df : DataFrame) : dtype :=
  match lookup col (columns df) with
  | Some dt => dt
  | None => object
  end.

(** The date step.  With two columns renamed to [resolucao],
    [df['resolucao']] is a frame and [pd.to_datetime] raises. *)
Definition process_resolucao (df : DataFrame) : option DataFrame :=
  match count_label resolucao df with
  | O => Some df
  | S O =>
    let dt := dtype_of resolucao df in
    Some (set_dtype resolucao datetime64
            (with_rows df (map (to_datetime_row resolucao dt) (rows df))))
  | _ => None
  end.

(** The responsible step; a frame has no [.str], so two columns renamed
    to [responsavel] raise. *)
Definition process_responsavel (df : DataFrame) : option DataFrame :=
  match count_label responsavel df with
  | O => Some df
  | S O =>
    let step r :=
      let r := strip_upper responsavel (fillna responsavel NAO_INFORMADO r) in
      set_text equipe (_map_to_team (astype_str responsavel r)) r in
    Some (set_dtype equipe object
            (set_dtype responsavel object (with_rows df (map step (rows df)))))
  | _ => None
  end.

Definition process_situacao (df : DataFrame) : option DataFrame :=
  match count_label situacao df with
  | O => Some df
  | S O =>
    let step r := strip_upper situacao (fillna situacao NAO_INFORMADO r) in
    Some (set_dtype situacao object (with_rows df (map step (rows df))))
  | _ => None
  end.

(** [df.dropna(subset=['resolucao'])]; a missing label is a [KeyError]. *)
Definition dropna_resolucao (df : DataFrame) : option DataFrame :=
  if has_column resolucao df
  then Some (with_rows df (filter (notna_stamp resolucao) (rows df)))
  else None.

Definition bind {A B : Type} (x : option A) (f : A -> option B) : option B :=
  match x with
  | Some a => f a
  | None => None
  end.

(** The frame before the date step: filled and renamed. *)
Definition prepared (df : DataFrame) : DataFrame :=
  let df := fill_objects df in
  rename (identify_columns (labels df)) df.

(** A row of the frame as the date step finds it, and the date that the
    step reads in its date cell: [None] when the cell does not parse. *)
Definition prepare_row (df : DataFrame) (r : Row) : Row :=
  rename_row (identify_columns (labels (fill_objects df))) (fill_row df r).

Definition date_cell (df : DataFrame) (r : Row) : option Z :=
  to_datetime_cell resolucao (dtype_of resolucao (prepared df))
                   (prepare_row df r).

Definition date_parses (df : DataFrame) (r : Row) : bool :=
  match date_cell df r with
  | Some _ => true
  | None => false
  end.

(** What a text step leaves of a frame: the rows are mapped by a function
    that keeps the timestamps, and the labels other than those of the
    text steps stay as many. *)
Definition text_step (q q' : DataFrame) : Prop :=
  (exists g, rows q' = map g (rows q) /\ forall r, stamp (g r) = stamp r) /\
  (forall c, c <> responsavel -> c <> equipe -> c <> situacao ->
             count_label c q' = count_label c q).

(** [process_dataframe]: [None] when the body raises (the handler logs
    and raises again); the debug dictionary is left out.  The first loop
    is taken on a frame whose labels differ; [process_dataframe_try]
    below raises where two columns carry one label. *)
Definition process_dataframe (df : DataFrame) : option DataFrame :=
  let df := prepared df in
  bind (process_resolucao df) (fun df =>
  bind (process_responsavel df) (fun df =>
  bind (process_situacao df) (fun df =>
  dropna_resolucao df))).

(** The responsible step and the status step of [process_dataframe] on
    one row. *)
Definition responsavel_row (r : Row) : Row :=
  let r := strip_upper responsavel (fillna responsavel NAO_INFORMADO r) in
  set_text equipe (_map_to_team (astype_str responsavel r)) r.

Definition situacao_row (r : Row) : Row :=
  strip_upper situacao (fillna situacao NAO_INFORMADO r).

(** A label that [identify_columns] leaves under its own name. *)
Definition settled (k : str) : Prop :=
  expected_target (strip (upper k)) = None \/
  expected_target (strip (upper k)) = Some k.

(** What every step of [process_dataframe] after the renaming keeps of a
    frame: the date columns hold timestamps, the labels resolve to
    themselves, and every cell of a column of texts has a text. *)
Definition staged (q : DataFrame) : Prop :=
  (forall t, In (resolucao, t) (columns q) -> t = datetime64) /\
  (forall k, In k (labels q) -> settled k) /\
  (forall r, In r (rows q) ->
     forall c, In (c, object) (columns q) -> lookup c (text r) <> None).

(** What the responsible step leaves: beside the one column of the
    responsibles, upper-cased and stripped, the column of their teams. *)
Definition responsavel_done (q : DataFrame) : Prop :=
  count_label responsavel q = 1%nat ->
  has_column equipe q = true /\
  (forall t, In (responsavel, t) (columns q) \/ In (equipe, t) (columns q) ->
             t = object) /\
  (forall r, In r (rows q) ->
     exists s, lookup responsavel (text r) = Some (upper (strip s)) /\
               lookup equipe (text r) = Some (_map_to_team (upper (strip s)))).

(** What the status step leaves: the one column of the statuses,
    upper-cased and stripped. *)
Definition situacao_done (q : DataFrame) : Prop :=
  count_label situacao q = 1%nat ->
  (forall t, In (situacao, t) (columns q) -> t = object) /\
  (forall r, In r (rows q) ->
     exists s, lookup situacao (text r) = Some (upper (strip s))).

(** A frame in the state in which [process_dataframe] leaves one, with
    responsibles and statuses of Latin-1 text: a single date column,
    without a missing date; at most one responsible and one status
    column, each as its step leaves it. *)
Definition processed (q : DataFrame) : Prop :=
  count_label resolucao q = 1%nat /\
  (count_label responsavel q <= 1)%nat /\
  (count_label situacao q <= 1)%nat /\
  staged q /\ responsavel_done q /\ situacao_done q /\
  (forall r, In r (rows q) -> notna_stamp resolucao r = true) /\
  (forall r col s,
      In r (rows q) -> In col [responsavel; situacao] ->
      lookup col (text r) = Some s -> latin1 s = true).

(** ** [process_dataframe] with its first loop as it fails

    The first loop reads [df[col].dtype] for every label; where two
    columns carry the label, [df[col]] is a frame and the access raises
    (the handler logs and raises again).  [None] is a call that
    raises. *)
Definition fill_objects_try (df : DataFrame) : option DataFrame :=
  if existsb (fun col => is_frame col df) (labels df) then None
  else Some (fill_objects df).

Definition process_dataframe_try (df : DataFrame) : option DataFrame :=
  bind (fill_objects_try df) (fun df =>
  let df := rename (identify_columns (labels df)) df in
  bind (process_resolucao df) (fun df =>
  bind (process_responsavel df) (fun df =>
  bind (process_situacao df) (fun df =>
  dropna_resolucao df)))).

End DataProcessor.

(* ===================================================================== *)
(** * The metric counters ([DailyMetrics], the [metrics] dictionaries) *)
(* ===================================================================== *)

Module Metrics.
Import Text.

Local Open Scope Z_scope.

(** The twelve counters of [DailyMetrics] and of the [metrics]
    dictionary of the dashboard (there with capitalised keys).
    [soma_prioridades] is declared [float]; no code path changes it. *)
Record Counters := mkCounters {
  resolvidos : Z;
  pendente_ativo : Z;
  pendente_receptivo : Z;
  prioridade : Z;
  prioridade_total : Z;
  soma_prioridades : Z;
  analise : Z;
  analise_dia : Z;
  receptivo : Z;
  quitado_cliente : Z;
  quitado : Z;
  aprovados : Z
}.

Definition zero : Counters := mkCounters 0 0 0 0 0 0 0 0 0 0 0 0.

(** [metrics[k] += v] for every key at once. *)
Definition add (a b : Counters) : Counters :=
  {| resolvidos := resolvidos a + resolvidos b;
     pendente_ativo := pendente_ativo a + pendente_ativo b;
     pendente_receptivo := pendente_receptivo a + pendente_receptivo b;
     prioridade := prioridade a + prioridade b;
     prioridade_total := prioridade_total a + prioridade_total b;
     soma_prioridades := soma_prioridades a + soma_prioridades b;
     analise := analise a + analise b;
     analise_dia := analise_dia a + analise_dia b;
     receptivo := receptivo a + receptivo b;
     quitado_cliente := quitado_cliente a + quitado_cliente b;
     quitado := quitado a + quitado b;
     aprovados := aprovados a + aprovados b |}.

Definition sum (cs : list Counters) : Counters := fold_right add zero cs.

(** The model object built from the [metrics] dictionary. *)
Record DailyMetrics := mkDailyMetrics {
  date : Z;
  team : option str;
  counters : Counters
}.

(** The counters that are counts of rows lie between zero and [n]; the
    pending receptive are among the receptive and the analyses of the day
    among the analyses. *)
Definition bounded_by (n : Z) (m : Counters) : Prop :=
  0 <= resolvidos m <= n /\ 0 <= analise m <= n /\ 0 <= quitado m <= n /\
  0 <= aprovados m <= n /\ 0 <= receptivo m <= n /\
  0 <= pendente_ativo m <= n /\
  0 <= pendente_receptivo m <= receptivo m /\
  0 <= analise_dia m <= analise m.

(** Counter by counter, [a] is at most [b]. *)
Definition le (a b : Counters) : Prop :=
  resolvidos a <= resolvidos b /\ pendente_ativo a <= pendente_ativo b /\
  pendente_receptivo a <= pendente_receptivo b /\
  prioridade a <= prioridade b /\ prioridade_total a <= prioridade_total b /\
  soma_prioridades a <= soma_prioridades b /\ analise a <= analise b /\
  analise_dia a <= analise_dia b /\ receptivo a <= receptivo b /\
  quitado_cliente a <= quitado_cliente b /\ quitado a <= quitado b /\
  aprovados a <= aprovados b.

(** Two records that hold the same counters, [analise_dia] apart. *)
Definition agree_but_analise_dia (a b : Counters) : Prop :=
  resolvidos a = resolvidos b /\ pendente_ativo a = pendente_ativo b /\
  pendente_receptivo a = pendente_receptivo b /\
  prioridade a = prioridade b /\ prioridade_total a = prioridade_total b /\
  soma_prioridades a = soma_prioridades b /\ analise a = analise b /\
  receptivo a = receptivo b /\ quitado_cliente a = quitado_cliente b /\
  quitado a = quitado b /\ aprovados a = aprovados b.

End Metrics.

(* ===================================================================== *)
(** * api/app/services/data_service.py *)
(* ===================================================================== *)

Module DataService.
Import Text Frame Metrics.

Local Open Scope N_scope.

Definition SITUACAO : str := lit "SITUACAO".
Definition SITUACAO_cedilha : str := lit "SITUA" ++ [0xC7; 0xC3] ++ lit "O".
Definition ATIVO_RECEPTIVO : str := lit "ATIVO/RECEPTIVO".

(** The patterns of the [str.contains] calls, split at [|]. *)
Definition RESOLVIDOS : list str :=
  [lit "RESOLVID"; lit "FINALIZADO"; lit "CONCLU" ++ [0xCD] ++ lit "DO"].
Definition ANALISE : list str :=
  [lit "ANALIS"; lit "AN" ++ [0xC1] ++ lit "LISE"].
Definition QUITADO : list str := [lit "QUITAD"].
Definition APROVADOS : list str := [lit "APROVAD"].
Definition PENDENTE : list str := [lit "PENDENT"].
Definition ATIVO : list str := [lit "ATIVO"].
Definition RECEPTIVO : list str := [lit "RECEPTIVO"].

(** [get_situacao_column] *)
Definition get_situacao_column (df : DataFrame) : option str :=
  let possible_columns :=
    [SITUACAO; SITUACAO_cedilha; lit "STATUS"; lit "ESTADO"] in
  find (fun col => has_column col df) possible_columns.

(** [next((col for col in df.columns if 'EQUIPE' in col.upper()), None)] *)
Definition equipe_column (df : DataFrame) : option str :=
  find (fun col => contains (lit "EQUIPE") (upper col)) (labels df).

(** The team filter of [get_daily_metrics]; [if team:] is false for
    [None] and for the empty text.  The rows are those that the filter
    keeps where the team column is one column; where two columns carry
    its label the access raises ([filter_team_try] below). *)
Definition filter_team (team : option str) (df_temp : DataFrame) : DataFrame :=
  match team with
  | None | Some [] => df_temp
  | Some team =>
    match equipe_column df_temp with
    | Some equipe_col =>
      with_rows df_temp
        (filter (fun r => str_eqb (upper (astype_str equipe_col r)) (upper team))
                (rows df_temp))
    | None => df_temp
    end
  end.

(** The comparison of the team filter on one row: true where there is no
    filter. *)
Definition team_mask (team : option str) (df : DataFrame) (r : Row) : bool :=
  match team with
  | None | Some [] => true
  | Some team =>
    match equipe_column df with
    | Some equipe_col => str_eqb (upper (astype_str equipe_col r)) (upper team)
    | None => true
    end
  end.

Definition date_columns : list str := [lit "DATA"; lit "RESOLUCAO"; lit "Data"].

(** [date_mask] on one row, after the loop over [date_columns]. *)
Definition date_mask (date : Z) (df_temp : DataFrame) (r : Row) : bool :=
  existsb (fun col => has_column col df_temp
                      && is_datetime64_any_dtype col df_temp
                      && dt_date_eq col date r)
          date_columns.

(** [df_date], the rows of a sheet that a query selects. *)
Definition df_date (date : Z) (team : option str) (df : DataFrame) : DataFrame :=
  let df_temp := filter_team team df in
  with_rows df_temp (filter (date_mask date df_temp) (rows df_temp)).

(** [situacao] and [ativo_receptivo], the upper-cased status and channel
    series, on one row. *)
Definition situacao (situacao_col : str) (r : Row) : str :=
  upper (astype_str situacao_col r).

Definition ativo_receptivo (r : Row) : str :=
  upper (astype_str ATIVO_RECEPTIVO r).

(** The block that computes the metrics: what the rows of [df_date] add to
    each counter; [channel] tells whether the sheet has the column
    'ATIVO/RECEPTIVO'. *)
Definition sheet_counts (situacao_col : str) (channel : bool)
           (df_date : list Row) : Counters :=
  let situacao := situacao situacao_col in
  let count mask := mask_sum mask df_date in
  let analise_mask r := contains_any ANALISE (situacao r) in
  let pendente_mask r := contains_any PENDENTE (situacao r) in
  let ativo_mask r := contains_any ATIVO (ativo_receptivo r) in
  let receptivo_mask r := contains_any RECEPTIVO (ativo_receptivo r) in
  {| resolvidos := count (fun r => contains_any RESOLVIDOS (situacao r));
     analise := count analise_mask;
     quitado := count (fun r => contains_any QUITADO (situacao r));
     aprovados := count (fun r => contains_any APROVADOS (situacao r));
     pendente_ativo :=
       if channel then count (fun r => pendente_mask r && ativo_mask r)
       else 0%Z;
     pendente_receptivo :=
       if channel then count (fun r => pendente_mask r && receptivo_mask r)
       else 0%Z;
     receptivo := if channel then count receptivo_mask else 0%Z;
     prioridade := 0; prioridade_total := 0; soma_prioridades := 0;
     analise_dia := 0; quitado_cliente := 0 |}.

(** The body of the loop over the sheets: the counters after one sheet. *)
Definition sheet_metrics (date : Z) (team : option str)
           (metrics : Counters) (df : DataFrame) : Counters :=
  if empty df then metrics
  else
    let df_temp := filter_team team df in
    match get_situacao_column df_temp with
    | None => metrics
    | Some situacao_col =>
      let df_date := df_date date team df in
      if empty df_date then metrics
      else
        add metrics
            (sheet_counts situacao_col
                          (has_column ATIVO_RECEPTIVO df_date) (rows df_date))
    end.

(** What one sheet adds to the counters of a query. *)
Definition sheet_contribution (date : Z) (team : option str) (df : DataFrame)
  : Counters :=
  sheet_metrics date team zero df.

(** [get_daily_metrics] over the loaded sheets [self.dfs]: the metrics
    that the call returns.  Where an access raises the call raises, which
    [get_daily_metrics_try] below tells; wherever that call returns, it
    returns these metrics. *)
Definition get_daily_metrics (dfs : list (str * DataFrame))
           (date : Z) (team : option str) : DailyMetrics :=
  {| date := date;
     team := team;
     counters := fold_left (sheet_metrics date team) (map snd dfs) zero |}.

(** Order of texts by code points, and a sorted list without repeats for
    [sorted(list(teams))]. *)
Fixpoint str_ltb (a b : str) : bool :=
  match a, b with
  | _, [] => false
  | [], _ :: _ => true
  | x :: a', y :: b' => (x <? y) || ((x =? y) && str_ltb a' b')
  end.

Definition str_lt (a b : str) : Prop := str_ltb a b = true.

Fixpoint set_add (x : str) (xs : list str) : list str :=
  match xs with
  | [] => [x]
  | y :: ys =>
    if str_eqb x y then xs
    else if str_ltb x y then x :: xs
    else y :: set_add x ys
  end.

(** [df[equipe_col].dropna().unique()] *)
Definition team_values (equipe_col : str) (df : DataFrame) : list str :=
  flat_map (fun r => match lookup equipe_col (text r) with
                     | Some s => [s]
                     | None => []
                     end)
           (rows df).

(** [get_teams]: the list that the call returns.  The call raises on a
    sheet that has two columns under the label of its team column
    ([.unique] of a frame). *)
Definition get_teams (dfs : list (str * DataFrame)) : list str :=
  fold_left
    (fun teams df =>
       match equipe_column df with
       | Some equipe_col => fold_left (fun t x => set_add x t)
                                      (team_values equipe_col df) teams
       | None => teams
       end)
    (map snd dfs) [].

(** [df[col].min()] and [df[col].max()]; [None] is [NaT]. *)
Definition stamps (col : str) (df : DataFrame) : list Z :=
  flat_map (fun r => match lookup col (stamp r) with
                     | Some t => [t]
                     | None => []
                     end)
           (rows df).

Definition series_min (ts : list Z) : option Z :=
  match ts with
  | [] => None
  | t :: ts' => Some (fold_left Z.min ts' t)
  end.

Definition series_max (ts : list Z) : option Z :=
  match ts with
  | [] => None
  | t :: ts' => Some (fold_left Z.max ts' t)
  end.

(** One column of one sheet in [get_date_range]. *)
Definition range_step (df : DataFrame) (acc : Z * Z) (col : str) : Z * Z :=
  let (min_date, max_date) := acc in
  if has_column col df && is_datetime64_any_dtype col df then
    let min_date := match series_min (stamps col df) with
                    | Some col_min =>
                      if (col_min <? min_date)%Z then col_min else min_date
                    | None => min_date
                    end in
    let max_date := match series_max (stamps col df) with
                    | Some col_max =>
                      if (col_max >? max_date)%Z then col_max else max_date
                    | None => max_date
                    end in
    (min_date, max_date)
  else (min_date, max_date).

(** [get_date_range] *)
Definition get_date_range (dfs : list (str * DataFrame)) : Z * Z :=
  fold_left (fun acc df => fold_left (range_step df) date_columns acc)
            (map snd dfs) (datetime_max, datetime_min).

(** A range widened to hold one more timestamp. *)
Definition widen (acc : Z * Z) (t : Z) : Z * Z :=
  (Z.min (fst acc) t, Z.max (snd acc) t).

(** Every timestamp of a date column of a sheet: the values that
    [get_date_range] looks at. *)
Definition sheet_dates (df : DataFrame) : list Z :=
  flat_map (fun col => if has_column col df && is_datetime64_any_dtype col df
                       then stamps col df else [])
           date_columns.

Definition loaded_dates (dfs : list (str * DataFrame)) : list Z :=
  flat_map sheet_dates (map snd dfs).

(** The team labels [teams] cover a sheet: the sheet has a team column,
    and the upper-cased team text of each of its rows is that of one of
    the labels. *)
Definition teams_cover (teams : list str) (df : DataFrame) : Prop :=
  exists equipe_col,
    equipe_column df = Some equipe_col /\
    forall r, In r (rows df) ->
              In (upper (astype_str equipe_col r)) (map upper teams).

(** ** [get_daily_metrics] with its handler

    The body of [get_daily_metrics] runs inside [try]; the handler logs
    and raises again.  An access raises where the body reads [.str] of
    [df[label]] and two columns carry the label.  [None] is a call that
    raises; where the call returns, it returns what the definitions
    above compute. *)

(** The team filter: [df_temp[equipe_col].astype(str).str.upper()]. *)
Definition filter_team_try (team : option str) (df_temp : DataFrame)
  : option DataFrame :=
  match team with
  | None | Some [] => Some df_temp
  | Some team =>
    match equipe_column df_temp with
    | Some equipe_col =>
      if is_frame equipe_col df_temp then None
      else Some (with_rows df_temp
                   (filter (fun r => str_eqb (upper (astype_str equipe_col r))
                                             (upper team))
                           (rows df_temp)))
    | None => Some df_temp
    end
  end.

(** The body of the loop over the sheets: the status column is read when
    rows are selected, the channel column after it when the sheet has
    one. *)
Definition sheet_metrics_try (date : Z) (team : option str)
           (metrics : Counters) (df : DataFrame) : option Counters :=
  if empty df then Some metrics
  else
    match filter_team_try team df with
    | None => None
    | Some df_temp =>
      match get_situacao_column df_temp with
      | None => Some metrics
      | Some situacao_col =>
        let df_date :=
          with_rows df_temp (filter (date_mask date df_temp) (rows df_temp)) in
        if empty df_date then Some metrics
        else if is_frame situacao_col df_date then None
        else if has_column ATIVO_RECEPTIVO df_date
                && is_frame ATIVO_RECEPTIVO df_date then None
        else Some (add metrics
                       (sheet_counts situacao_col
                                     (has_column ATIVO_RECEPTIVO df_date)
                                     (rows df_date)))
      end
    end.

Definition get_daily_metrics_try (dfs : list (str * DataFrame))
           (date : Z) (team : option str) : option DailyMetrics :=
  match fold_left (fun metrics df =>
                     match metrics with
                     | Some metrics => sheet_metrics_try date team metrics df
                     | None => None
                     end)
                  (map snd dfs) (Some zero) with
  | Some metrics => Some {| date := date; team := team; counters := metrics |}
  | None => None
  end.

(** The team filter of a query raises on a sheet. *)
Definition filter_team_raises (team : option str) (df : DataFrame) : bool :=
  match filter_team_try team df with
  | Some _ => false
  | None => true
  end.

(** The loop body of a query raises on a sheet. *)
Definition sheet_raises (date : Z) (team : option str) (df : DataFrame)
  : bool :=
  match sheet_metrics_try date team zero df with
  | Some _ => false
  | None => true
  end.

(** [get_teams] with its handler, which logs and raises again: [None]
    where [df[equipe_col].dropna().unique()] is asked of a frame. *)
Definition get_teams_try (dfs : list (str * DataFrame)) : option (list str) :=
  fold_left
    (fun teams df =>
       match teams with
       | None => None
       | Some teams =>
         match equipe_column df with
         | Some equipe_col =>
           if is_frame equipe_col df then None
           else Some (fold_left (fun t x => set_add x t)
                                (team_values equipe_col df) teams)
         | None => Some teams
         end
       end)
    (map snd dfs) (Some []).

(** Every timestamp held by a column of timestamps of a sheet, whatever
    the label of the column. *)
Definition all_dates (df : DataFrame) : list Z :=
  flat_map (fun c => match snd c with
                     | datetime64 => stamps (fst c) df
                     | _ => []
                     end)
           (columns df).

End DataService.

(* ===================================================================== *)
(** * scripts/demand_dashboard.py *)
(* ===================================================================== *)

Module Dashboard.
Import Text Frame Metrics.

Local Open Scope N_scope.

(** [get_situacao_column] is the function of the service again. *)
Definition get_situacao_column := DataService.get_situacao_column.

Definition date_columns : list str :=
  [lit "DATA"; lit "RESOLUCAO"; lit "Data";
   lit "DATA CONCLUS" ++ [0xC3] ++ lit "O";
   lit "DATA IN" ++ [0xCD] ++ lit "CIO"].

(** [range(0, stop, step)] for a positive step. *)
Definition range (stop : nat) (step : positive) : list nat :=
  let step := Pos.to_nat step in
  map (fun i => i * step)%nat (seq 0 ((stop + step - 1) / step)).

(** The chunks of a list that start at [i * step], for [i] below [n]:
    the rows of [df.iloc[chunk_start:chunk_end]] in the loop below. *)
Definition chunks_of {A : Type} (step n : nat) (l : list A) : list (list A) :=
  map (fun i => firstn (Nat.min (i * step + step) (List.length l) - i * step)
                       (skipn (i * step) l))
      (seq 0 n).

(** [series.empty] of a column of the frame. *)
Definition series_empty (df : DataFrame) : bool :=
  match rows df with
  | [] => true
  | _ :: _ => false
  end.

(** The team filter on one chunk, where the team column is one column
    ([filter_team_try] below tells where the access raises). *)
Definition filter_team (selected_team : option str) (df_chunk : DataFrame)
  : DataFrame :=
  match selected_team with
  | None | Some [] => df_chunk
  | Some selected_team =>
    match DataService.equipe_column df_chunk with
    | Some equipe_col =>
      if negb (series_empty df_chunk)
      then with_rows df_chunk
             (filter (fun r => str_eqb (upper (astype_str equipe_col r))
                                       (upper selected_team))
                     (rows df_chunk))
      else df_chunk
    | None => df_chunk
    end
  end.

Definition date_mask (date : Z) (df_chunk : DataFrame) (r : Row) : bool :=
  existsb (fun date_col => has_column date_col df_chunk
                           && negb (series_empty df_chunk)
                           && is_datetime64_any_dtype date_col df_chunk
                           && dt_date_eq date_col date r)
          date_columns.

(** [situacao_series], the upper-cased and stripped status, on one row. *)
Definition situacao_series (situacao_col : str) (r : Row) : str :=
  strip (upper (astype_str situacao_col r)).

(** The block that computes the metrics of a chunk from the rows of
    [df_date].  The last counter reads [df_date['DATA'].dt]: without that
    column, or with one that holds no timestamps ([data_ok] false), the
    access raises, the handler logs and goes on to the next chunk, and
    the counters added before stay.  The status and the channel are read
    as series here; [chunk_block] below tells what the block does when
    two columns carry one of their labels. *)
Definition chunk_counts (situacao_col : str) (channel data_ok : bool)
           (date : Z) (df_date : list Row) : Counters :=
  let situacao_series := situacao_series situacao_col in
  let count mask := mask_sum mask df_date in
  let resolvido_mask r :=
    contains_any DataService.RESOLVIDOS (situacao_series r) in
  let analise_mask r := contains_any DataService.ANALISE (situacao_series r) in
  let quitado_mask r := contains_any DataService.QUITADO (situacao_series r) in
  let aprovado_mask r :=
    contains_any DataService.APROVADOS (situacao_series r) in
  let pendente_mask r :=
    contains_any DataService.PENDENTE (situacao_series r) in
  let ativo_mask r :=
    contains_any DataService.ATIVO (DataService.ativo_receptivo r) in
  let receptivo_mask r :=
    contains_any DataService.RECEPTIVO (DataService.ativo_receptivo r) in
  {| resolvidos := count resolvido_mask;
     analise := count analise_mask;
     quitado := count quitado_mask;
     aprovados := count aprovado_mask;
     pendente_ativo :=
       if channel then count (fun r => pendente_mask r && ativo_mask r)
       else 0%Z;
     pendente_receptivo :=
       if channel then count (fun r => pendente_mask r && receptivo_mask r)
       else 0%Z;
     receptivo := if channel then count receptivo_mask else 0%Z;
     analise_dia :=
       if existsb analise_mask df_date
       then if data_ok
            then count (fun r => analise_mask r
                                 && dt_date_eq (lit "DATA") date r)
            else 0%Z
       else 0%Z;
     prioridade := 0; prioridade_total := 0; soma_prioridades := 0;
     quitado_cliente := 0 |}.

(** The date comparison of [date_mask] alone. *)
Definition date_match (date : Z) (df_chunk : DataFrame) (r : Row) : bool :=
  existsb (fun date_col => has_column date_col df_chunk
                           && is_datetime64_any_dtype date_col df_chunk
                           && dt_date_eq date_col date r)
          date_columns.

(** The body of the loop over the chunks: the counters after one chunk. *)
Definition chunk_metrics (date : Z) (selected_team : option str)
           (metrics : Counters) (df_chunk : DataFrame) : Counters :=
  let df_chunk := filter_team selected_team df_chunk in
  let situacao_col := get_situacao_column df_chunk in
  let df_date :=
    with_rows df_chunk (filter (date_mask date df_chunk) (rows df_chunk)) in
  if empty df_date then metrics
  else
    match situacao_col with
    | None => metrics
    | Some situacao_col =>
      add metrics
          (chunk_counts situacao_col
                        (has_column DataService.ATIVO_RECEPTIVO df_date)
                        (has_column (lit "DATA") df_date
                         && is_datetime64_any_dtype (lit "DATA") df_date)
                        date (rows df_date))
    end.

(** The rows among [rs] that a query selects in a chunk of the sheet
    [df]. *)
Definition selected (date : Z) (team : option str) (df : DataFrame)
           (rs : list Row) : list Row :=
  filter (date_match date df) (filter (DataService.team_mask team df) rs).

(** What one chunk adds to the counters. *)
Definition chunk_contribution (date : Z) (selected_team : option str)
           (df_chunk : DataFrame) : Counters :=
  chunk_metrics date selected_team zero df_chunk.

(** The loop over the chunks of one sheet. *)
Definition sheet_metrics (chunk_size : positive) (date : Z)
           (selected_team : option str) (metrics : Counters) (df : DataFrame)
  : Counters :=
  if empty df then metrics
  else
    fold_left
      (fun metrics chunk_start =>
         let chunk_end := Nat.min (chunk_start + Pos.to_nat chunk_size) (len df) in
         let df_chunk := iloc chunk_start chunk_end df in
         chunk_metrics date selected_team metrics df_chunk)
      (range (len df) chunk_size) metrics.

(** [calculate_daily_metrics] with the local constant [chunk_size] as a
    parameter. *)
Definition calculate_daily_metrics_with (chunk_size : positive)
           (dfs : list (str * DataFrame)) (date : Z)
           (selected_team : option str) : Counters :=
  fold_left (sheet_metrics chunk_size date selected_team) (map snd dfs) zero.

(** [calculate_daily_metrics]: [chunk_size = 1000].  These are the
    counters returned when the team, the status and the channel are read
    as series; [calculate_daily_metrics_try] below follows the handlers
    where two columns carry one of their labels. *)
Definition calculate_daily_metrics := calculate_daily_metrics_with 1000.

(** The computation without chunks: every sheet is its only chunk. *)
Definition whole_table_metrics (dfs : list (str * DataFrame)) (date : Z)
           (selected_team : option str) : Counters :=
  fold_left (fun metrics df =>
               if empty df then metrics
               else chunk_metrics date selected_team metrics df)
            (map snd dfs) zero.

(** The date columns that the dashboard reads and the service does not,
    the last two of the list. *)
Definition extra_date_columns : list str :=
  skipn (List.length DataService.date_columns) date_columns.

(** ** [calculate_daily_metrics] with its handlers

    The loops run inside an outer [try] whose handler returns the
    counters as they stand; the block that computes the metrics of a
    chunk runs inside an inner [try] whose handler goes on to the next
    chunk.  An access raises where the code reads [.str] or [.dt] of
    [df[label]] and two columns carry the label.  Where no access
    raises, the result is what the definitions above compute. *)

(** The team filter on one chunk, outside the inner [try]: [None] when
    [df_chunk[equipe_col].astype(str).str] raises. *)
Definition filter_team_try (selected_team : option str) (df_chunk : DataFrame)
  : option DataFrame :=
  match selected_team with
  | None | Some [] => Some df_chunk
  | Some selected_team =>
    match DataService.equipe_column df_chunk with
    | Some equipe_col =>
      if negb (series_empty df_chunk)
      then if is_frame equipe_col df_chunk then None
           else Some (with_rows df_chunk
                        (filter (fun r =>
                                   str_eqb (upper (astype_str equipe_col r))
                                           (upper selected_team))
                                (rows df_chunk)))
      else Some df_chunk
    | None => Some df_chunk
    end
  end.

(** The block inside the inner [try]: the counters when the block ends,
    at its last line or at the line that raises.  The status text is
    read first; the four status counters are added before the channel is
    read, and the analyses of the day come last.  [chunk_counts] without
    channel and without DATA is the four status counters alone. *)
Definition chunk_block (situacao_col : str) (date : Z) (df_date : DataFrame)
           (metrics : Counters) : Counters :=
  if is_frame situacao_col df_date then metrics
  else
    let data_ok := has_column (lit "DATA") df_date
                   && is_datetime64_any_dtype (lit "DATA") df_date in
    if has_column DataService.ATIVO_RECEPTIVO df_date
    then if is_frame DataService.ATIVO_RECEPTIVO df_date
         then add metrics
                  (chunk_counts situacao_col false false date (rows df_date))
         else add metrics
                  (chunk_counts situacao_col true data_ok date (rows df_date))
    else add metrics
             (chunk_counts situacao_col false data_ok date (rows df_date)).

(** The body of the loop over the chunks: [None] when the team filter
    raises. *)
Definition chunk_metrics_try (date : Z) (selected_team : option str)
           (metrics : Counters) (df_chunk : DataFrame) : option Counters :=
  match filter_team_try selected_team df_chunk with
  | None => None
  | Some df_chunk =>
    let situacao_col := get_situacao_column df_chunk in
    let df_date :=
      with_rows df_chunk (filter (date_mask date df_chunk) (rows df_chunk)) in
    if empty df_date then Some metrics
    else
      match situacao_col with
      | None => Some metrics
      | Some situacao_col => Some (chunk_block situacao_col date df_date metrics)
      end
  end.

(** The state of the loops: the counters so far, and whether an
    exception has left the loops for the outer handler, which returns
    them. *)
Inductive run := Running (metrics : Counters) | Raised (metrics : Counters).

Definition returned (s : run) : Counters :=
  match s with
  | Running metrics | Raised metrics => metrics
  end.

Definition chunk_step (date : Z) (selected_team : option str) (s : run)
           (df_chunk : DataFrame) : run :=
  match s with
  | Running metrics =>
    match chunk_metrics_try date selected_team metrics df_chunk with
    | Some metrics => Running metrics
    | None => Raised metrics
    end
  | Raised _ => s
  end.

(** The loop over the chunks of one sheet. *)
Definition sheet_metrics_try (chunk_size : positive) (date : Z)
           (selected_team : option str) (s : run) (df : DataFrame) : run :=
  match s with
  | Raised _ => s
  | Running _ =>
    if empty df then s
    else
      fold_left
        (fun s chunk_start =>
           let chunk_end :=
             Nat.min (chunk_start + Pos.to_nat chunk_size) (len df) in
           chunk_step date selected_team s (iloc chunk_start chunk_end df))
        (range (len df) chunk_size) s
  end.

Definition calculate_daily_metrics_try_with (chunk_size : positive)
           (dfs : list (str * DataFrame)) (date : Z)
           (selected_team : option str) : Counters :=
  returned (fold_left (sheet_metrics_try chunk_size date selected_team)
                      (map snd dfs) (Running zero)).

Definition calculate_daily_metrics_try := calculate_daily_metrics_try_with 1000.

(** What the block of the inner [try] adds for the rows [rs] of the
    sheet [df]. *)
Definition block_counts (situacao_col : str) (date : Z) (df : DataFrame)
           (rs : list Row) : Counters :=
  chunk_block situacao_col date (with_rows df rs) zero.

(** What the rows [rs] of the sheet [df] add as a chunk, when the team
    filter does not raise. *)
Definition rows_counts (date : Z) (selected_team : option str)
           (df : DataFrame) (rs : list Row) : Counters :=
  match get_situacao_column df with
  | None => zero
  | Some situacao_col =>
    block_counts situacao_col date df (selected date selected_team df rs)
  end.

(** What a sheet adds when the team filter does not raise on it. *)
Definition sheet_counts_try (date : Z) (selected_team : option str)
           (df : DataFrame) : Counters :=
  if empty df then zero else rows_counts date selected_team df (rows df).

End Dashboard.

(* ===================================================================== *)
(** * Sample data *)
(* ===================================================================== *)

Module Samples.
Import Text Frame.

Local Open Scope Z_scope.

(** Midnight of a day, as a timestamp. *)
Definition midnight (y m d : Z) : Z := days_from_civil y m d * day_ns.

(** A file of two rows; the second has no date. *)
Definition csv_two_rows : DataFrame :=
  {| columns := [(lit "DATA", object); (lit "RESPONSAVEL", object);
                 (lit "SITUACAO", object)];
     rows :=
       [ {| text := [(lit "DATA", lit "10/01/2025");
                     (lit "RESPONSAVEL", lit "julio ");
                     (lit "SITUACAO", lit "Resolvido")];
            stamp := [] |};
         {| text := [(lit "RESPONSAVEL", lit "Leandro");
                     (lit "SITUACAO", lit "Pendente ativo")];
            stamp := [] |} ] |}.

(** A file with a column DATA and a column RESOLUCAO, one row. *)
Definition csv_two_dates : DataFrame :=
  {| columns := [(lit "DATA", object); (lit "RESOLUCAO", object);
                 (lit "RESPONSAVEL", object); (lit "SITUACAO", object)];
     rows :=
       [ {| text := [(lit "DATA", lit "09/01/2025");
                     (lit "RESOLUCAO", lit "10/01/2025");
                     (lit "RESPONSAVEL", lit "JULIO");
                     (lit "SITUACAO", lit "RESOLVIDO")];
            stamp := [] |} ] |}.

Definition JULIO : str := lit "JULIO".
Definition LEANDRO : str := lit "LEANDRO".
Definition d10 : Z := midnight 2025 1 10.
Definition d11 : Z := midnight 2025 1 11.

(** A row of a sheet of demands. *)
Definition demand (data : Z) (equipe situacao canal : str) : Row :=
  {| text := [(lit "EQUIPE", equipe); (lit "SITUACAO", situacao);
              (lit "ATIVO/RECEPTIVO", canal)];
     stamp := [(lit "DATA", data)] |}.

(** A sheet with a team column ... *)
Definition sheet_demandas : DataFrame :=
  {| columns := [(lit "DATA", datetime64); (lit "EQUIPE", object);
                 (lit "SITUACAO", object); (lit "ATIVO/RECEPTIVO", object)];
     rows := [demand d10 JULIO (lit "Resolvido e quitado") (lit "Ativo");
              demand (d10 + 3600 * 1000000000) LEANDRO
                     (lit "Pendente") (lit "Receptivo");
              demand d11 JULIO (lit "Em analise") (lit "Ativo")] |}.

(** ... and one without: a status and a date, the second row undated. *)
Definition sheet_quitados : DataFrame :=
  {| columns := [(lit "DATA", datetime64); (lit "STATUS", object)];
     rows := [ {| text := [(lit "STATUS", lit "QUITADO")];
                  stamp := [(lit "DATA", d10)] |};
               {| text := [(lit "STATUS", lit "QUITADO")]; stamp := [] |} ] |}.

Definition loaded : list (str * DataFrame) :=
  [(lit "DEMANDAS", sheet_demandas); (lit "QUITADOS", sheet_quitados)].


(** A sheet dated in the column 'DATA CONCLUSAO' (with its accent), which
    the dashboard reads as a date column. *)
Definition DATA_CONCLUSAO : str := lit "DATA CONCLUS" ++ [195%N] ++ lit "O".

Definition sheet_concluidos : DataFrame :=
  {| columns := [(DATA_CONCLUSAO, datetime64); (lit "SITUACAO", object)];
     rows := [ {| text := [(lit "SITUACAO", lit "CONCLUIDO")];
                  stamp := [(DATA_CONCLUSAO, d10)] |} ] |}.

End Samples.

(* ===================================================================== *)
(** * Facts about texts *)
(* ===================================================================== *)

Module TextFacts.
Import Text.
Local Open Scope N_scope.

Lemma str_eqb_refl a : str_eqb a a = true.
Proof. induction a as [|x a IH]; simpl; [reflexivity|]. now rewrite N.eqb_refl. Qed.

Lemma str_eqb_eq a b : str_eqb a b = true <-> a = b.
Proof.
  split.
  - revert b. induction a as [|x a IH]; intros [|y b]; simpl; try discriminate; auto.
    intros H. apply andb_true_iff in H. destruct H as [H1 H2].
    apply N.eqb_eq in H1. apply IH in H2. congruence.
  - intros ->. apply str_eqb_refl.
Qed.

Lemma str_eqb_neq a b : str_eqb a b = false <-> a <> b.
Proof.
  rewrite <- str_eqb_eq. destruct (str_eqb a b); split; congruence.
Qed.

Lemma str_eqb_sym a b : str_eqb a b = str_eqb b a.
Proof.
  destruct (str_eqb a b) eqn:E.
  - apply str_eqb_eq in E. subst. symmetry. apply str_eqb_refl.
  - symmetry. apply str_eqb_neq. apply str_eqb_neq in E. congruence.
Qed.

Lemma mem_In x xs : mem x xs = true <-> In x xs.
Proof.
  unfold mem. rewrite existsb_exists. split.
  - intros [y [Hy E]]. apply str_eqb_eq in E. now subst.
  - intros H. exists x. split; [assumption|apply str_eqb_refl].
Qed.

(** A boolean property checked on every code point below a bound. *)
Lemma checked_below (P : N -> bool) (n : nat) :
  forallb P (map N.of_nat (seq 0 n)) = true ->
  forall c, c < N.of_nat n -> P c = true.
Proof.
  rewrite forallb_forall. intros H c Hc. apply H.
  apply in_map_iff. exists (N.to_nat c). split.
  - apply N2Nat.id.
  - apply in_seq. lia.
Qed.

Lemma nfkd_capital_below c d : nfkd_capital c = Some d -> c < 256.
Proof.
  destruct c as [|p]; [discriminate|].
  do 8 (destruct p as [p|p|]; try discriminate; try (intros _; reflexivity)).
Qed.

Lemma plain_char_below c : plain_char c = true -> c < 256.
Proof.
  unfold plain_char, accented_letter. intros H.
  destruct (N.ltb_spec c 128); [lia|].
  destruct (nfkd_capital c) eqn:E; [eapply nfkd_capital_below; eauto|].
  destruct (N.leb_spec c 0xFD); [lia|].
  rewrite andb_false_r in H. simpl in H.
  destruct (N.eqb_spec c 0xFF); [lia|].
  destruct (N.eqb_spec c 0xDF); [lia|]. discriminate.
Qed.

(** The image of a plain character: not empty, capital ASCII, and free of
    spaces unless the character is one. *)
Lemma fold_cp_plain c :
  plain_char c = true ->
  fold_cp c <> [] /\
  forallb capital_ascii (fold_cp c) = true /\
  (isspace c = false -> forallb (fun d => negb (isspace d)) (fold_cp c) = true).
Proof.
  intros Hp.
  pose (P := fun c => implb (plain_char c)
            (match fold_cp c with [] => false | _ => true end
             && forallb capital_ascii (fold_cp c)
             && (isspace c || forallb (fun d => negb (isspace d)) (fold_cp c)))).
  assert (Hc : P c = true).
  { apply (checked_below P 256); [vm_compute; reflexivity|].
    now apply plain_char_below. }
  unfold P in Hc. rewrite Hp in Hc. simpl in Hc.
  apply andb_true_iff in Hc. destruct Hc as [Hc H3].
  apply andb_true_iff in Hc. destruct Hc as [H1 H2].
  repeat split.
  - destruct (fold_cp c); [discriminate|discriminate].
  - exact H2.
  - intros Hs. rewrite Hs in H3. exact H3.
Qed.

(** A capital ASCII character is its own image. *)
Lemma fold_cp_capital c : capital_ascii c = true -> fold_cp c = [c].
Proof.
  intros Hc.
  pose (P := fun c => implb (capital_ascii c) (str_eqb (fold_cp c) [c])).
  assert (H : P c = true).
  { apply (checked_below P 128); [vm_compute; reflexivity|].
    unfold capital_ascii in Hc. apply andb_true_iff in Hc.
    destruct Hc as [Hc _]. now apply N.ltb_lt in Hc. }
  unfold P in H. rewrite Hc in H. simpl in H. now apply str_eqb_eq.
Qed.

Lemma capital_ascii_plain c : capital_ascii c = true -> plain_char c = true.
Proof.
  unfold capital_ascii, plain_char. intros H.
  apply andb_true_iff in H. destruct H as [H _]. now rewrite H.
Qed.

(** ** [strip] *)

Lemma lstrip_head_ok s : head_ok (lstrip s) = true.
Proof.
  induction s as [|c s IH]; simpl; [reflexivity|].
  destruct (isspace c) eqn:E; [exact IH|]. simpl. now rewrite E.
Qed.

Lemma lstrip_id s : head_ok s = true -> lstrip s = s.
Proof.
  destruct s as [|c s]; simpl; [reflexivity|].
  intros H. apply negb_true_iff in H. now rewrite H.
Qed.

Lemma rstrip_last_ok s : last_ok (rstrip s) = true.
Proof.
  induction s as [|c s IH]; simpl; [reflexivity|].
  destruct (rstrip s) as [|d t] eqn:E.
  - destruct (isspace c) eqn:Ec; simpl; [reflexivity|now rewrite Ec].
  - exact IH.
Qed.

Lemma rstrip_id s : last_ok s = true -> rstrip s = s.
Proof.
  induction s as [|c s IH]; [reflexivity|].
  destruct s as [|d s'].
  - simpl. intros H. apply negb_true_iff in H. now rewrite H.
  - intros H. change (last_ok (d :: s') = true) in H.
    specialize (IH H). change (rstrip (c :: d :: s')) with
      (match rstrip (d :: s') with
       | [] => if isspace c then [] else [c]
       | t => c :: t
       end).
    now rewrite IH.
Qed.

Lemma rstrip_head_ok s : head_ok s = true -> head_ok (rstrip s) = true.
Proof.
  destruct s as [|c s]; simpl; [reflexivity|].
  intros H. destruct (rstrip s); [|exact H].
  apply negb_true_iff in H. rewrite H. simpl. now rewrite H.
Qed.

Lemma strip_head_ok s : head_ok (strip s) = true.
Proof. unfold strip. apply rstrip_head_ok, lstrip_head_ok. Qed.

Lemma strip_last_ok s : last_ok (strip s) = true.
Proof. unfold strip. apply rstrip_last_ok. Qed.

Lemma strip_id s : head_ok s = true -> last_ok s = true -> strip s = s.
Proof.
  intros H1 H2. unfold strip. rewrite (lstrip_id s H1). now apply rstrip_id.
Qed.

Lemma forallb_lstrip (P : N -> bool) s :
  forallb P s = true -> forallb P (lstrip s) = true.
Proof.
  induction s as [|c s IH]; simpl; [reflexivity|].
  intros H. apply andb_true_iff in H. destruct H as [H1 H2].
  destruct (isspace c); [auto|]. simpl. now rewrite H1, H2.
Qed.

Lemma forallb_rstrip (P : N -> bool) s :
  forallb P s = true -> forallb P (rstrip s) = true.
Proof.
  induction s as [|c s IH]; simpl; [reflexivity|].
  intros H. apply andb_true_iff in H. destruct H as [H1 H2].
  specialize (IH H2). destruct (rstrip s) as [|d t].
  - destruct (isspace c); simpl; [reflexivity|now rewrite H1].
  - simpl in *. now rewrite H1, IH.
Qed.

Lemma forallb_strip (P : N -> bool) s :
  forallb P s = true -> forallb P (strip s) = true.
Proof. intros H. unfold strip. now apply forallb_rstrip, forallb_lstrip. Qed.

Lemma last_ok_app a b : b <> [] -> last_ok (a ++ b) = last_ok b.
Proof.
  intros Hb. induction a as [|c a IH]; [reflexivity|].
  simpl. destruct (a ++ b) eqn:E; [|exact IH].
  destruct a; simpl in E; [congruence|discriminate].
Qed.

Lemma last_ok_nospace s :
  forallb (fun d => negb (isspace d)) s = true -> last_ok s = true.
Proof.
  induction s as [|c s IH]; [reflexivity|].
  simpl. intros H. apply andb_true_iff in H. destruct H as [H1 H2].
  destruct s; [exact H1|auto].
Qed.

(** ** The folding of a text, character by character *)

Lemma fold_text s :
  encode_ascii_ignore (NFKD (upper s)) = flat_map fold_cp s.
Proof.
  unfold encode_ascii_ignore, NFKD, upper.
  induction s as [|c s IH]; [reflexivity|].
  simpl. rewrite flat_map_app, filter_app, IH. reflexivity.
Qed.

Lemma fold_capitals s :
  forallb capital_ascii s = true -> flat_map fold_cp s = s.
Proof.
  induction s as [|c s IH]; [reflexivity|].
  simpl. intros H. apply andb_true_iff in H. destruct H as [H1 H2].
  rewrite (fold_cp_capital c H1), (IH H2). reflexivity.
Qed.

Lemma fold_plain_capitals s :
  plain_text s = true -> forallb capital_ascii (flat_map fold_cp s) = true.
Proof.
  unfold plain_text. induction s as [|c s IH]; [reflexivity|].
  simpl. intros H. apply andb_true_iff in H. destruct H as [H1 H2].
  rewrite forallb_app. destruct (fold_cp_plain c H1) as [_ [Hc _]].
  now rewrite Hc, (IH H2).
Qed.

Lemma fold_plain_nonempty s :
  plain_text s = true -> s <> [] -> flat_map fold_cp s <> [].
Proof.
  destruct s as [|c s]; [congruence|].
  unfold plain_text. simpl. intros H _. apply andb_true_iff in H.
  destruct H as [H1 _]. destruct (fold_cp_plain c H1) as [Hne _].
  destruct (fold_cp c); [congruence|discriminate].
Qed.

Lemma fold_plain_head_ok s :
  plain_text s = true -> head_ok s = true ->
  head_ok (flat_map fold_cp s) = true.
Proof.
  destruct s as [|c s]; [reflexivity|].
  unfold plain_text. simpl. intros H Hh. apply andb_true_iff in H.
  destruct H as [H1 _]. apply negb_true_iff in Hh.
  destruct (fold_cp_plain c H1) as [Hne [_ Hs]]. specialize (Hs Hh).
  destruct (fold_cp c) as [|d ds]; [congruence|].
  simpl in *. apply andb_true_iff in Hs. tauto.
Qed.

Lemma fold_plain_last_ok s :
  plain_text s = true -> last_ok s = true ->
  last_ok (flat_map fold_cp s) = true.
Proof.
  induction s as [|c s IH]; [reflexivity|].
  intros Hp Hl. assert (Hp' := Hp). unfold plain_text in Hp. simpl in Hp.
  apply andb_true_iff in Hp. destruct Hp as [H1 H2].
  destruct (fold_cp_plain c H1) as [Hne [_ Hs]].
  destruct s as [|d s'].
  - simpl. rewrite app_nil_r. apply last_ok_nospace, Hs.
    simpl in Hl. now apply negb_true_iff.
  - change (flat_map fold_cp (c :: d :: s'))
      with (fold_cp c ++ flat_map fold_cp (d :: s')).
    rewrite last_ok_app.
    + apply IH; [exact H2|exact Hl].
    + apply fold_plain_nonempty; [exact H2|discriminate].
Qed.

End TextFacts.

(* ===================================================================== *)
(** * Normalisation of names *)
(* ===================================================================== *)

Module NormalizeProps.
Import Text TextFacts DemandasProcessor.
Local Open Scope N_scope.

Lemma normalized_fold x : normalized x = flat_map fold_cp (strip x).
Proof. unfold normalized, normalize_name. apply fold_text. Qed.

Lemma normalize_name_normalized x :
  normalize_name (Some x) = Some (normalized x).
Proof. reflexivity. Qed.

(** A normalised plain text is made of capital ASCII characters and has
    no space at either end. *)
Lemma normalized_plain_shape x :
  plain_text x = true ->
  forallb capital_ascii (normalized x) = true /\
  head_ok (normalized x) = true /\ last_ok (normalized x) = true.
Proof.
  intros Hp. rewrite normalized_fold.
  assert (Hs : plain_text (strip x) = true) by now apply forallb_strip.
  repeat split.
  - now apply fold_plain_capitals.
  - apply fold_plain_head_ok; [exact Hs|apply strip_head_ok].
  - apply fold_plain_last_ok; [exact Hs|apply strip_last_ok].
Qed.

Lemma normalized_fixed y :
  forallb capital_ascii y = true -> head_ok y = true -> last_ok y = true ->
  normalized y = y.
Proof.
  intros Hc Hh Hl. rewrite normalized_fold, (strip_id y Hh Hl).
  now apply fold_capitals.
Qed.

(** Normalisation is idempotent on every text made of ASCII characters,
    accented Latin-1 letters and sharp s. *)
Lemma normalize_name_idempotent_plain (x : str) :
  plain_text x = true ->
  normalize_name (normalize_name (Some x)) = normalize_name (Some x).
Proof.
  intros Hp. rewrite !normalize_name_normalized. f_equal.
  destruct (normalized_plain_shape x Hp) as [Hc [Hh Hl]].
  now apply normalized_fixed.
Qed.

(** C7.  On the feminine ordinal indicator (U+00AA) [normalize_name]
    returns a small "a": the character has no capital, so [upper()]
    leaves it, the decomposition that follows turns it into "a", and
    nothing upper-cases the result.  A second pass gives "A": the
    function is not idempotent there, and its first result is not in
    upper case. *)
Theorem normalize_name_ordinal_indicator :
  normalize_name (Some [0xAA]) = Some (lit "a") /\
  normalize_name (normalize_name (Some [0xAA])) = Some (lit "A") /\
  normalize_name (normalize_name (Some [0xAA])) <> normalize_name (Some [0xAA]).
Proof. repeat split. vm_compute. discriminate. Qed.

End NormalizeProps.

(* ===================================================================== *)
(** * Dictionaries and frames *)
(* ===================================================================== *)

Module FrameFacts.
Import Text TextFacts Frame.

Section Dict.
Context {V : Type}.
Implicit Types (m : list (str * V)) (k : str) (v : V).

Lemma lookup_cons k k' v m :
  lookup k ((k', v) :: m) = if str_eqb k' k then Some v else lookup k m.
Proof. unfold lookup. simpl. now destruct (str_eqb k' k). Qed.

Lemma lookup_dict_set_eq k v m : lookup k (dict_set k v m) = Some v.
Proof.
  induction m as [|[k' v'] m IH]; simpl.
  - rewrite lookup_cons, str_eqb_refl. reflexivity.
  - destruct (str_eqb k' k) eqn:E.
    + rewrite lookup_cons, str_eqb_refl. reflexivity.
    + rewrite lookup_cons, E. exact IH.
Qed.

Lemma lookup_dict_set_ne k k' v m :
  k <> k' -> lookup k' (dict_set k v m) = lookup k' m.
Proof.
  intros Hne. apply str_eqb_neq in Hne.
  induction m as [|[k0 v0] m IH]; simpl.
  - rewrite lookup_cons, Hne. reflexivity.
  - destruct (str_eqb k0 k) eqn:E.
    + apply str_eqb_eq in E. subst k0. rewrite !lookup_cons, Hne. reflexivity.
    + rewrite !lookup_cons, IH. reflexivity.
Qed.

Lemma lookup_dict_del_eq k m : lookup k (dict_del k m) = None.
Proof.
  unfold dict_del. induction m as [|[k' v'] m IH]; simpl; [reflexivity|].
  destruct (str_eqb k' k) eqn:E; simpl; [exact IH|].
  rewrite lookup_cons, E. exact IH.
Qed.

Lemma lookup_In k v m : lookup k m = Some v -> In (k, v) m.
Proof.
  induction m as [|[k' v'] m IH]; [discriminate|].
  rewrite lookup_cons. destruct (str_eqb k' k) eqn:E.
  - apply str_eqb_eq in E. intros [= ->]. subst. now left.
  - intros H. right. auto.
Qed.

End Dict.

Lemma mem_cons x y ys : mem x (y :: ys) = str_eqb x y || mem x ys.
Proof. reflexivity. Qed.

End FrameFacts.

(* ===================================================================== *)
(** * The processor of the dashboard: columns, teams, dates *)
(* ===================================================================== *)

Module DataProcessorProps.
Import Text TextFacts Frame FrameFacts DataProcessor.
Local Open Scope N_scope.

(** ** Column resolution *)

Lemma identify_columns_from columns mapping col :
  lookup col (fold_left identify_step columns mapping) =
  match (if mem col columns then expected_target (strip (upper col)) else None) with
  | Some target => Some target
  | None => lookup col mapping
  end.
Proof.
  revert mapping. induction columns as [|c columns IH]; intros mapping.
  - reflexivity.
  - simpl fold_left. rewrite IH, mem_cons. unfold identify_step.
    destruct (mem col columns) eqn:Em.
    + rewrite orb_true_r.
      destruct (expected_target (strip (upper col))) eqn:Et; [reflexivity|].
      destruct (str_eqb col c) eqn:Ec.
      * apply str_eqb_eq in Ec. subst c. now rewrite Et.
      * apply str_eqb_neq in Ec.
        destruct (expected_target (strip (upper c))); [|reflexivity].
        apply lookup_dict_set_ne. congruence.
    + rewrite orb_false_r. destruct (str_eqb col c) eqn:Ec.
      * apply str_eqb_eq in Ec. subst c.
        destruct (expected_target (strip (upper col))); [|reflexivity].
        apply lookup_dict_set_eq.
      * apply str_eqb_neq in Ec.
        destruct (expected_target (strip (upper c))); [|reflexivity].
        apply lookup_dict_set_ne. congruence.
Qed.

Lemma identify_columns_lookup columns col :
  lookup col (identify_columns columns) =
  if mem col columns then expected_target (strip (upper col)) else None.
Proof.
  unfold identify_columns. rewrite identify_columns_from.
  destruct (if mem col columns then _ else _); reflexivity.
Qed.

Lemma get_situacao_column_present df col :
  DataService.get_situacao_column df = Some col -> has_column col df = true.
Proof.
  unfold DataService.get_situacao_column. intros H.
  apply find_some in H. tauto.
Qed.

(** ** Team of a responsible *)

Lemma first_match_skip entry roster r team :
  mem r (snd entry) = false ->
  first_match roster r team -> first_match (entry :: roster) r team.
Proof.
  intros Hno (pre & members & post & -> & Hin & Hpre).
  exists (entry :: pre), members, post. repeat split; [exact Hin|].
  intros e [<-|He]; auto.
Qed.

(** The first entry that contains [r], or the default when none does. *)
Lemma find_team_spec (fallback : str) roster r :
  let result := match find (fun entry => mem r (snd entry)) roster with
                | Some (team, _) => team
                | None => fallback
                end in
  (exists team, first_match roster r team /\ result = team) \/
  (no_match roster r /\ result = fallback).
Proof.
  induction roster as [|[team members] roster IH]; simpl.
  - right. split; [intros e []|reflexivity].
  - destruct (mem r members) eqn:Em.
    + left. exists team. split; [|reflexivity].
      exists [], members, roster. repeat split; [exact Em|intros e []].
    + destruct IH as [(t & Hf & Ht)|[Hn Ho]].
      * left. exists t. split; [|exact Ht].
        now apply (first_match_skip (team, members)).
      * right. split; [|exact Ho].
        intros e [<-|He]; [exact Em|now apply Hn].
Qed.

Lemma get_team_find resp :
  DemandasProcessor.get_team (Some resp) =
  match find (fun entry => mem (DemandasProcessor.normalized resp) (snd entry))
             DemandasProcessor.get_team_rosters with
  | Some (team, _) => team
  | None => DemandasProcessor.Outros
  end.
Proof.
  unfold DemandasProcessor.get_team, DemandasProcessor.get_team_rosters.
  cbn [find snd].
  destruct (mem _ DemandasProcessor.equipe_julio); [reflexivity|].
  destruct (mem _ DemandasProcessor.equipe_leandro_adriano); reflexivity.
Qed.

(** C2, as amended.  [_map_to_team] returns the first team, in the order
    of the roster, whose members contain the text, and OUTROS when no
    team does; the "not informed" text is in no roster and is classified
    OUTROS.  [get_team] returns "Sem Responsavel" for a missing
    responsible and otherwise the first of its two teams whose roster
    contains the normalised name, or "Outros". *)
Theorem map_to_team_first_match (roster : list (str * list str)) (r : str) :
  ((exists team, first_match roster r team /\ map_to_team_in roster r = team)
   \/ (no_match roster r /\ map_to_team_in roster r = OUTROS)) /\
  _map_to_team NAO_INFORMADO = OUTROS /\
  DemandasProcessor.get_team None = DemandasProcessor.Sem_Responsavel /\
  ((exists team,
       first_match DemandasProcessor.get_team_rosters
                   (DemandasProcessor.normalized r) team /\
       DemandasProcessor.get_team (Some r) = team)
   \/ (no_match DemandasProcessor.get_team_rosters
                (DemandasProcessor.normalized r) /\
       DemandasProcessor.get_team (Some r) = DemandasProcessor.Outros)).
Proof.
  split; [apply (find_team_spec OUTROS)|].
  split; [reflexivity|]. split; [reflexivity|].
  rewrite get_team_find. apply (find_team_spec DemandasProcessor.Outros).
Qed.

(** C2, as stated, fails: the "not informed" text gets the label of the
    other responsibles, not a label of its own. *)
Lemma map_to_team_sentinel_is_outros :
  ~ (exists no_responsible,
        no_responsible <> OUTROS /\
        _map_to_team NAO_INFORMADO = no_responsible).
Proof. intros (l & Hne & H). apply Hne. symmetry. exact H. Qed.

(** ** [process_dataframe] *)

Lemma filter_map_comm {A B : Type} (p : B -> bool) (f : A -> B) l :
  filter p (map f l) = map f (filter (fun a => p (f a)) l).
Proof.
  induction l as [|a l IH]; [reflexivity|].
  simpl. destruct (p (f a)); simpl; now rewrite IH.
Qed.

Lemma count_label_has_column col df :
  has_column col df = match count_label col df with O => false | S _ => true end.
Proof.
  unfold has_column, count_label, mem.
  induction (labels df) as [|c l IH]; [reflexivity|].
  simpl. destruct (str_eqb col c); [reflexivity|exact IH].
Qed.

Lemma labels_set_dtype col dt df :
  labels (set_dtype col dt df) =
  if has_column col df then labels df else labels df ++ [col].
Proof.
  unfold set_dtype, labels at 1. simpl columns.
  destruct (has_column col df).
  - unfold labels. rewrite map_map. apply map_ext. intros c.
    destruct (str_eqb (fst c) col) eqn:E; [|reflexivity].
    apply str_eqb_eq in E. now rewrite E.
  - now rewrite map_app.
Qed.

Lemma count_label_set_dtype c col dt df :
  c <> col -> count_label c (set_dtype col dt df) = count_label c df.
Proof.
  intros Hne. unfold count_label. rewrite labels_set_dtype.
  destruct (has_column col df); [reflexivity|].
  rewrite filter_app, length_app. simpl.
  apply str_eqb_neq in Hne. rewrite Hne. simpl. lia.
Qed.

Lemma has_column_set_dtype c col dt df :
  c <> col -> has_column c (set_dtype col dt df) = has_column c df.
Proof.
  intros Hne. now rewrite !count_label_has_column, count_label_set_dtype.
Qed.

Lemma stamp_to_datetime_row col dt r :
  lookup col (stamp (to_datetime_row col dt r)) = to_datetime_cell col dt r.
Proof.
  destruct dt; try reflexivity;
    unfold to_datetime_row, to_datetime_cell; simpl stamp;
    (destruct (lookup col (text r)) as [s|];
     [destruct (to_datetime_dmy s)|]);
    auto using lookup_dict_set_eq, lookup_dict_del_eq.
Qed.

Lemma text_step_refl q : text_step q q.
Proof.
  split; [|reflexivity].
  exists (fun r => r). split; [now rewrite map_id|reflexivity].
Qed.

Lemma stamp_fillna col v r : stamp (fillna col v r) = stamp r.
Proof. unfold fillna. now destruct (lookup col (text r)). Qed.

Lemma process_responsavel_step q q' :
  process_responsavel q = Some q' -> text_step q q'.
Proof.
  unfold process_responsavel.
  destruct (count_label responsavel q) as [|[|n]]; intros [= <-].
  - apply text_step_refl.
  - split.
    + eexists. split; [reflexivity|].
      intros r. simpl. apply stamp_fillna.
    + intros c H1 H2 H3.
      now rewrite !count_label_set_dtype.
Qed.

Lemma process_situacao_step q q' :
  process_situacao q = Some q' -> text_step q q'.
Proof.
  unfold process_situacao.
  destruct (count_label situacao q) as [|[|n]]; intros [= <-].
  - apply text_step_refl.
  - split.
    + eexists. split; [reflexivity|].
      intros r. simpl. apply stamp_fillna.
    + intros c H1 H2 H3. now rewrite count_label_set_dtype.
Qed.

Lemma resolucao_other :
  resolucao <> responsavel /\ resolucao <> equipe /\ resolucao <> situacao.
Proof. repeat split; discriminate. Qed.

Lemma process_responsavel_total q :
  (count_label responsavel q <= 1)%nat ->
  exists q', process_responsavel q = Some q'.
Proof.
  unfold process_responsavel.
  destruct (count_label responsavel q) as [|[|n]]; intros H; eauto. lia.
Qed.

Lemma process_situacao_total q :
  (count_label situacao q <= 1)%nat ->
  exists q', process_situacao q = Some q'.
Proof.
  unfold process_situacao.
  destruct (count_label situacao q) as [|[|n]]; intros H; eauto. lia.
Qed.

Lemma process_responsavel_situacao q q' :
  process_responsavel q = Some q' ->
  count_label situacao q' = count_label situacao q.
Proof.
  unfold process_responsavel.
  destruct (count_label responsavel q) as [|[|n]]; intros [= <-];
    [reflexivity|].
  now rewrite !count_label_set_dtype.
Qed.

Lemma count_label_same_set_dtype col dt df :
  has_column col df = true ->
  count_label col (set_dtype col dt df) = count_label col df.
Proof.
  intros H. unfold count_label. now rewrite labels_set_dtype, H.
Qed.

Lemma process_resolucao_one p :
  count_label resolucao p = 1%nat ->
  exists p1,
    process_resolucao p = Some p1 /\
    rows p1 = map (to_datetime_row resolucao (dtype_of resolucao p)) (rows p) /\
    count_label resolucao p1 = 1%nat /\
    count_label responsavel p1 = count_label responsavel p /\
    count_label situacao p1 = count_label situacao p.
Proof.
  intros H1. unfold process_resolucao. rewrite H1.
  eexists. split; [reflexivity|]. split; [reflexivity|].
  repeat split.
  - rewrite count_label_same_set_dtype; [exact H1|].
    rewrite count_label_has_column.
    change (count_label resolucao (with_rows p _))
      with (count_label resolucao p).
    now rewrite H1.
  - now rewrite count_label_set_dtype.
  - now rewrite count_label_set_dtype.
Qed.

Lemma text_step_resolucao q q' :
  text_step q q' -> count_label resolucao q' = count_label resolucao q.
Proof.
  intros [_ H]. destruct resolucao_other as (H1 & H2 & H3). now apply H.
Qed.

(** The steps after the renaming, on any frame [p]. *)
Lemma process_steps_total p :
  count_label resolucao p = 1%nat ->
  (count_label responsavel p <= 1)%nat ->
  (count_label situacao p <= 1)%nat ->
  exists out,
    bind (process_resolucao p) (fun df =>
    bind (process_responsavel df) (fun df =>
    bind (process_situacao df) dropna_resolucao)) = Some out.
Proof.
  intros H1 H2 H3.
  destruct (process_resolucao_one p H1) as (p1 & -> & _ & C1 & C2 & C3).
  simpl bind.
  destruct (process_responsavel_total p1) as [p2 E2]; [now rewrite C2|].
  rewrite E2. simpl bind.
  destruct (process_situacao_total p2) as [p3 E3].
  { rewrite (process_responsavel_situacao _ _ E2). now rewrite C3. }
  rewrite E3. simpl bind. unfold dropna_resolucao.
  rewrite count_label_has_column.
  rewrite (text_step_resolucao _ _ (process_situacao_step _ _ E3)).
  rewrite (text_step_resolucao _ _ (process_responsavel_step _ _ E2)).
  rewrite C1. eauto.
Qed.

Lemma process_steps_rows p out :
  bind (process_resolucao p) (fun df =>
  bind (process_responsavel df) (fun df =>
  bind (process_situacao df) dropna_resolucao)) = Some out ->
  exists finish,
    rows out =
    map finish
        (filter (fun r =>
                   match to_datetime_cell resolucao (dtype_of resolucao p) r with
                   | Some _ => true
                   | None => false
                   end)
                (rows p)) /\
    forall r,
      lookup resolucao (stamp (finish r)) =
      to_datetime_cell resolucao (dtype_of resolucao p) r.
Proof.
  intros H.
  destruct (process_resolucao p) as [p1|] eqn:E1; [|discriminate].
  simpl bind in H.
  destruct (process_responsavel p1) as [p2|] eqn:E2; [|discriminate].
  simpl bind in H.
  destruct (process_situacao p2) as [p3|] eqn:E3; [|discriminate].
  simpl bind in H. unfold dropna_resolucao in H.
  destruct (has_column resolucao p3) eqn:Hc; [|discriminate].
  injection H as <-.
  assert (S2 := process_responsavel_step _ _ E2).
  assert (S3 := process_situacao_step _ _ E3).
  rewrite count_label_has_column in Hc.
  rewrite (text_step_resolucao _ _ S3), (text_step_resolucao _ _ S2) in Hc.
  assert (H1 : count_label resolucao p = 1%nat).
  { unfold process_resolucao in E1.
    destruct (count_label resolucao p) as [|[|n]] eqn:En;
      [|reflexivity|discriminate].
    injection E1 as <-. rewrite En in Hc. discriminate. }
  destruct (process_resolucao_one p H1) as (p1' & E1' & R1 & _).
  rewrite E1 in E1'. injection E1' as <-.
  destruct S2 as [(g2 & R2 & G2) _]. destruct S3 as [(g3 & R3 & G3) _].
  exists (fun r => g3 (g2 (to_datetime_row resolucao
                                          (dtype_of resolucao p) r))).
  split.
  - cbn [rows with_rows]. rewrite R3, R2, R1, !map_map, filter_map_comm.
    f_equal. apply filter_ext. intros r. unfold notna_stamp.
    now rewrite G3, G2, stamp_to_datetime_row.
  - intros r. now rewrite G3, G2, stamp_to_datetime_row.
Qed.

Lemma rows_prepared df : rows (prepared df) = map (prepare_row df) (rows df).
Proof.
  unfold prepared, rename, fill_objects, prepare_row. simpl rows.
  now rewrite map_map.
Qed.

End DataProcessorProps.

(* ===================================================================== *)
(** * Counters *)
(* ===================================================================== *)

Module MetricsFacts.
Import Frame Metrics.
Local Open Scope Z_scope.

(** Counters are equal when each of the twelve is. *)
Lemma counters_eq a b :
  resolvidos a = resolvidos b -> pendente_ativo a = pendente_ativo b ->
  pendente_receptivo a = pendente_receptivo b ->
  prioridade a = prioridade b -> prioridade_total a = prioridade_total b ->
  soma_prioridades a = soma_prioridades b -> analise a = analise b ->
  analise_dia a = analise_dia b -> receptivo a = receptivo b ->
  quitado_cliente a = quitado_cliente b -> quitado a = quitado b ->
  aprovados a = aprovados b -> a = b.
Proof. destruct a, b. simpl. intros. subst. reflexivity. Qed.

Ltac counters := apply counters_eq; simpl; lia.

Lemma add_zero_r m : add m zero = m.
Proof. counters. Qed.

Lemma add_zero_l m : add zero m = m.
Proof. counters. Qed.

Lemma add_comm a b : add a b = add b a.
Proof. counters. Qed.

Lemma add_assoc a b c : add a (add b c) = add (add a b) c.
Proof. counters. Qed.

Lemma sum_app xs ys : sum (xs ++ ys) = add (sum xs) (sum ys).
Proof.
  induction xs as [|x xs IH]; simpl.
  - now rewrite add_zero_l.
  - now rewrite IH, add_assoc.
Qed.

(** A loop that adds to the counters is the sum of what it adds. *)
Lemma fold_left_add {A : Type} (f : A -> Counters) l m :
  fold_left (fun m x => add m (f x)) l m = add m (sum (map f l)).
Proof.
  revert m. induction l as [|x l IH]; intros m; simpl.
  - now rewrite add_zero_r.
  - now rewrite IH, add_assoc.
Qed.

Lemma sum_map_add {A : Type} (f g : A -> Counters) l :
  sum (map (fun x => add (f x) (g x)) l) = add (sum (map f l)) (sum (map g l)).
Proof.
  induction l as [|x l IH]; simpl.
  - now rewrite add_zero_l.
  - rewrite IH. rewrite !add_assoc. f_equal.
    rewrite <- !add_assoc. f_equal. apply add_comm.
Qed.

Lemma sum_map_zero {A : Type} (l : list A) : sum (map (fun _ => zero) l) = zero.
Proof. induction l; simpl; [reflexivity|]. now rewrite IHl, add_zero_l. Qed.

(** Sums over two lists may be taken in either order. *)
Lemma sum_exchange {A B : Type} (f : A -> B -> Counters) xs ys :
  sum (map (fun x => sum (map (f x) ys)) xs) =
  sum (map (fun y => sum (map (fun x => f x y) xs)) ys).
Proof.
  induction xs as [|x xs IH]; simpl.
  - now rewrite sum_map_zero.
  - now rewrite IH, <- sum_map_add.
Qed.

Lemma fold_left_ext {A B : Type} (f g : A -> B -> A) l a :
  (forall a b, f a b = g a b) -> fold_left f l a = fold_left g l a.
Proof.
  intros H. revert a. induction l as [|b l IH]; intros a; simpl;
    [reflexivity|]. now rewrite H, IH.
Qed.

Lemma mask_sum_nil mask : mask_sum mask [] = 0.
Proof. reflexivity. Qed.

Lemma mask_sum_app mask a b :
  mask_sum mask (a ++ b) = mask_sum mask a + mask_sum mask b.
Proof. unfold mask_sum. rewrite filter_app, length_app. lia. Qed.

Lemma mask_sum_cons mask r rs :
  mask_sum mask (r :: rs) = (if mask r then 1 else 0) + mask_sum mask rs.
Proof.
  unfold mask_sum. simpl. destruct (mask r); simpl length; lia.
Qed.

Lemma mask_sum_and_none f g rs :
  existsb f rs = false -> mask_sum (fun r => f r && g r) rs = 0.
Proof.
  induction rs as [|r rs IH]; [reflexivity|].
  simpl. intros H. apply orb_false_iff in H. destruct H as [H1 H2].
  rewrite mask_sum_cons, H1, (IH H2). reflexivity.
Qed.

End MetricsFacts.

(* ===================================================================== *)
(** * The metrics service *)
(* ===================================================================== *)

Module DataServiceProps.
Import Text TextFacts Frame FrameFacts Metrics MetricsFacts DataService.
Local Open Scope Z_scope.

Lemma with_rows_id df : with_rows df (rows df) = df.
Proof. now destruct df. Qed.

Lemma filter_true {A : Type} (l : list A) : filter (fun _ => true) l = l.
Proof. induction l; simpl; congruence. Qed.

(** The team filter keeps the rows that pass [team_mask]. *)
Lemma filter_team_rows team df :
  filter_team team df = with_rows df (filter (team_mask team df) (rows df)).
Proof.
  unfold filter_team, team_mask.
  destruct team as [[|c t]|];
    try (now rewrite filter_true, with_rows_id).
  destruct (equipe_column df); [reflexivity|].
  now rewrite filter_true, with_rows_id.
Qed.

Lemma empty_with_rows df rs :
  empty df = false ->
  empty (with_rows df rs) = match rs with [] => true | _ :: _ => false end.
Proof.
  unfold empty. simpl. destruct (columns df); [discriminate|].
  destruct (rows df); [discriminate|]. reflexivity.
Qed.

Lemma sheet_counts_nil c ch : sheet_counts c ch [] = zero.
Proof. unfold sheet_counts. now destruct ch. Qed.

Lemma sheet_counts_app c ch a b :
  sheet_counts c ch (a ++ b) = add (sheet_counts c ch a) (sheet_counts c ch b).
Proof.
  apply counters_eq; simpl; destruct ch; rewrite ?mask_sum_app; reflexivity.
Qed.

(** The rows of a sheet that a query selects. *)
Lemma df_date_rows date team df :
  rows (df_date date team df) =
  filter (date_mask date df) (filter (team_mask team df) (rows df)).
Proof. unfold df_date. rewrite filter_team_rows. reflexivity. Qed.

Lemma get_situacao_column_filter_team team df :
  get_situacao_column (filter_team team df) = get_situacao_column df.
Proof. rewrite filter_team_rows. reflexivity. Qed.

(** What a sheet adds: nothing when it is empty or has no status column,
    and else the counts over the selected rows. *)
Lemma sheet_contribution_eq date team df :
  sheet_contribution date team df =
  if empty df then zero
  else match get_situacao_column df with
       | None => zero
       | Some c =>
         sheet_counts c (has_column ATIVO_RECEPTIVO df)
                      (rows (df_date date team df))
       end.
Proof.
  unfold sheet_contribution, sheet_metrics.
  destruct (empty df) eqn:Ee; [reflexivity|].
  rewrite get_situacao_column_filter_team.
  destruct (get_situacao_column df) as [c|]; [|reflexivity].
  assert (Hd : df_date date team df
               = with_rows df (rows (df_date date team df))).
  { unfold df_date. rewrite filter_team_rows. reflexivity. }
  rewrite Hd at 1. rewrite (empty_with_rows _ _ Ee).
  destruct (rows (df_date date team df)) eqn:Er.
  - now rewrite sheet_counts_nil.
  - rewrite add_zero_l. rewrite Hd. reflexivity.
Qed.

Lemma sheet_metrics_add date team metrics df :
  sheet_metrics date team metrics df =
  add metrics (sheet_contribution date team df).
Proof.
  unfold sheet_contribution, sheet_metrics.
  destruct (empty df); [now rewrite add_zero_r|].
  destruct (get_situacao_column _); [|now rewrite add_zero_r].
  destruct (empty _); [now rewrite add_zero_r|].
  now rewrite add_zero_l.
Qed.

(** A query is the sum of what the sheets add. *)
Lemma get_daily_metrics_sum dfs date team :
  counters (get_daily_metrics dfs date team) =
  sum (map (sheet_contribution date team) (map snd dfs)).
Proof.
  unfold get_daily_metrics. simpl counters.
  rewrite (fold_left_ext (sheet_metrics date team)
             (fun m df => add m (sheet_contribution date team df))).
  - now rewrite fold_left_add, add_zero_l.
  - intros m df. apply sheet_metrics_add.
Qed.

End DataServiceProps.

(* ===================================================================== *)
(** * The dashboard: chunks *)
(* ===================================================================== *)

Module DashboardProps.
Import Text TextFacts Frame FrameFacts Metrics MetricsFacts.
Import DataServiceProps Dashboard.
Local Open Scope Z_scope.

(** ** Cutting a list into chunks *)

Section Chunks.
Context {A : Type}.
Implicit Types (l : list A) (step n : nat).

Lemma firstn_min_length k l :
  firstn (Nat.min k (List.length l)) l = firstn k l.
Proof.
  destruct (Nat.le_ge_cases k (List.length l)) as [H|H].
  - now rewrite Nat.min_l.
  - rewrite Nat.min_r by exact H.
    now rewrite firstn_all, firstn_all2.
Qed.

Lemma concat_chunks_of step n l :
  (0 < step)%nat -> (List.length l <= n * step)%nat ->
  concat (chunks_of step n l) = l.
Proof.
  intros Hs. unfold chunks_of. revert l.
  induction n as [|n IH]; intros l Hl.
  - destruct l; [reflexivity|simpl in Hl; lia].
  - rewrite <- cons_seq, <- seq_shift, map_cons, map_map. simpl concat.
    rewrite Nat.sub_0_r, firstn_min_length.
    transitivity (firstn step l ++ skipn step l); [|apply firstn_skipn].
    f_equal.
    etransitivity; [|apply (IH (skipn step l))].
    + f_equal. apply map_ext. intros i.
      rewrite length_skipn, skipn_skipn.
      replace (i * step + step)%nat with (step + i * step)%nat by lia.
      f_equal. lia.
    + rewrite length_skipn. simpl in Hl. lia.
Qed.

Lemma chunk_count_enough stop step :
  (0 < step)%nat -> (stop <= (stop + step - 1) / step * step)%nat.
Proof.
  intros Hs.
  pose proof (Nat.div_mod (stop + step - 1) step ltac:(lia)) as Hd.
  pose proof (Nat.mod_upper_bound (stop + step - 1) step ltac:(lia)) as Hm.
  nia.
Qed.

End Chunks.

Lemma fold_left_map {A B C : Type} (f : A -> C -> A) (g : B -> C) l a :
  fold_left f (map g l) a = fold_left (fun a x => f a (g x)) l a.
Proof.
  revert a. induction l as [|x l IH]; intros a; simpl; [reflexivity|].
  apply IH.
Qed.

(** An additive function of the rows, summed over pieces, is its value on
    the whole. *)
Lemma sum_map_concat (H : list Row -> Counters) ls :
  H [] = zero -> (forall a b, H (a ++ b) = add (H a) (H b)) ->
  sum (map H ls) = H (concat ls).
Proof.
  intros H0 Happ. induction ls as [|l ls IH]; simpl.
  - now rewrite H0.
  - now rewrite IH, Happ.
Qed.

(** ** One chunk *)

Lemma with_rows_nil df : rows df = [] -> with_rows df [] = df.
Proof. destruct df. simpl. now intros ->. Qed.

Lemma chunk_filter_team_rows team df_chunk :
  filter_team team df_chunk =
  with_rows df_chunk
            (filter (DataService.team_mask team df_chunk) (rows df_chunk)).
Proof.
  unfold filter_team, DataService.team_mask.
  destruct team as [[|c t]|];
    try (now rewrite filter_true, with_rows_id).
  destruct (DataService.equipe_column df_chunk);
    [|now rewrite filter_true, with_rows_id].
  unfold series_empty. destruct (rows df_chunk) eqn:E; [|reflexivity].
  simpl. symmetry. now apply with_rows_nil.
Qed.

Lemma date_mask_match date df_chunk r :
  date_mask date df_chunk r =
  negb (series_empty df_chunk) && date_match date df_chunk r.
Proof.
  unfold date_mask, date_match.
  induction date_columns as [|c l IH]; simpl.
  - now rewrite andb_false_r.
  - rewrite IH.
    destruct (has_column c df_chunk), (series_empty df_chunk),
      (is_datetime64_any_dtype c df_chunk), (dt_date_eq c date r);
      reflexivity.
Qed.

Lemma filter_date_mask date df_chunk :
  filter (date_mask date df_chunk) (rows df_chunk) =
  filter (date_match date df_chunk) (rows df_chunk).
Proof.
  destruct (rows df_chunk) as [|r0 l0] eqn:E; [reflexivity|].
  apply filter_ext. intros r. rewrite date_mask_match.
  unfold series_empty. now rewrite E.
Qed.

Lemma analise_dia_any (f g : Row -> bool) (ok : bool) rs :
  (if existsb f rs
   then if ok then mask_sum (fun r => f r && g r) rs else 0
   else 0)
  = if ok then mask_sum (fun r => f r && g r) rs else 0.
Proof.
  destruct (existsb f rs) eqn:E; [reflexivity|].
  destruct ok; [|reflexivity]. now rewrite mask_sum_and_none.
Qed.

Lemma chunk_counts_nil c ch ok date : chunk_counts c ch ok date [] = zero.
Proof. unfold chunk_counts. now destruct ch. Qed.

Lemma chunk_counts_app c ch ok date a b :
  chunk_counts c ch ok date (a ++ b) =
  add (chunk_counts c ch ok date a) (chunk_counts c ch ok date b).
Proof.
  apply counters_eq; simpl; rewrite ?analise_dia_any;
    destruct ch, ok; rewrite ?mask_sum_app; reflexivity.
Qed.

(** What a chunk adds: the counts over its selected rows. *)
Lemma chunk_contribution_eq date team df rs :
  chunk_contribution date team (with_rows df rs) =
  match get_situacao_column df with
  | None => zero
  | Some c =>
    chunk_counts c (has_column DataService.ATIVO_RECEPTIVO df)
                 (has_column (lit "DATA") df
                  && is_datetime64_any_dtype (lit "DATA") df)
                 date (selected date team df rs)
  end.
Proof.
  unfold chunk_contribution, chunk_metrics.
  rewrite chunk_filter_team_rows.
  set (L := filter (DataService.team_mask team (with_rows df rs))
                   (rows (with_rows df rs))).
  change (get_situacao_column (with_rows (with_rows df rs) L))
    with (get_situacao_column df).
  assert (HL : filter (date_mask date (with_rows (with_rows df rs) L))
                      (rows (with_rows (with_rows df rs) L))
               = selected date team df rs).
  { rewrite filter_date_mask. reflexivity. }
  rewrite HL.
  destruct (get_situacao_column df) as [c|] eqn:Ec.
  - unfold empty. simpl columns. simpl rows.
    destruct (columns df) eqn:Ecol.
    + unfold get_situacao_column, DataService.get_situacao_column,
        has_column, labels in Ec. rewrite Ecol in Ec. discriminate.
    + destruct (selected date team df rs) eqn:Es.
      * now rewrite chunk_counts_nil.
      * rewrite add_zero_l. unfold has_column, is_datetime64_any_dtype, labels.
        simpl columns. rewrite Ecol. reflexivity.
  - now destruct (empty _).
Qed.

Lemma chunk_contribution_whole date team df :
  chunk_contribution date team df =
  match get_situacao_column df with
  | None => zero
  | Some c =>
    chunk_counts c (has_column DataService.ATIVO_RECEPTIVO df)
                 (has_column (lit "DATA") df
                  && is_datetime64_any_dtype (lit "DATA") df)
                 date (selected date team df (rows df))
  end.
Proof.
  pose proof (chunk_contribution_eq date team df (rows df)) as H.
  now rewrite with_rows_id in H.
Qed.

Lemma chunk_contribution_app date team df a b :
  chunk_contribution date team (with_rows df (a ++ b)) =
  add (chunk_contribution date team (with_rows df a))
      (chunk_contribution date team (with_rows df b)).
Proof.
  rewrite !chunk_contribution_eq.
  destruct (get_situacao_column df); [|now rewrite add_zero_l].
  unfold selected. now rewrite !filter_app, chunk_counts_app.
Qed.

Lemma chunk_contribution_nil date team df :
  chunk_contribution date team (with_rows df []) = zero.
Proof.
  rewrite chunk_contribution_eq. destruct (get_situacao_column df);
    [apply chunk_counts_nil|reflexivity].
Qed.

Lemma chunk_metrics_add date team metrics df_chunk :
  chunk_metrics date team metrics df_chunk =
  add metrics (chunk_contribution date team df_chunk).
Proof.
  unfold chunk_contribution, chunk_metrics.
  destruct (empty _); [now rewrite add_zero_r|].
  destruct (get_situacao_column _); [|now rewrite add_zero_r].
  now rewrite add_zero_l.
Qed.

(** ** One sheet: the loop over the chunks adds what the sheet adds as a
       single chunk. *)
Lemma sheet_metrics_whole chunk_size date team metrics df :
  sheet_metrics chunk_size date team metrics df =
  if empty df then metrics else chunk_metrics date team metrics df.
Proof.
  unfold sheet_metrics. destruct (empty df); [reflexivity|].
  unfold range. rewrite fold_left_map.
  set (step := Pos.to_nat chunk_size).
  set (n := ((len df + step - 1) / step)%nat).
  transitivity
    (fold_left
       (fun m rs => add m (chunk_contribution date team (with_rows df rs)))
       (chunks_of step n (rows df)) metrics).
  - unfold chunks_of. rewrite fold_left_map. apply fold_left_ext.
    intros m i. now rewrite chunk_metrics_add.
  - rewrite fold_left_add, chunk_metrics_add. f_equal.
    rewrite (sum_map_concat
               (fun rs => chunk_contribution date team (with_rows df rs))).
    + rewrite concat_chunks_of; [now rewrite with_rows_id|subst step; lia|].
      apply chunk_count_enough. subst step. lia.
    + apply chunk_contribution_nil.
    + apply chunk_contribution_app.
Qed.

End DashboardProps.

(* ===================================================================== *)
(** * Properties of the daily metrics *)
(* ===================================================================== *)

Module AggregationProps.
Import Text TextFacts Frame FrameFacts Metrics MetricsFacts.
Import DataServiceProps DashboardProps.
Local Open Scope Z_scope.

(** ** Chunks *)

(** With any batch size, the metrics are those of the whole sheets. *)
Lemma calculate_daily_metrics_whole chunk_size dfs date team :
  Dashboard.calculate_daily_metrics_with chunk_size dfs date team =
  Dashboard.whole_table_metrics dfs date team.
Proof.
  unfold Dashboard.calculate_daily_metrics_with, Dashboard.whole_table_metrics.
  apply fold_left_ext. intros m df. apply sheet_metrics_whole.
Qed.

(** C6.  The daily metrics computed with batches of one row are those
    computed with batches of 10,000 rows, for every set of sheets, date
    and team; with any batch size they are the metrics computed on the
    whole sheets. *)
Theorem chunk_size_invariance
        (dfs : list (str * DataFrame)) (date : Z) (team : option str) :
  Dashboard.calculate_daily_metrics_with 1 dfs date team =
  Dashboard.calculate_daily_metrics_with 10000 dfs date team /\
  forall chunk_size,
    Dashboard.calculate_daily_metrics_with chunk_size dfs date team =
    Dashboard.whole_table_metrics dfs date team.
Proof.
  split.
  - transitivity (Dashboard.whole_table_metrics dfs date team).
    + apply calculate_daily_metrics_whole.
    + symmetry. apply calculate_daily_metrics_whole.
  - intros chunk_size. apply calculate_daily_metrics_whole.
Qed.

(** ** Sheets without a team column *)

Lemma team_mask_no_column team df r :
  DataService.equipe_column df = None ->
  DataService.team_mask team df r = true.
Proof.
  intros H. unfold DataService.team_mask. rewrite H.
  now destruct team as [[|c t]|].
Qed.

Lemma filter_team_mask_no_column team df rs :
  DataService.equipe_column df = None ->
  filter (DataService.team_mask team df) rs = rs.
Proof.
  intros H. rewrite <- (filter_true rs) at 2. apply filter_ext.
  intros r. now apply team_mask_no_column.
Qed.

(** C10.  A sheet none of whose labels contains EQUIPE is not filtered by
    the team: whatever the team, the date and the counters so far, the
    sheet adds to the counters of the query for the team what it adds to
    those of the query for all teams, both in the service and in the
    dashboard. *)
Theorem sheet_without_team_column_unfiltered
        (df : DataFrame) (date : Z) (team : str) (metrics : Counters)
        (chunk_size : positive) :
  DataService.equipe_column df = None ->
  DataService.sheet_metrics date (Some team) metrics df =
  DataService.sheet_metrics date None metrics df /\
  Dashboard.sheet_metrics chunk_size date (Some team) metrics df =
  Dashboard.sheet_metrics chunk_size date None metrics df.
Proof.
  intros H. split.
  - rewrite !DataServiceProps.sheet_metrics_add, !sheet_contribution_eq.
    rewrite !df_date_rows, !(filter_team_mask_no_column _ _ _ H).
    reflexivity.
  - rewrite !sheet_metrics_whole. destruct (empty df); [reflexivity|].
    rewrite !chunk_metrics_add. f_equal.
    rewrite !chunk_contribution_whole.
    unfold Dashboard.selected.
    now rewrite !(filter_team_mask_no_column _ _ _ H).
Qed.

Lemma sheet_without_team_column_unfiltered_witness :
  DataService.sheet_metrics Samples.d10 (Some Samples.JULIO) zero
                            Samples.sheet_quitados =
  DataService.sheet_metrics Samples.d10 None zero Samples.sheet_quitados /\
  Dashboard.sheet_metrics 1000 Samples.d10 (Some Samples.JULIO) zero
                          Samples.sheet_quitados =
  Dashboard.sheet_metrics 1000 Samples.d10 None zero Samples.sheet_quitados.
Proof.
  apply (sheet_without_team_column_unfiltered
           Samples.sheet_quitados Samples.d10 Samples.JULIO zero 1000).
  reflexivity.
Defined.

(** ** Status categories *)

Lemma get_situacao_column_not_empty df c rs r :
  DataService.get_situacao_column df = Some c ->
  In r rs -> incl rs (rows df) -> empty df = false.
Proof.
  intros Hc Hr Hi. unfold empty.
  destruct (columns df) eqn:Ecol.
  - unfold DataService.get_situacao_column, has_column, labels in Hc.
    rewrite Ecol in Hc. discriminate.
  - destruct (rows df) eqn:Er; [|reflexivity].
    destruct (Hi r Hr).
Qed.

Lemma incl_filter {A : Type} (f : A -> bool) l : incl (filter f l) l.
Proof. intros x Hx. apply filter_In in Hx. tauto. Qed.

Lemma resolvidos_sheet_counts c ch rs :
  resolvidos (DataService.sheet_counts c ch rs) =
  mask_sum (fun r => contains_any DataService.RESOLVIDOS
                                  (DataService.situacao c r)) rs.
Proof. reflexivity. Qed.

Lemma quitado_sheet_counts c ch rs :
  quitado (DataService.sheet_counts c ch rs) =
  mask_sum (fun r => contains_any DataService.QUITADO
                                  (DataService.situacao c r)) rs.
Proof. reflexivity. Qed.

Lemma resolvidos_chunk_counts c ch ok date rs :
  resolvidos (Dashboard.chunk_counts c ch ok date rs) =
  mask_sum (fun r => contains_any DataService.RESOLVIDOS
                                  (Dashboard.situacao_series c r)) rs.
Proof. reflexivity. Qed.

Lemma quitado_chunk_counts c ch ok date rs :
  quitado (Dashboard.chunk_counts c ch ok date rs) =
  mask_sum (fun r => contains_any DataService.QUITADO
                                  (Dashboard.situacao_series c r)) rs.
Proof. reflexivity. Qed.

Lemma resolvidos_add a b : resolvidos (add a b) = resolvidos a + resolvidos b.
Proof. reflexivity. Qed.

Lemma quitado_add a b : quitado (add a b) = quitado a + quitado b.
Proof. reflexivity. Qed.

(** ** Queries without data *)

Lemma sheet_contribution_no_rows date team df :
  rows (DataService.df_date date team df) = [] ->
  DataService.sheet_contribution date team df = zero.
Proof.
  intros H. rewrite sheet_contribution_eq, H.
  destruct (empty df); [reflexivity|].
  destruct (DataService.get_situacao_column df); [|reflexivity].
  apply sheet_counts_nil.
Qed.

(** ** The range of the dates *)

Lemma fold_min_min ts a b :
  fold_left Z.min ts (Z.min a b) = Z.min a (fold_left Z.min ts b).
Proof.
  revert b. induction ts as [|t ts IH]; intros b; simpl; [reflexivity|].
  now rewrite <- Z.min_assoc, IH.
Qed.

Lemma fold_max_max ts a b :
  fold_left Z.max ts (Z.max a b) = Z.max a (fold_left Z.max ts b).
Proof.
  revert b. induction ts as [|t ts IH]; intros b; simpl; [reflexivity|].
  now rewrite <- Z.max_assoc, IH.
Qed.

Lemma fold_widen ts mn mx :
  fold_left DataService.widen ts (mn, mx) =
  (fold_left Z.min ts mn, fold_left Z.max ts mx).
Proof.
  revert mn mx. induction ts as [|t ts IH]; intros mn mx; [reflexivity|].
  simpl. unfold DataService.widen at 2. simpl. apply IH.
Qed.

(** One column widens the range by its timestamps. *)
Lemma range_step_widen df acc col :
  DataService.range_step df acc col =
  fold_left DataService.widen
            (if has_column col df && is_datetime64_any_dtype col df
             then DataService.stamps col df else [])
            acc.
Proof.
  destruct acc as [mn mx]. unfold DataService.range_step.
  destruct (has_column col df && is_datetime64_any_dtype col df);
    [|reflexivity].
  rewrite fold_widen.
  destruct (DataService.stamps col df) as [|t ts]; [reflexivity|].
  simpl. rewrite fold_min_min, fold_max_max. f_equal.
  - destruct (Z.ltb_spec (fold_left Z.min ts t) mn); lia.
  - destruct (fold_left Z.max ts t >? mx) eqn:E; lia.
Qed.

Lemma fold_left_flat_map {A B C : Type} (f : A -> C -> A) (g : B -> list C) l a :
  fold_left f (flat_map g l) a = fold_left (fun a x => fold_left f (g x) a) l a.
Proof.
  revert a. induction l as [|x l IH]; intros a; simpl; [reflexivity|].
  now rewrite fold_left_app, IH.
Qed.

Lemma get_date_range_widen dfs :
  DataService.get_date_range dfs =
  fold_left DataService.widen (DataService.loaded_dates dfs)
            (datetime_max, datetime_min).
Proof.
  unfold DataService.get_date_range, DataService.loaded_dates.
  rewrite fold_left_flat_map. apply fold_left_ext. intros acc df.
  unfold DataService.sheet_dates. rewrite fold_left_flat_map.
  apply fold_left_ext. intros a col. apply range_step_widen.
Qed.

Lemma fold_min_lower ts a :
  fold_left Z.min ts a <= a /\ forall t, In t ts -> fold_left Z.min ts a <= t.
Proof.
  revert a. induction ts as [|x ts IH]; intros a; simpl.
  - split; [lia|intros t []].
  - destruct (IH (Z.min a x)) as [H1 H2]. split; [lia|].
    intros t [<-|Ht]; [lia|auto].
Qed.

Lemma fold_min_attained ts a :
  fold_left Z.min ts a = a \/ In (fold_left Z.min ts a) ts.
Proof.
  revert a. induction ts as [|x ts IH]; intros a; simpl; [now left|].
  destruct (IH (Z.min a x)) as [H|H]; [|now right; right].
  rewrite H. destruct (Z.min_spec a x) as [[_ ->]|[_ ->]]; auto.
Qed.

Lemma fold_max_upper ts a :
  a <= fold_left Z.max ts a /\ forall t, In t ts -> t <= fold_left Z.max ts a.
Proof.
  revert a. induction ts as [|x ts IH]; intros a; simpl.
  - split; [lia|intros t []].
  - destruct (IH (Z.max a x)) as [H1 H2]. split; [lia|].
    intros t [<-|Ht]; [lia|auto].
Qed.

Lemma fold_max_attained ts a :
  fold_left Z.max ts a = a \/ In (fold_left Z.max ts a) ts.
Proof.
  revert a. induction ts as [|x ts IH]; intros a; simpl; [now left|].
  destruct (IH (Z.max a x)) as [H|H]; [|now right; right].
  rewrite H. destruct (Z.max_spec a x) as [[_ ->]|[_ ->]]; auto.
Qed.

Lemma loaded_dates_app a b :
  DataService.loaded_dates (a ++ b) =
  DataService.loaded_dates a ++ DataService.loaded_dates b.
Proof.
  unfold DataService.loaded_dates. now rewrite map_app, flat_map_app.
Qed.

(** ** Teams *)

Lemma sum_if_absent (x : Counters) k keys :
  ~ In k keys ->
  sum (map (fun k' => if str_eqb k k' then x else zero) keys) = zero.
Proof.
  induction keys as [|k' keys IH]; [reflexivity|].
  intros Hn. simpl. destruct (str_eqb k k') eqn:E.
  - apply str_eqb_eq in E. subst. exfalso. apply Hn. now left.
  - rewrite add_zero_l. apply IH. intros H. apply Hn. now right.
Qed.

Lemma sum_if_unique (x : Counters) k keys :
  NoDup keys -> In k keys ->
  sum (map (fun k' => if str_eqb k k' then x else zero) keys) = x.
Proof.
  induction keys as [|k' keys IH]; [intros _ []|].
  intros Hnd Hin. inversion Hnd as [|? ? Hk Hnd']; subst. simpl.
  destruct (str_eqb k k') eqn:E.
  - apply str_eqb_eq in E. subst k'.
    now rewrite sum_if_absent, add_zero_r.
  - rewrite add_zero_l. apply IH; [exact Hnd'|].
    destruct Hin as [->|H]; [|exact H].
    now rewrite str_eqb_refl in E.
Qed.

(** An additive function of the rows is the sum of its values on the
    groups of rows that share a key, when each row has one of the keys. *)
Lemma partition_sum (G : list Row -> Counters) (key : Row -> str) keys rs :
  G [] = zero -> (forall a b, G (a ++ b) = add (G a) (G b)) ->
  NoDup keys -> (forall r, In r rs -> In (key r) keys) ->
  sum (map (fun k => G (filter (fun r => str_eqb (key r) k) rs)) keys) = G rs.
Proof.
  intros H0 Happ Hnd. induction rs as [|r rs IH]; intros Hin.
  - simpl. rewrite H0. apply sum_map_zero.
  - rewrite (map_ext _ (fun k => add (if str_eqb (key r) k then G [r] else zero)
                                     (G (filter (fun r => str_eqb (key r) k) rs)))).
    + rewrite sum_map_add, sum_if_unique, IH.
      * now rewrite <- Happ.
      * intros x Hx. apply Hin. now right.
      * exact Hnd.
      * apply Hin. now left.
    + intros k. simpl. destruct (str_eqb (key r) k).
      * now rewrite <- Happ.
      * now rewrite add_zero_l.
Qed.

Lemma team_mask_some t df e r :
  t <> [] -> DataService.equipe_column df = Some e ->
  DataService.team_mask (Some t) df r = str_eqb (upper (astype_str e r)) (upper t).
Proof.
  intros Ht He. unfold DataService.team_mask. rewrite He.
  destruct t; [congruence|reflexivity].
Qed.

(** The groups of rows of a sheet by team, summed over the team labels,
    are the sheet. *)
Lemma teams_partition (G : list Row -> Counters) teams df :
  G [] = zero -> (forall a b, G (a ++ b) = add (G a) (G b)) ->
  NoDup (map upper teams) -> (forall t, In t teams -> t <> []) ->
  DataService.teams_cover teams df ->
  sum (map (fun t => G (filter (DataService.team_mask (Some t) df) (rows df)))
           teams)
  = G (filter (DataService.team_mask None df) (rows df)).
Proof.
  intros H0 Happ Hnd Hne (e & He & Hcov).
  change (DataService.team_mask None df) with (fun _ : Row => true).
  rewrite (filter_true (rows df)).
  rewrite <- (partition_sum G (fun r => upper (astype_str e r))
                            (map upper teams) (rows df) H0 Happ Hnd Hcov).
  rewrite map_map. f_equal. apply map_ext_in. intros t Ht. f_equal.
  apply filter_ext. intros r. now apply team_mask_some; auto.
Qed.

Lemma service_sheet_teams date teams df :
  NoDup (map upper teams) -> (forall t, In t teams -> t <> []) ->
  DataService.teams_cover teams df ->
  sum (map (fun t => DataService.sheet_contribution date (Some t) df) teams)
  = DataService.sheet_contribution date None df.
Proof.
  intros Hnd Hne Hcov.
  rewrite sheet_contribution_eq.
  rewrite (map_ext _ _ (fun t => sheet_contribution_eq date (Some t) df)).
  destruct (empty df); [apply sum_map_zero|].
  destruct (DataService.get_situacao_column df) as [c|]; [|apply sum_map_zero].
  rewrite df_date_rows.
  rewrite (map_ext _ _ (fun t => f_equal _ (df_date_rows date (Some t) df))).
  apply (teams_partition
           (fun rs => DataService.sheet_counts
                        c (has_column DataService.ATIVO_RECEPTIVO df)
                        (filter (DataService.date_mask date df) rs)));
    auto.
  - apply sheet_counts_nil.
  - intros a b. now rewrite filter_app, sheet_counts_app.
Qed.

(** What a sheet adds in the dashboard. *)
Lemma dashboard_sum dfs date team :
  Dashboard.calculate_daily_metrics dfs date team =
  sum (map (fun df => if empty df then zero
                      else Dashboard.chunk_contribution date team df)
           (map snd dfs)).
Proof.
  unfold Dashboard.calculate_daily_metrics.
  rewrite calculate_daily_metrics_whole.
  unfold Dashboard.whole_table_metrics.
  rewrite (fold_left_ext _
             (fun m df => add m (if empty df then zero
                                 else Dashboard.chunk_contribution date team df))).
  - now rewrite fold_left_add, add_zero_l.
  - intros m df. destruct (empty df); [now rewrite add_zero_r|].
    apply chunk_metrics_add.
Qed.

Lemma dashboard_sheet_teams date teams df :
  NoDup (map upper teams) -> (forall t, In t teams -> t <> []) ->
  DataService.teams_cover teams df ->
  sum (map (fun t => if empty df then zero
                     else Dashboard.chunk_contribution date (Some t) df) teams)
  = if empty df then zero else Dashboard.chunk_contribution date None df.
Proof.
  intros Hnd Hne Hcov.
  destruct (empty df); [apply sum_map_zero|].
  rewrite chunk_contribution_whole.
  rewrite (map_ext _ _ (fun t => chunk_contribution_whole date (Some t) df)).
  destruct (Dashboard.get_situacao_column df) as [c|]; [|apply sum_map_zero].
  unfold Dashboard.selected.
  apply (teams_partition
           (fun rs => Dashboard.chunk_counts
                        c (has_column DataService.ATIVO_RECEPTIVO df)
                        (has_column (lit "DATA") df
                         && is_datetime64_any_dtype (lit "DATA") df)
                        date (filter (Dashboard.date_match date df) rs)));
    auto.
  - apply chunk_counts_nil.
  - intros a b. now rewrite filter_app, chunk_counts_app.
Qed.

(** In the service, the queries for the team labels add up to the query
    for all teams, when the labels cover every sheet. *)
Lemma get_daily_metrics_teams_sum
      (dfs : list (str * DataFrame)) (date : Z) (teams : list str) :
  NoDup (map upper teams) ->
  (forall t, In t teams -> t <> []) ->
  (forall name df, In (name, df) dfs -> DataService.teams_cover teams df) ->
  sum (map (fun t => counters (DataService.get_daily_metrics dfs date (Some t)))
           teams)
  = counters (DataService.get_daily_metrics dfs date None).
Proof.
  intros Hnd Hne Hcov.
  assert (Hs : forall df, In df (map snd dfs) ->
                          DataService.teams_cover teams df).
  { intros df Hin. apply in_map_iff in Hin.
    destruct Hin as [[name df'] [<- Hin]]. now apply (Hcov name). }
  rewrite get_daily_metrics_sum.
  rewrite (map_ext _ _ (fun t => get_daily_metrics_sum dfs date (Some t))).
  rewrite (sum_exchange
             (fun t df => DataService.sheet_contribution date (Some t) df)).
  f_equal. apply map_ext_in. intros df Hin.
  apply service_sheet_teams; auto.
Qed.

(** C3, as stated, fails: with a sheet that has no team column, the
    queries for the observed teams JULIO and LEANDRO each count the row
    of that sheet, and their sum exceeds the query for all teams whatever
    the further buckets hold. *)
Lemma additivity_fails_without_team_column :
  DataService.get_teams Samples.loaded = [Samples.JULIO; Samples.LEANDRO] /\
  ~ (exists buckets : Counters,
        0 <= quitado buckets /\
        counters (DataService.get_daily_metrics Samples.loaded Samples.d10 None)
        = add (sum (map (fun t =>
                           counters (DataService.get_daily_metrics
                                       Samples.loaded Samples.d10 (Some t)))
                        (DataService.get_teams Samples.loaded)))
              buckets).
Proof.
  split; [reflexivity|].
  intros (buckets & Hb & H). apply (f_equal quitado) in H.
  rewrite quitado_add in H.
  change (2 = 3 + quitado buckets) in H. lia.
Qed.

End AggregationProps.

(* ===================================================================== *)
(** * Further facts about texts *)
(* ===================================================================== *)

Module TextMore.
Import Text TextFacts.
Local Open Scope N_scope.

(** ** Searching a text and its stripped form *)

Lemma space_differs x c : isspace x = false -> isspace c = true -> (x =? c) = false.
Proof.
  intros Hx Hc. destruct (N.eqb_spec x c); [|reflexivity].
  subst. congruence.
Qed.

Lemma startswith_app_spaces p a w :
  nospace p = true -> forallb isspace w = true ->
  startswith p (a ++ w) = startswith p a.
Proof.
  unfold nospace. intros Hp Hw. revert p Hp.
  induction a as [|y a IH]; intros p Hp.
  - destruct p as [|x p]; [now destruct w|].
    destruct w as [|c w]; [reflexivity|]. simpl in *.
    apply andb_true_iff in Hp. destruct Hp as [Hx _].
    apply andb_true_iff in Hw. destruct Hw as [Hc _].
    apply negb_true_iff in Hx. now rewrite (space_differs x c).
  - destruct p as [|x p]; [reflexivity|]. simpl in *.
    apply andb_true_iff in Hp. destruct Hp as [_ Hp]. now rewrite IH.
Qed.

Lemma contains_spaces p w :
  nospace p = true -> forallb isspace w = true ->
  contains p w = contains p [].
Proof.
  intros Hp Hw. destruct p as [|x p]; [now destruct w|].
  induction w as [|c w IH]; [reflexivity|].
  simpl in Hw. apply andb_true_iff in Hw. destruct Hw as [Hc Hw].
  unfold nospace in Hp. simpl in Hp. apply andb_true_iff in Hp.
  destruct Hp as [Hx Hp]. apply negb_true_iff in Hx.
  change (contains (x :: p) (c :: w))
    with (((x =? c) && startswith p w) || contains (x :: p) w).
  rewrite (space_differs x c Hx Hc). simpl orb. apply IH. exact Hw.
Qed.

Lemma contains_app_spaces p a w :
  nospace p = true -> forallb isspace w = true ->
  contains p (a ++ w) = contains p a.
Proof.
  intros Hp Hw. induction a as [|y a IH].
  - now apply contains_spaces.
  - change (contains p ((y :: a) ++ w))
      with (startswith p ((y :: a) ++ w) || contains p (a ++ w)).
    rewrite startswith_app_spaces, IH by assumption. reflexivity.
Qed.

(** What [rstrip] removes is white space. *)
Lemma rstrip_split s :
  exists w, s = rstrip s ++ w /\ forallb isspace w = true.
Proof.
  induction s as [|c s [w [E Hw]]].
  - exists []. now split.
  - simpl. destruct (rstrip s) as [|d t] eqn:Er.
    + destruct (isspace c) eqn:Ec.
      * exists (c :: w). simpl in E. subst s. simpl. now rewrite Ec.
      * exists w. simpl in *. now subst.
    + exists w. split; [|exact Hw]. simpl in *. congruence.
Qed.

Lemma contains_rstrip p s :
  nospace p = true -> contains p (rstrip s) = contains p s.
Proof.
  intros Hp. destruct (rstrip_split s) as [w [E Hw]].
  rewrite E at 2. symmetry. now apply contains_app_spaces.
Qed.

Lemma contains_lstrip p s :
  nospace p = true -> contains p (lstrip s) = contains p s.
Proof.
  intros Hp. destruct p as [|x p].
  { destruct (lstrip s), s; reflexivity. }
  unfold nospace in Hp. simpl in Hp. apply andb_true_iff in Hp.
  destruct Hp as [Hx _]. apply negb_true_iff in Hx.
  induction s as [|c s IH]; [reflexivity|].
  simpl lstrip. destruct (isspace c) eqn:Ec; [|reflexivity].
  rewrite IH.
  change (contains (x :: p) (c :: s))
    with (((x =? c) && startswith p s) || contains (x :: p) s).
  now rewrite (space_differs x c Hx Ec).
Qed.

(** A keyword without white space occurs in a text when it occurs in the
    stripped text. *)
Lemma contains_strip p s :
  nospace p = true -> contains p (strip s) = contains p s.
Proof.
  intros Hp. unfold strip. now rewrite contains_rstrip, contains_lstrip.
Qed.

Lemma contains_any_strip alts s :
  forallb nospace alts = true ->
  contains_any alts (strip s) = contains_any alts s.
Proof.
  unfold contains_any. induction alts as [|p alts IH]; [reflexivity|].
  simpl. intros H. apply andb_true_iff in H. destruct H as [Hp H].
  now rewrite contains_strip, IH.
Qed.

(** ** [upper] *)

Lemma upper_cp_nonempty c : upper_cp c <> [].
Proof.
  unfold upper_cp.
  repeat match goal with |- context [if ?b then _ else _] => destruct b end;
    discriminate.
Qed.

Lemma upper_nil s : upper s = [] -> s = [].
Proof.
  destruct s as [|c s]; [reflexivity|].
  unfold upper. simpl. intros H. apply app_eq_nil in H.
  destruct H as [H _]. now apply upper_cp_nonempty in H.
Qed.

(** ** [upper] and [strip] on Latin-1 texts *)

Lemma latin1_cons c s :
  latin1 (c :: s) = true -> c < 256 /\ latin1 s = true.
Proof.
  unfold latin1. simpl. intros H. apply andb_true_iff in H.
  destruct H as [H1 H2]. apply N.ltb_lt in H1. now split.
Qed.

(** [upper] leaves white space alone and makes none. *)
Lemma upper_cp_space c :
  c < 256 ->
  if isspace c then upper_cp c = [c] else nospace (upper_cp c) = true.
Proof.
  intros Hc.
  pose (P := fun c => if isspace c then str_eqb (upper_cp c) [c]
                      else nospace (upper_cp c)).
  assert (H : P c = true).
  { apply (checked_below P 256); [vm_compute; reflexivity|exact Hc]. }
  unfold P in H. destruct (isspace c); [now apply str_eqb_eq|exact H].
Qed.

Lemma upper_cp_upper c :
  c < 256 -> upper (upper_cp c) = upper_cp c.
Proof.
  intros Hc.
  pose (P := fun c => str_eqb (upper (upper_cp c)) (upper_cp c)).
  assert (H : P c = true).
  { apply (checked_below P 256); [vm_compute; reflexivity|exact Hc]. }
  now apply str_eqb_eq.
Qed.

Lemma upper_app a b : upper (a ++ b) = upper a ++ upper b.
Proof. unfold upper. apply flat_map_app. Qed.

Lemma upper_upper s : latin1 s = true -> upper (upper s) = upper s.
Proof.
  induction s as [|c s IH]; [reflexivity|].
  intros H. apply latin1_cons in H. destruct H as [Hc Hs].
  change (upper (c :: s)) with (upper_cp c ++ upper s).
  now rewrite upper_app, upper_cp_upper, IH.
Qed.

Lemma lstrip_nospace_app a b :
  a <> [] -> nospace a = true -> lstrip (a ++ b) = a ++ b.
Proof.
  destruct a as [|x a]; [congruence|]. intros _ H.
  unfold nospace in H. simpl in H. apply andb_true_iff in H.
  destruct H as [H _]. apply negb_true_iff in H. simpl. now rewrite H.
Qed.

Lemma lstrip_upper s :
  latin1 s = true -> lstrip (upper s) = upper (lstrip s).
Proof.
  induction s as [|c s IH]; [reflexivity|].
  intros H. apply latin1_cons in H. destruct H as [Hc Hs].
  change (upper (c :: s)) with (upper_cp c ++ upper s).
  pose proof (upper_cp_space c Hc) as Hu. simpl lstrip.
  destruct (isspace c) eqn:Ec.
  - rewrite Hu. simpl. rewrite Ec. now apply IH.
  - apply lstrip_nospace_app; [apply upper_cp_nonempty|exact Hu].
Qed.

Lemma rstrip_app a b :
  rstrip (a ++ b) = match rstrip b with [] => rstrip a | t => a ++ t end.
Proof.
  induction a as [|c a IH].
  - simpl. now destruct (rstrip b).
  - simpl. rewrite IH. destruct (rstrip b) as [|d t]; [reflexivity|].
    now destruct a.
Qed.

Lemma rstrip_nospace a : nospace a = true -> rstrip a = a.
Proof. intros H. apply rstrip_id. now apply last_ok_nospace. Qed.

Lemma rstrip_upper s :
  latin1 s = true -> rstrip (upper s) = upper (rstrip s).
Proof.
  induction s as [|c s IH]; [reflexivity|].
  intros H. apply latin1_cons in H. destruct H as [Hc Hs].
  change (upper (c :: s)) with (upper_cp c ++ upper s).
  rewrite rstrip_app, (IH Hs). simpl rstrip.
  pose proof (upper_cp_space c Hc) as Hu.
  destruct (rstrip s) as [|d t] eqn:Er.
  - simpl. destruct (isspace c) eqn:Ec.
    + rewrite Hu. simpl. now rewrite Ec.
    + rewrite (rstrip_nospace _ Hu). unfold upper. simpl.
      now rewrite app_nil_r.
  - destruct (upper (d :: t)) as [|e u] eqn:Eu.
    + apply upper_nil in Eu. discriminate.
    + rewrite <- Eu. reflexivity.
Qed.

Lemma strip_upper_comm s :
  latin1 s = true -> strip (upper s) = upper (strip s).
Proof.
  intros H. unfold strip. rewrite (lstrip_upper s H).
  apply rstrip_upper. now apply forallb_lstrip.
Qed.

Lemma strip_strip s : strip (strip s) = strip s.
Proof. apply strip_id; [apply strip_head_ok|apply strip_last_ok]. Qed.

(** Upper-casing a stripped, upper-cased Latin-1 text changes nothing. *)
Lemma upper_strip_fixed s :
  latin1 s = true -> upper (strip (upper (strip s))) = upper (strip s).
Proof.
  intros H. rewrite strip_upper_comm by now apply forallb_strip.
  rewrite strip_strip. apply upper_upper. now apply forallb_strip.
Qed.

End TextMore.

(* ===================================================================== *)
(** * Further properties of the daily metrics *)
(* ===================================================================== *)

Module QueryProps.
Import Text TextFacts TextMore Frame FrameFacts Metrics MetricsFacts.
Import DataServiceProps DashboardProps AggregationProps.
Local Open Scope Z_scope.

(** ** Sums of counters *)


(** A property of counters that [zero] has and [add] keeps holds of every
    sum. *)
Lemma sum_all (P : Counters -> Prop) cs :
  P zero -> (forall a b, P a -> P b -> P (add a b)) ->
  Forall P cs -> P (sum cs).
Proof.
  intros H0 Hadd. induction 1 as [|c cs Hc _ IH]; simpl; auto.
Qed.

(** ** Counting rows *)

Lemma mask_sum_ext f g rs :
  (forall r, In r rs -> f r = g r) -> mask_sum f rs = mask_sum g rs.
Proof.
  intros H. unfold mask_sum. now rewrite (filter_ext_in f g rs H).
Qed.

Lemma mask_sum_bounds f rs : 0 <= mask_sum f rs <= Z.of_nat (length rs).
Proof.
  unfold mask_sum. pose proof (filter_length_le f rs). lia.
Qed.

Lemma mask_sum_le f g rs :
  (forall r, In r rs -> f r = true -> g r = true) ->
  mask_sum f rs <= mask_sum g rs.
Proof.
  induction rs as [|r rs IH]; intros H; [reflexivity|].
  rewrite !mask_sum_cons.
  assert (IH' : mask_sum f rs <= mask_sum g rs).
  { apply IH. intros x Hx. apply H. now right. }
  destruct (f r) eqn:Ef.
  - rewrite (H r (or_introl eq_refl) Ef). lia.
  - destruct (g r); lia.
Qed.

Lemma filter_Permutation {A : Type} (f : A -> bool) l l' :
  Permutation l l' -> Permutation (filter f l) (filter f l').
Proof.
  induction 1 as [|x l l' _ IH|x y l|l l' l'' _ IH1 _ IH2]; simpl.
  - constructor.
  - destruct (f x); [now constructor|exact IH].
  - destruct (f x), (f y); try apply Permutation_refl.
    apply perm_swap.
  - eapply Permutation_trans; eassumption.
Qed.

Lemma mask_sum_Permutation f rs rs' :
  Permutation rs rs' -> mask_sum f rs = mask_sum f rs'.
Proof.
  intros H. unfold mask_sum. f_equal.
  apply Permutation_length. now apply filter_Permutation.
Qed.

(** ** What a sheet adds, as a function of its rows *)

Lemma get_situacao_column_columns df c :
  DataService.get_situacao_column df = Some c -> columns df <> [].
Proof.
  intros H Hc. unfold DataService.get_situacao_column, has_column, labels in H.
  rewrite Hc in H. discriminate.
Qed.

Lemma service_sheet_rows date team df :
  DataService.sheet_contribution date team df =
  match DataService.get_situacao_column df with
  | None => zero
  | Some c =>
    DataService.sheet_counts
      c (has_column DataService.ATIVO_RECEPTIVO df)
      (filter (DataService.date_mask date df)
              (filter (DataService.team_mask team df) (rows df)))
  end.
Proof.
  rewrite sheet_contribution_eq, df_date_rows.
  destruct (empty df) eqn:E; [|reflexivity].
  destruct (DataService.get_situacao_column df) as [c|] eqn:Ec; [|reflexivity].
  apply get_situacao_column_columns in Ec.
  unfold empty in E. destruct (columns df); [congruence|].
  destruct (rows df); [|discriminate]. simpl. now rewrite sheet_counts_nil.
Qed.

Lemma dashboard_sheet_rows date team df :
  (if empty df then zero else Dashboard.chunk_contribution date team df) =
  match Dashboard.get_situacao_column df with
  | None => zero
  | Some c =>
    Dashboard.chunk_counts
      c (has_column DataService.ATIVO_RECEPTIVO df)
      (has_column (lit "DATA") df && is_datetime64_any_dtype (lit "DATA") df)
      date (Dashboard.selected date team df (rows df))
  end.
Proof.
  rewrite chunk_contribution_whole.
  destruct (empty df) eqn:E; [|reflexivity].
  destruct (Dashboard.get_situacao_column df) as [c|] eqn:Ec; [|reflexivity].
  apply get_situacao_column_columns in Ec.
  unfold empty in E. destruct (columns df); [congruence|].
  destruct (rows df); [|discriminate]. unfold Dashboard.selected. simpl filter.
  now rewrite chunk_counts_nil.
Qed.

Lemma daily_metrics_eq dfs dfs' date date' team team' :
  date = date' -> team = team' ->
  counters (DataService.get_daily_metrics dfs date team) =
  counters (DataService.get_daily_metrics dfs' date' team') ->
  DataService.get_daily_metrics dfs date team =
  DataService.get_daily_metrics dfs' date' team'.
Proof.
  intros -> ->. unfold DataService.get_daily_metrics. simpl counters.
  now intros ->.
Qed.

(** ** The order of the rows *)

Lemma sheet_counts_Permutation c ch rs rs' :
  Permutation rs rs' ->
  DataService.sheet_counts c ch rs = DataService.sheet_counts c ch rs'.
Proof.
  intros H. apply counters_eq; simpl; destruct ch;
    try reflexivity; now apply mask_sum_Permutation.
Qed.

Lemma chunk_counts_Permutation c ch ok date rs rs' :
  Permutation rs rs' ->
  Dashboard.chunk_counts c ch ok date rs =
  Dashboard.chunk_counts c ch ok date rs'.
Proof.
  intros H. apply counters_eq; simpl; rewrite ?analise_dia_any;
    destruct ch, ok; try reflexivity; now apply mask_sum_Permutation.
Qed.

(** X3.  The metrics of a query do not depend on the order of the rows of
    a sheet: rearranging the rows of any one sheet changes no counter, in
    the service and in the dashboard with its chunks. *)
Theorem daily_metrics_row_order
        (pre post : list (str * DataFrame)) (name : str) (df : DataFrame)
        (rs : list Row) (date : Z) (team : option str) :
  Permutation (rows df) rs ->
  DataService.get_daily_metrics (pre ++ (name, df) :: post) date team =
  DataService.get_daily_metrics
    (pre ++ (name, with_rows df rs) :: post) date team /\
  Dashboard.calculate_daily_metrics (pre ++ (name, df) :: post) date team =
  Dashboard.calculate_daily_metrics
    (pre ++ (name, with_rows df rs) :: post) date team.
Proof.
  intros H. split.
  - apply daily_metrics_eq; try reflexivity.
    rewrite !get_daily_metrics_sum, !map_app, !sum_app. simpl map. simpl sum.
    do 2 f_equal. rewrite !service_sheet_rows.
    change (DataService.get_situacao_column (with_rows df rs))
      with (DataService.get_situacao_column df).
    destruct (DataService.get_situacao_column df); [|reflexivity].
    apply sheet_counts_Permutation.
    now do 2 apply filter_Permutation.
  - rewrite !dashboard_sum, !map_app, !sum_app. simpl map. simpl sum.
    do 2 f_equal. rewrite !dashboard_sheet_rows.
    change (Dashboard.get_situacao_column (with_rows df rs))
      with (Dashboard.get_situacao_column df).
    destruct (Dashboard.get_situacao_column df); [|reflexivity].
    apply chunk_counts_Permutation. unfold Dashboard.selected.
    now do 2 apply filter_Permutation.
Qed.

Lemma daily_metrics_row_order_witness :
  Dashboard.calculate_daily_metrics
    ([] ++ (lit "DEMANDAS", Samples.sheet_demandas) :: []) Samples.d10 None =
  Dashboard.calculate_daily_metrics
    ([] ++ (lit "DEMANDAS",
            with_rows Samples.sheet_demandas
                      (rev (rows Samples.sheet_demandas))) :: [])
    Samples.d10 None.
Proof.
  apply (daily_metrics_row_order [] [] (lit "DEMANDAS") Samples.sheet_demandas
           (rev (rows Samples.sheet_demandas)) Samples.d10 None).
  apply Permutation_rev.
Defined.

(** ** What a query reads of its date and of its team *)

Lemma existsb_ext_all {A : Type} (f g : A -> bool) l :
  (forall x, f x = g x) -> existsb f l = existsb g l.
Proof.
  intros H. induction l as [|x l IH]; simpl; [reflexivity|].
  now rewrite H, IH.
Qed.

Lemma dt_date_eq_day col date date' r :
  date_of date = date_of date' ->
  dt_date_eq col date r = dt_date_eq col date' r.
Proof.
  intros H. unfold dt_date_eq. destruct (lookup col (stamp r)); [|reflexivity].
  now rewrite H.
Qed.

Lemma service_date_mask_day date date' df r :
  date_of date = date_of date' ->
  DataService.date_mask date df r = DataService.date_mask date' df r.
Proof.
  intros H. unfold DataService.date_mask. apply existsb_ext_all.
  intros col. now rewrite (dt_date_eq_day col date date' r H).
Qed.

Lemma dashboard_date_match_day date date' df r :
  date_of date = date_of date' ->
  Dashboard.date_match date df r = Dashboard.date_match date' df r.
Proof.
  intros H. unfold Dashboard.date_match. apply existsb_ext_all.
  intros col. now rewrite (dt_date_eq_day col date date' r H).
Qed.

Lemma chunk_counts_day c ch ok date date' rs :
  date_of date = date_of date' ->
  Dashboard.chunk_counts c ch ok date rs =
  Dashboard.chunk_counts c ch ok date' rs.
Proof.
  intros H. apply counters_eq; simpl; try reflexivity.
  destruct (existsb _ rs); [|reflexivity]. destruct ok; [|reflexivity].
  apply mask_sum_ext. intros r _.
  now rewrite (dt_date_eq_day (lit "DATA") date date' r H).
Qed.

(** X4.  A query reads the day of its date and nothing else of it: two
    dates within the same day give the same counters, in the service and
    in the dashboard. *)
Theorem daily_metrics_day_only
        (dfs : list (str * DataFrame)) (date date' : Z) (team : option str) :
  date_of date = date_of date' ->
  counters (DataService.get_daily_metrics dfs date team) =
  counters (DataService.get_daily_metrics dfs date' team) /\
  Dashboard.calculate_daily_metrics dfs date team =
  Dashboard.calculate_daily_metrics dfs date' team.
Proof.
  intros H. split.
  - rewrite !get_daily_metrics_sum. f_equal. apply map_ext. intros df.
    rewrite !service_sheet_rows.
    destruct (DataService.get_situacao_column df); [|reflexivity].
    f_equal. apply filter_ext. intros r.
    now apply service_date_mask_day.
  - rewrite !dashboard_sum. f_equal. apply map_ext. intros df.
    rewrite !dashboard_sheet_rows.
    destruct (Dashboard.get_situacao_column df); [|reflexivity].
    rewrite (chunk_counts_day _ _ _ date date' _ H). f_equal.
    unfold Dashboard.selected. apply filter_ext. intros r.
    now apply dashboard_date_match_day.
Qed.

Lemma daily_metrics_day_only_witness :
  counters (DataService.get_daily_metrics Samples.loaded Samples.d10 None) =
  counters (DataService.get_daily_metrics
              Samples.loaded (Samples.d10 + 3600 * 1000000000) None).
Proof.
  refine (proj1 (daily_metrics_day_only
                   Samples.loaded Samples.d10
                   (Samples.d10 + 3600 * 1000000000) None _)).
  vm_compute. reflexivity.
Defined.

Lemma team_mask_upper t t' df r :
  upper t = upper t' ->
  DataService.team_mask (Some t) df r = DataService.team_mask (Some t') df r.
Proof.
  intros H. unfold DataService.team_mask.
  destruct t as [|c t], t' as [|c' t']; try reflexivity.
  - symmetry in H. apply upper_nil in H. discriminate.
  - apply upper_nil in H. discriminate.
  - destruct (DataService.equipe_column df); [|reflexivity]. now rewrite H.
Qed.

Lemma team_mask_empty df r :
  DataService.team_mask (Some []) df r = DataService.team_mask None df r.
Proof. reflexivity. Qed.

(** The counters of a query depend on the team through [team_mask]. *)
Lemma daily_metrics_team_mask dfs date team team' :
  (forall df r, DataService.team_mask team df r
                = DataService.team_mask team' df r) ->
  counters (DataService.get_daily_metrics dfs date team) =
  counters (DataService.get_daily_metrics dfs date team') /\
  Dashboard.calculate_daily_metrics dfs date team =
  Dashboard.calculate_daily_metrics dfs date team'.
Proof.
  intros H. split.
  - rewrite !get_daily_metrics_sum. f_equal. apply map_ext. intros df.
    rewrite !service_sheet_rows.
    destruct (DataService.get_situacao_column df); [|reflexivity].
    do 2 f_equal. apply filter_ext. intros r. apply H.
  - rewrite !dashboard_sum. f_equal. apply map_ext. intros df.
    rewrite !dashboard_sheet_rows.
    destruct (Dashboard.get_situacao_column df); [|reflexivity].
    unfold Dashboard.selected. do 2 f_equal. apply filter_ext. intros r.
    apply H.
Qed.

(** X5.  The team of a query is compared without regard to letter case:
    two team texts with the same upper-case form give the same counters,
    and the empty team text is no filter at all, in the service and in
    the dashboard. *)
Theorem daily_metrics_team_case
        (dfs : list (str * DataFrame)) (date : Z) (team team' : str) :
  (upper team = upper team' ->
   counters (DataService.get_daily_metrics dfs date (Some team)) =
   counters (DataService.get_daily_metrics dfs date (Some team')) /\
   Dashboard.calculate_daily_metrics dfs date (Some team) =
   Dashboard.calculate_daily_metrics dfs date (Some team')) /\
  counters (DataService.get_daily_metrics dfs date (Some [])) =
  counters (DataService.get_daily_metrics dfs date None) /\
  Dashboard.calculate_daily_metrics dfs date (Some []) =
  Dashboard.calculate_daily_metrics dfs date None.
Proof.
  split.
  - intros H. apply daily_metrics_team_mask. intros df r.
    now apply team_mask_upper.
  - apply daily_metrics_team_mask. intros df r. apply team_mask_empty.
Qed.

Lemma daily_metrics_team_case_witness :
  counters (DataService.get_daily_metrics
              Samples.loaded Samples.d10 (Some (lit "julio"))) =
  counters (DataService.get_daily_metrics
              Samples.loaded Samples.d10 (Some (lit "Julio"))).
Proof.
  refine (proj1 (proj1 (daily_metrics_team_case
                          Samples.loaded Samples.d10
                          (lit "julio") (lit "Julio")) _)).
  vm_compute. reflexivity.
Defined.

(** ** Counters that no sheet feeds *)

(** X6.  Five of the twelve counters of the service are never computed:
    [prioridade], [prioridade_total], [soma_prioridades], [analise_dia]
    and [quitado_cliente] are zero for every set of sheets, date and
    team; the dashboard computes [analise_dia] and leaves the other four
    at zero. *)
Theorem counters_never_fed
        (dfs : list (str * DataFrame)) (date : Z) (team : option str) :
  (let m := counters (DataService.get_daily_metrics dfs date team) in
   prioridade m = 0 /\ prioridade_total m = 0 /\ soma_prioridades m = 0 /\
   analise_dia m = 0 /\ quitado_cliente m = 0) /\
  (let m := Dashboard.calculate_daily_metrics dfs date team in
   prioridade m = 0 /\ prioridade_total m = 0 /\ soma_prioridades m = 0 /\
   quitado_cliente m = 0).
Proof.
  split; cbv zeta.
  - rewrite get_daily_metrics_sum.
    apply (sum_all (fun m => prioridade m = 0 /\ prioridade_total m = 0 /\
                             soma_prioridades m = 0 /\ analise_dia m = 0 /\
                             quitado_cliente m = 0)).
    + repeat split.
    + intros a b (?&?&?&?&?) (?&?&?&?&?). simpl. lia.
    + apply Forall_map, Forall_forall. intros df _.
      rewrite service_sheet_rows.
      destruct (DataService.get_situacao_column df); repeat split.
  - rewrite dashboard_sum.
    apply (sum_all (fun m => prioridade m = 0 /\ prioridade_total m = 0 /\
                             soma_prioridades m = 0 /\ quitado_cliente m = 0)).
    + repeat split.
    + intros a b (?&?&?&?) (?&?&?&?). simpl. lia.
    + apply Forall_map, Forall_forall. intros df _.
      rewrite dashboard_sheet_rows.
      destruct (Dashboard.get_situacao_column df); repeat split.
Qed.

(** ** Bounds *)

Lemma bounded_by_zero : bounded_by 0 zero.
Proof. unfold bounded_by. simpl. lia. Qed.

Lemma bounded_by_add n k a b :
  bounded_by n a -> bounded_by k b -> bounded_by (n + k) (add a b).
Proof. unfold bounded_by. simpl. lia. Qed.

Lemma bounded_by_sum {A : Type} (f : A -> Counters) (g : A -> list Row) l :
  (forall x, bounded_by (Z.of_nat (length (g x))) (f x)) ->
  bounded_by (Z.of_nat (length (flat_map g l))) (sum (map f l)).
Proof.
  intros H. induction l as [|x l IH]; simpl.
  - apply bounded_by_zero.
  - rewrite length_app, Nat2Z.inj_add. now apply bounded_by_add.
Qed.

Lemma mask_sum_and_r f g rs :
  mask_sum (fun r => f r && g r) rs <= mask_sum g rs.
Proof.
  apply mask_sum_le. intros r _ H. apply andb_true_iff in H. tauto.
Qed.

Lemma mask_sum_and_l f g rs :
  mask_sum (fun r => f r && g r) rs <= mask_sum f rs.
Proof.
  apply mask_sum_le. intros r _ H. apply andb_true_iff in H. tauto.
Qed.

Lemma sheet_counts_bounded c ch rs :
  bounded_by (Z.of_nat (length rs)) (DataService.sheet_counts c ch rs).
Proof.
  unfold bounded_by, DataService.sheet_counts. cbn [resolvidos analise quitado
    aprovados receptivo pendente_ativo pendente_receptivo analise_dia].
  pose proof (mask_sum_bounds
    (fun r => contains_any DataService.RESOLVIDOS (DataService.situacao c r)) rs).
  pose proof (mask_sum_bounds
    (fun r => contains_any DataService.ANALISE (DataService.situacao c r)) rs).
  pose proof (mask_sum_bounds
    (fun r => contains_any DataService.QUITADO (DataService.situacao c r)) rs).
  pose proof (mask_sum_bounds
    (fun r => contains_any DataService.APROVADOS (DataService.situacao c r)) rs).
  pose proof (mask_sum_bounds
    (fun r => contains_any DataService.RECEPTIVO (DataService.ativo_receptivo r))
    rs).
  pose proof (mask_sum_bounds
    (fun r => contains_any DataService.PENDENTE (DataService.situacao c r)
              && contains_any DataService.ATIVO (DataService.ativo_receptivo r))
    rs).
  pose proof (mask_sum_bounds
    (fun r => contains_any DataService.PENDENTE (DataService.situacao c r)
              && contains_any DataService.RECEPTIVO
                              (DataService.ativo_receptivo r))
    rs).
  pose proof (mask_sum_and_r
    (fun r => contains_any DataService.PENDENTE (DataService.situacao c r))
    (fun r => contains_any DataService.RECEPTIVO (DataService.ativo_receptivo r))
    rs).
  cbv beta in *. destruct ch; lia.
Qed.

Lemma chunk_counts_bounded c ch ok date rs :
  bounded_by (Z.of_nat (length rs)) (Dashboard.chunk_counts c ch ok date rs).
Proof.
  unfold bounded_by, Dashboard.chunk_counts. cbn [resolvidos analise quitado
    aprovados receptivo pendente_ativo pendente_receptivo analise_dia].
  rewrite analise_dia_any.
  pose proof (mask_sum_bounds
    (fun r => contains_any DataService.RESOLVIDOS
                           (Dashboard.situacao_series c r)) rs).
  pose proof (mask_sum_bounds
    (fun r => contains_any DataService.ANALISE
                           (Dashboard.situacao_series c r)) rs).
  pose proof (mask_sum_bounds
    (fun r => contains_any DataService.QUITADO
                           (Dashboard.situacao_series c r)) rs).
  pose proof (mask_sum_bounds
    (fun r => contains_any DataService.APROVADOS
                           (Dashboard.situacao_series c r)) rs).
  pose proof (mask_sum_bounds
    (fun r => contains_any DataService.RECEPTIVO (DataService.ativo_receptivo r))
    rs).
  pose proof (mask_sum_bounds
    (fun r => contains_any DataService.PENDENTE (Dashboard.situacao_series c r)
              && contains_any DataService.ATIVO (DataService.ativo_receptivo r))
    rs).
  pose proof (mask_sum_bounds
    (fun r => contains_any DataService.PENDENTE (Dashboard.situacao_series c r)
              && contains_any DataService.RECEPTIVO
                              (DataService.ativo_receptivo r))
    rs).
  pose proof (mask_sum_and_r
    (fun r => contains_any DataService.PENDENTE (Dashboard.situacao_series c r))
    (fun r => contains_any DataService.RECEPTIVO (DataService.ativo_receptivo r))
    rs).
  pose proof (mask_sum_bounds
    (fun r => contains_any DataService.ANALISE (Dashboard.situacao_series c r)
              && dt_date_eq (lit "DATA") date r) rs).
  pose proof (mask_sum_and_l
    (fun r => contains_any DataService.ANALISE (Dashboard.situacao_series c r))
    (fun r => dt_date_eq (lit "DATA") date r) rs).
  cbv beta in *. destruct ch, ok; lia.
Qed.

Lemma bounded_by_zero_any n : bounded_by (Z.of_nat n) zero.
Proof. unfold bounded_by. simpl. lia. Qed.

(** X7.  No counter of a query is negative or exceeds the number of rows
    that the query selects (the rows of the day, of the team); the
    pending receptive are never more than the receptive, and in the
    dashboard the analyses of the day never more than the analyses. *)
Theorem counters_bounded_by_selected_rows
        (dfs : list (str * DataFrame)) (date : Z) (team : option str) :
  bounded_by
    (Z.of_nat (length (flat_map
                         (fun df => rows (DataService.df_date date team df))
                         (map snd dfs))))
    (counters (DataService.get_daily_metrics dfs date team)) /\
  bounded_by
    (Z.of_nat (length (flat_map
                         (fun df => Dashboard.selected date team df (rows df))
                         (map snd dfs))))
    (Dashboard.calculate_daily_metrics dfs date team).
Proof.
  split.
  - rewrite get_daily_metrics_sum. apply bounded_by_sum. intros df.
    rewrite service_sheet_rows, df_date_rows.
    destruct (DataService.get_situacao_column df).
    + apply sheet_counts_bounded.
    + apply bounded_by_zero_any.
  - rewrite dashboard_sum. apply bounded_by_sum. intros df.
    rewrite dashboard_sheet_rows.
    destruct (Dashboard.get_situacao_column df).
    + apply chunk_counts_bounded.
    + apply bounded_by_zero_any.
Qed.

(** ** The analyses of the day *)

Lemma sum_all_in {A : Type} (P : Counters -> Prop) (f : A -> Counters) l :
  P zero -> (forall a b, P a -> P b -> P (add a b)) ->
  (forall x, In x l -> P (f x)) -> P (sum (map f l)).
Proof.
  intros H0 Hadd H. apply sum_all; auto.
  apply Forall_map, Forall_forall. exact H.
Qed.

Lemma in_sheets (dfs : list (str * DataFrame)) df :
  In df (map snd dfs) -> exists name, In (name, df) dfs.
Proof.
  intros H. apply in_map_iff in H. destruct H as [[name df'] [E H]].
  simpl in E. subst. now exists name.
Qed.

Lemma date_match_cons date df r :
  Dashboard.date_match date df r =
  has_column (lit "DATA") df && is_datetime64_any_dtype (lit "DATA") df
    && dt_date_eq (lit "DATA") date r
  || existsb (fun date_col => has_column date_col df
                              && is_datetime64_any_dtype date_col df
                              && dt_date_eq date_col date r)
             (tl Dashboard.date_columns).
Proof. reflexivity. Qed.

Lemma existsb_none {A : Type} (f : A -> bool) l :
  (forall x, In x l -> f x = false) -> existsb f l = false.
Proof.
  intros H. induction l as [|x l IH]; [reflexivity|]. simpl.
  rewrite (H x (or_introl eq_refl)), IH; [reflexivity|].
  intros y Hy. apply H. now right.
Qed.

(** When DATA is the only date column of a sheet that holds timestamps,
    the selected rows with an analysis are all analyses of the day. *)
Lemma chunk_counts_analise_dia date team df c ch :
  (forall col, In col (tl Dashboard.date_columns) ->
               has_column col df && is_datetime64_any_dtype col df = false) ->
  let counts :=
    Dashboard.chunk_counts
      c ch
      (has_column (lit "DATA") df && is_datetime64_any_dtype (lit "DATA") df)
      date (Dashboard.selected date team df (rows df)) in
  analise_dia counts = analise counts.
Proof.
  intros H counts. subst counts. unfold Dashboard.chunk_counts.
  cbn [analise analise_dia]. rewrite analise_dia_any.
  assert (Hsel : forall r,
             In r (Dashboard.selected date team df (rows df)) ->
             has_column (lit "DATA") df
             && is_datetime64_any_dtype (lit "DATA") df = true /\
             dt_date_eq (lit "DATA") date r = true).
  { intros r Hr. unfold Dashboard.selected in Hr.
    apply filter_In in Hr. destruct Hr as [_ Hr].
    rewrite date_match_cons in Hr.
    rewrite (existsb_none _ (tl Dashboard.date_columns)) in Hr.
    - rewrite orb_false_r in Hr. now apply andb_true_iff in Hr.
    - intros col Hcol. now rewrite (H col Hcol). }
  destruct (Dashboard.selected date team df (rows df)) as [|r0 rs] eqn:Es.
  { now destruct (_ && _). }
  destruct (Hsel r0 (or_introl eq_refl)) as [-> _].
  apply mask_sum_ext. intros r Hr.
  destruct (Hsel r Hr) as [_ ->]. apply andb_true_r.
Qed.

(** ** The service and the dashboard *)

Lemma agree_zero : agree_but_analise_dia zero zero.
Proof. unfold agree_but_analise_dia. repeat split. Qed.

Lemma agree_add a b a' b' :
  agree_but_analise_dia a a' -> agree_but_analise_dia b b' ->
  agree_but_analise_dia (add a b) (add a' b').
Proof.
  unfold agree_but_analise_dia. simpl.
  intros (?&?&?&?&?&?&?&?&?&?&?) (?&?&?&?&?&?&?&?&?&?&?).
  repeat split; congruence.
Qed.

Lemma agree_sum {A : Type} (f g : A -> Counters) l :
  (forall x, In x l -> agree_but_analise_dia (f x) (g x)) ->
  agree_but_analise_dia (sum (map f l)) (sum (map g l)).
Proof.
  induction l as [|x l IH]; intros H; simpl.
  - apply agree_zero.
  - apply agree_add.
    + apply H. now left.
    + apply IH. intros y Hy. apply H. now right.
Qed.

Lemma keywords_nospace :
  forallb nospace DataService.RESOLVIDOS = true /\
  forallb nospace DataService.ANALISE = true /\
  forallb nospace DataService.QUITADO = true /\
  forallb nospace DataService.APROVADOS = true /\
  forallb nospace DataService.PENDENTE = true.
Proof. repeat split. Qed.

(** The counts of a chunk are those of the service on the same rows. *)
Lemma chunk_counts_sheet_counts c ch ok date rs :
  agree_but_analise_dia (Dashboard.chunk_counts c ch ok date rs)
                        (DataService.sheet_counts c ch rs).
Proof.
  destruct keywords_nospace as (K1 & K2 & K3 & K4 & K5).
  unfold agree_but_analise_dia, Dashboard.chunk_counts,
    DataService.sheet_counts, Dashboard.situacao_series, DataService.situacao.
  cbn [resolvidos analise quitado aprovados receptivo pendente_ativo
       pendente_receptivo prioridade prioridade_total soma_prioridades
       quitado_cliente].
  repeat split; try (destruct ch; [|reflexivity]);
    apply mask_sum_ext; intros r _;
    now rewrite ?contains_any_strip by assumption.
Qed.

Lemma dashboard_date_columns :
  Dashboard.date_columns =
  DataService.date_columns ++ Dashboard.extra_date_columns.
Proof. reflexivity. Qed.

Lemma date_match_service date df r :
  (forall col, In col Dashboard.extra_date_columns ->
               has_column col df && is_datetime64_any_dtype col df = false) ->
  Dashboard.date_match date df r = DataService.date_mask date df r.
Proof.
  intros H. unfold Dashboard.date_match, DataService.date_mask.
  rewrite dashboard_date_columns, existsb_app.
  rewrite (existsb_none _ Dashboard.extra_date_columns).
  - apply orb_false_r.
  - intros col Hcol. now rewrite (H col Hcol).
Qed.

(** X9.  The dashboard and the service count alike: when no sheet holds
    timestamps in one of the two date columns that only the dashboard
    reads, every counter of [calculate_daily_metrics] but [Analise_Dia]
    equals the counter of [get_daily_metrics] for the same sheets, date
    and team. *)
Theorem dashboard_agrees_with_service
        (dfs : list (str * DataFrame)) (date : Z) (team : option str) :
  (forall name df col,
      In (name, df) dfs -> In col Dashboard.extra_date_columns ->
      has_column col df && is_datetime64_any_dtype col df = false) ->
  agree_but_analise_dia
    (Dashboard.calculate_daily_metrics dfs date team)
    (counters (DataService.get_daily_metrics dfs date team)).
Proof.
  intros H. rewrite dashboard_sum, get_daily_metrics_sum.
  apply agree_sum. intros df Hin.
  apply in_sheets in Hin. destruct Hin as [name Hin].
  rewrite dashboard_sheet_rows, service_sheet_rows.
  change (Dashboard.get_situacao_column df)
    with (DataService.get_situacao_column df).
  destruct (DataService.get_situacao_column df) as [c|]; [|apply agree_zero].
  unfold Dashboard.selected.
  rewrite (filter_ext (Dashboard.date_match date df)
                      (DataService.date_mask date df)).
  - apply chunk_counts_sheet_counts.
  - intros r. apply date_match_service. intros col Hcol.
    exact (H name df col Hin Hcol).
Qed.

Lemma dashboard_agrees_with_service_witness :
  agree_but_analise_dia
    (Dashboard.calculate_daily_metrics Samples.loaded Samples.d10 None)
    (counters (DataService.get_daily_metrics Samples.loaded Samples.d10 None)).
Proof.
  apply (dashboard_agrees_with_service Samples.loaded Samples.d10 None).
  intros name df col [E|[E|[]]] Hcol; injection E as _ <-;
    repeat (destruct Hcol as [<-|Hcol]; [reflexivity|]); destruct Hcol.
Defined.

End QueryProps.

(* ===================================================================== *)
(** * Further properties of the range of the dates *)
(* ===================================================================== *)

Module DateRangeProps.
Import Text TextFacts Frame FrameFacts AggregationProps.
Local Open Scope Z_scope.

Lemma fold_min_Permutation ts ts' a :
  Permutation ts ts' -> fold_left Z.min ts a = fold_left Z.min ts' a.
Proof.
  intros H. revert a.
  induction H as [|x l l' _ IH|x y l|l l' l'' _ IH1 _ IH2]; intros a; simpl.
  - reflexivity.
  - apply IH.
  - f_equal. lia.
  - now rewrite IH1.
Qed.

Lemma fold_max_Permutation ts ts' a :
  Permutation ts ts' -> fold_left Z.max ts a = fold_left Z.max ts' a.
Proof.
  intros H. revert a.
  induction H as [|x l l' _ IH|x y l|l l' l'' _ IH1 _ IH2]; intros a; simpl.
  - reflexivity.
  - apply IH.
  - f_equal. lia.
  - now rewrite IH1.
Qed.

(** The range, as the least and the greatest of the loaded dates and of
    the initial values. *)
Lemma get_date_range_folds dfs :
  DataService.get_date_range dfs =
  (fold_left Z.min (DataService.loaded_dates dfs) datetime_max,
   fold_left Z.max (DataService.loaded_dates dfs) datetime_min).
Proof. now rewrite get_date_range_widen, fold_widen. Qed.

Lemma datetime_min_max : datetime_min < datetime_max.
Proof. reflexivity. Qed.

(** X10.  Without a date in the sheets, [get_date_range] returns its
    initial values, [datetime.max] as the start and [datetime.min] as the
    end; the start it returns is at or before the end exactly when the
    sheets hold a date. *)
Theorem get_date_range_proper (dfs : list (str * DataFrame)) :
  (DataService.loaded_dates dfs = [] ->
   DataService.get_date_range dfs = (datetime_max, datetime_min)) /\
  (fst (DataService.get_date_range dfs) <= snd (DataService.get_date_range dfs)
   <-> DataService.loaded_dates dfs <> []).
Proof.
  rewrite get_date_range_folds. simpl fst. simpl snd.
  pose proof datetime_min_max as Hmm.
  destruct (DataService.loaded_dates dfs) as [|t ts] eqn:E.
  - split; [reflexivity|]. simpl. split; [lia|congruence].
  - split; [discriminate|]. split; [discriminate|]. intros _.
    destruct (fold_min_lower (t :: ts) datetime_max) as [_ L].
    destruct (fold_max_upper (t :: ts) datetime_min) as [_ U].
    specialize (L t (or_introl eq_refl)).
    specialize (U t (or_introl eq_refl)). lia.
Qed.

Lemma get_date_range_proper_witness :
  DataService.get_date_range
    [(lit "REGIOES", mkDataFrame [(lit "REGIAO", object)]
                                 [mkRow [(lit "REGIAO", lit "SUL")] []])]
  = (datetime_max, datetime_min).
Proof.
  apply (get_date_range_proper
           [(lit "REGIOES", mkDataFrame [(lit "REGIAO", object)]
                                        [mkRow [(lit "REGIAO", lit "SUL")] []])]).
  reflexivity.
Defined.

Lemma loaded_dates_Permutation dfs dfs' :
  Permutation dfs dfs' ->
  Permutation (DataService.loaded_dates dfs) (DataService.loaded_dates dfs').
Proof.
  intros H. unfold DataService.loaded_dates.
  apply Permutation_flat_map. now apply Permutation_map.
Qed.

(** X11.  The range of the dates does not depend on the order of the
    sheets, and one more sheet can only widen it: the start never moves
    later and the end never earlier. *)
Theorem get_date_range_sheets (dfs dfs' more : list (str * DataFrame)) :
  (Permutation dfs dfs' ->
   DataService.get_date_range dfs = DataService.get_date_range dfs') /\
  fst (DataService.get_date_range (dfs ++ more))
  <= fst (DataService.get_date_range dfs) /\
  snd (DataService.get_date_range dfs)
  <= snd (DataService.get_date_range (dfs ++ more)).
Proof.
  rewrite !get_date_range_folds. simpl fst. simpl snd. split.
  - intros H. apply loaded_dates_Permutation in H.
    now rewrite (fold_min_Permutation _ _ _ H), (fold_max_Permutation _ _ _ H).
  - rewrite loaded_dates_app, !fold_left_app. split.
    + exact (proj1 (fold_min_lower _ _)).
    + exact (proj1 (fold_max_upper _ _)).
Qed.

Lemma get_date_range_sheets_witness :
  DataService.get_date_range Samples.loaded =
  DataService.get_date_range (rev Samples.loaded).
Proof.
  apply (get_date_range_sheets Samples.loaded (rev Samples.loaded) []).
  apply Permutation_rev.
Defined.

End DateRangeProps.

(* ===================================================================== *)
(** * The list of the teams *)
(* ===================================================================== *)

Module TeamsProps.
Import Text TextFacts Frame FrameFacts.
Local Open Scope N_scope.

(** ** The order of texts *)

Lemma str_ltb_trans a b c :
  DataService.str_ltb a b = true -> DataService.str_ltb b c = true ->
  DataService.str_ltb a c = true.
Proof.
  revert b c. induction a as [|x a IH]; intros [|y b] [|z c]; simpl;
    try discriminate; try reflexivity.
  intros H1 H2.
  apply orb_true_iff in H1. apply orb_true_iff in H2. apply orb_true_iff.
  destruct H1 as [H1|H1], H2 as [H2|H2].
  - left. apply N.ltb_lt in H1, H2. apply N.ltb_lt. lia.
  - apply andb_true_iff in H2. destruct H2 as [H2 _].
    apply N.eqb_eq in H2. subst. now left.
  - apply andb_true_iff in H1. destruct H1 as [H1 _].
    apply N.eqb_eq in H1. subst. now left.
  - apply andb_true_iff in H1. destruct H1 as [E1 H1].
    apply andb_true_iff in H2. destruct H2 as [E2 H2].
    apply N.eqb_eq in E1, E2. subst. right.
    rewrite N.eqb_refl. simpl. now apply (IH b c).
Qed.

Lemma str_ltb_total a b :
  str_eqb a b = false -> DataService.str_ltb a b = false ->
  DataService.str_ltb b a = true.
Proof.
  revert b. induction a as [|x a IH]; intros [|y b]; simpl;
    try discriminate; try reflexivity.
  intros He Hl. apply orb_false_iff in Hl. destruct Hl as [H1 H2].
  apply N.ltb_ge in H1.
  destruct (N.eqb_spec x y) as [->|Hne].
  - simpl in *. rewrite N.ltb_irrefl, N.eqb_refl. simpl. now apply IH.
  - apply orb_true_iff. left. apply N.ltb_lt. lia.
Qed.

Lemma str_ltb_irrefl a : DataService.str_ltb a a = false.
Proof.
  induction a as [|x a IH]; [reflexivity|].
  simpl. now rewrite N.ltb_irrefl, N.eqb_refl, IH.
Qed.

(** ** Insertion in a sorted list *)

Lemma set_add_In x y xs :
  In y (DataService.set_add x xs) <-> y = x \/ In y xs.
Proof.
  induction xs as [|z xs IH]; simpl.
  - intuition.
  - destruct (str_eqb x z) eqn:E.
    + apply str_eqb_eq in E. subst z. simpl. intuition.
    + destruct (DataService.str_ltb x z); simpl; [intuition|].
      rewrite IH. intuition.
Qed.

Lemma set_add_HdRel x y xs :
  DataService.str_lt y x -> HdRel DataService.str_lt y xs ->
  HdRel DataService.str_lt y (DataService.set_add x xs).
Proof.
  intros Hyx H. destruct xs as [|z xs]; simpl.
  - now constructor.
  - inversion H; subst.
    destruct (str_eqb x z); [now constructor|].
    destruct (DataService.str_ltb x z); now constructor.
Qed.

Lemma set_add_Sorted x xs :
  Sorted DataService.str_lt xs ->
  Sorted DataService.str_lt (DataService.set_add x xs).
Proof.
  induction 1 as [|z xs Hs IH Hd]; simpl.
  - repeat constructor.
  - destruct (str_eqb x z) eqn:E; [now constructor|].
    destruct (DataService.str_ltb x z) eqn:L.
    + constructor; [now constructor|]. now constructor.
    + constructor; [exact IH|]. apply set_add_HdRel; [|exact Hd].
      apply str_ltb_total; [exact E|exact L].
Qed.

Lemma fold_set_add vs acc :
  Sorted DataService.str_lt acc ->
  Sorted DataService.str_lt
         (fold_left (fun t x => DataService.set_add x t) vs acc) /\
  forall y, In y (fold_left (fun t x => DataService.set_add x t) vs acc) <->
            In y vs \/ In y acc.
Proof.
  revert acc. induction vs as [|v vs IH]; intros acc Hs; simpl.
  - split; [exact Hs|]. intuition.
  - destruct (IH (DataService.set_add v acc) (set_add_Sorted v acc Hs))
      as [H1 H2].
    split; [exact H1|]. intros y. rewrite H2, set_add_In. intuition.
Qed.

Lemma team_values_In e df t :
  In t (DataService.team_values e df) <->
  exists r, In r (rows df) /\ lookup e (text r) = Some t.
Proof.
  unfold DataService.team_values. rewrite in_flat_map. split.
  - intros [r [Hr Ht]]. exists r. split; [exact Hr|].
    destruct (lookup e (text r)) as [s|]; [|destruct Ht].
    destruct Ht as [<-|[]]. reflexivity.
  - intros [r [Hr Ht]]. exists r. split; [exact Hr|].
    rewrite Ht. now left.
Qed.

(** The loop of [get_teams] from any sorted set of teams. *)
Lemma get_teams_from (sheets : list DataFrame) acc :
  Sorted DataService.str_lt acc ->
  let step teams df :=
    match DataService.equipe_column df with
    | Some equipe_col =>
      fold_left (fun t x => DataService.set_add x t)
                (DataService.team_values equipe_col df) teams
    | None => teams
    end in
  Sorted DataService.str_lt (fold_left step sheets acc) /\
  forall t, In t (fold_left step sheets acc) <->
            In t acc \/
            exists df equipe_col r,
              In df sheets /\ DataService.equipe_column df = Some equipe_col /\
              In r (rows df) /\ lookup equipe_col (text r) = Some t.
Proof.
  intros Hs step. revert acc Hs.
  induction sheets as [|df sheets IH]; intros acc Hs; simpl.
  - split; [exact Hs|]. intros t. split; [now left|].
    intros [H|(df & e & r & [] & _)]. exact H.
  - assert (Hstep : Sorted DataService.str_lt (step acc df) /\
                    forall t, In t (step acc df) <->
                              In t acc \/
                              exists e r,
                                DataService.equipe_column df = Some e /\
                                In r (rows df) /\ lookup e (text r) = Some t).
    { unfold step. destruct (DataService.equipe_column df) as [e|].
      - destruct (fold_set_add (DataService.team_values e df) acc Hs)
          as [H1 H2].
        split; [exact H1|]. intros t. rewrite H2, team_values_In. split.
        + intros [(r & Hr & Ht)|H]; [right|now left].
          exists e, r. auto.
        + intros [H|(e' & r & [= <-] & Hr & Ht)]; [now right|left].
          exists r. auto.
      - split; [exact Hs|]. intros t. split; [now left|].
        intros [H|(e & r & [=] & _)]. exact H. }
    destruct Hstep as [S1 M1]. destruct (IH _ S1) as [S2 M2].
    split; [exact S2|]. intros t. rewrite M2, M1. split.
    + intros [[H|(e & r & He & Hr & Ht)]|(d & e & r & Hd & He & Hr & Ht)].
      * now left.
      * right. exists df, e, r. auto.
      * right. exists d, e, r. auto.
    + intros [H|(d & e & r & [<-|Hd] & He & Hr & Ht)].
      * left. now left.
      * left. right. exists e, r. auto.
      * right. exists d, e, r. auto.
Qed.

(** X12.  [get_teams] returns the team texts in strictly increasing order
    of code points, so without repeats, and they are exactly the texts
    that stand in the team column of a row of a sheet that has one; rows
    without a team, and sheets without a team column, add nothing. *)
Theorem get_teams_sorted_members (dfs : list (str * DataFrame)) :
  StronglySorted DataService.str_lt (DataService.get_teams dfs) /\
  forall t,
    In t (DataService.get_teams dfs) <->
    exists name df equipe_col r,
      In (name, df) dfs /\ DataService.equipe_column df = Some equipe_col /\
      In r (rows df) /\ lookup equipe_col (text r) = Some t.
Proof.
  destruct (get_teams_from (map snd dfs) []) as [Hs Hm]; [constructor|].
  split.
  - apply Sorted_StronglySorted; [|exact Hs].
    intros a b c. apply str_ltb_trans.
  - intros t. unfold DataService.get_teams. rewrite Hm. split.
    + intros [[]|(df & e & r & Hd & He & Hr & Ht)].
      apply in_map_iff in Hd. destruct Hd as [[name df'] [E Hd]].
      simpl in E. subst df'. exists name, df, e, r. auto.
    + intros (name & df & e & r & Hd & He & Hr & Ht). right.
      exists df, e, r. repeat split; auto.
      apply in_map_iff. now exists (name, df).
Qed.

End TeamsProps.

(* ===================================================================== *)
(** * Further properties of the normalisation of names *)
(* ===================================================================== *)

Module NormalizeMore.
Import Text TextFacts TextMore NormalizeProps.
Local Open Scope N_scope.

Lemma forallb_filter {A : Type} (f : A -> bool) l :
  forallb f (filter f l) = true.
Proof.
  induction l as [|x l IH]; [reflexivity|].
  simpl. destruct (f x) eqn:E; [|exact IH]. simpl. now rewrite E.
Qed.

(** Folding an upper-cased text is folding the text. *)
Lemma fold_upper s :
  latin1 s = true -> flat_map fold_cp (upper s) = flat_map fold_cp s.
Proof.
  intros H. rewrite <- !fold_text. now rewrite upper_upper.
Qed.

(** X13.  [normalize_name] returns ASCII characters only, whatever the
    text; it is blind to white space around the text, and on Latin-1
    texts to letter case: the text, the stripped text and the upper-cased
    text have the same normal form. *)
Theorem normalize_name_ascii_blind (x : str) :
  forallb (fun c => c <? 128) (DemandasProcessor.normalized x) = true /\
  DemandasProcessor.normalized (strip x) = DemandasProcessor.normalized x /\
  (latin1 x = true ->
   DemandasProcessor.normalized (upper x) = DemandasProcessor.normalized x).
Proof.
  repeat split.
  - unfold DemandasProcessor.normalized, DemandasProcessor.normalize_name,
      encode_ascii_ignore. apply forallb_filter.
  - now rewrite !normalized_fold, strip_strip.
  - intros H. rewrite !normalized_fold, (strip_upper_comm x H).
    apply fold_upper. now apply forallb_strip.
Qed.

Lemma normalize_name_ascii_blind_witness :
  DemandasProcessor.normalized (upper (lit " Ana L" ++ [0xED] ++ lit "dia")) =
  DemandasProcessor.normalized (lit " Ana L" ++ [0xED] ++ lit "dia").
Proof.
  apply (normalize_name_ascii_blind (lit " Ana L" ++ [0xED] ++ lit "dia")).
  reflexivity.
Defined.

(** X14.  Normalising a name before classifying it changes no team: on
    names of plain text, [get_team] gives the normalised name the team it
    gives the name (the column that [preprocess_data] has normalised is
    classified as the raw column would be), and the classifier of
    demandas_daily02.py, which does not normalise, gives the normalised
    name that same team. *)
Theorem get_team_after_normalize (x : option str) :
  (forall s, x = Some s -> plain_text s = true) ->
  DemandasProcessor.get_team (DemandasProcessor.normalize_name x) =
  DemandasProcessor.get_team x /\
  DemandasAnalyzer.get_team (DemandasAnalyzer.normalize_name x) =
  DemandasProcessor.get_team x.
Proof.
  intros H. destruct x as [s|]; [|split; reflexivity].
  specialize (H s eq_refl). split; [|reflexivity].
  rewrite normalize_name_normalized.
  unfold DemandasProcessor.get_team.
  destruct (normalized_plain_shape s H) as [Hc [Hh Hl]].
  now rewrite (normalized_fixed _ Hc Hh Hl).
Qed.

Lemma get_team_after_normalize_witness :
  DemandasProcessor.get_team
    (DemandasProcessor.normalize_name (Some (lit " ana l" ++ [0xED] ++ lit "dia")))
  = DemandasProcessor.get_team (Some (lit " ana l" ++ [0xED] ++ lit "dia")).
Proof.
  apply (get_team_after_normalize (Some (lit " ana l" ++ [0xED] ++ lit "dia"))).
  intros s [= <-]. reflexivity.
Defined.

End NormalizeMore.

(* ===================================================================== *)
(** * Further properties of the processor of the dashboard *)
(* ===================================================================== *)

Module ProcessorMore.
Import Text TextFacts TextMore Frame FrameFacts.
Import DataProcessor DataProcessorProps.

(** ** When [process_dataframe] raises *)

Lemma process_resolucao_counts p p1 c :
  process_resolucao p = Some p1 -> c <> resolucao ->
  count_label c p1 = count_label c p.
Proof.
  unfold process_resolucao.
  destruct (count_label resolucao p) as [|[|n]]; intros [= <-] Hc;
    [reflexivity|].
  now rewrite count_label_set_dtype.
Qed.

Lemma process_resolucao_none p p1 :
  process_resolucao p = Some p1 -> count_label resolucao p = 0%nat ->
  count_label resolucao p1 = 0%nat.
Proof.
  unfold process_resolucao. intros H H0. rewrite H0 in H.
  injection H as <-. exact H0.
Qed.

Lemma responsavel_other : responsavel <> resolucao /\ situacao <> resolucao.
Proof. split; discriminate. Qed.

(** X15.  [process_dataframe] raises unless exactly one column resolves
    to the date and at most one each to the responsible and to the
    status: without a date column the final [dropna] has no column to
    look at, and two columns under one name make a frame where a column
    is expected.  A file with a column DATA and a column RESOLUCAO is
    such a case. *)
Theorem process_dataframe_raises (df : DataFrame) :
  count_label resolucao (prepared df) <> 1%nat \/
  (2 <= count_label responsavel (prepared df))%nat \/
  (2 <= count_label situacao (prepared df))%nat ->
  process_dataframe df = None.
Proof.
  unfold process_dataframe. generalize (prepared df). intros p H.
  destruct responsavel_other as [N1 N2].
  destruct (process_resolucao p) as [p1|] eqn:E1; [|reflexivity].
  simpl bind.
  pose proof (process_resolucao_counts p p1 responsavel E1 N1) as C2.
  pose proof (process_resolucao_counts p p1 situacao E1 N2) as C3.
  destruct (process_responsavel p1) as [p2|] eqn:E2; [|reflexivity].
  simpl bind.
  pose proof (process_responsavel_situacao _ _ E2) as C3'.
  destruct (process_situacao p2) as [p3|] eqn:E3; [|reflexivity].
  simpl bind.
  assert (R2 : (count_label responsavel p1 <= 1)%nat).
  { unfold process_responsavel in E2.
    destruct (count_label responsavel p1) as [|[|n]]; [lia|lia|discriminate]. }
  assert (R3 : (count_label situacao p2 <= 1)%nat).
  { unfold process_situacao in E3.
    destruct (count_label situacao p2) as [|[|n]]; [lia|lia|discriminate]. }
  assert (R1 : (count_label resolucao p <= 1)%nat).
  { unfold process_resolucao in E1.
    destruct (count_label resolucao p) as [|[|n]]; [lia|lia|discriminate]. }
  destruct H as [H|[H|H]]; [|exfalso; lia|exfalso; lia].
  assert (H0 : count_label resolucao p = 0%nat) by lia.
  pose proof (process_resolucao_none p p1 E1 H0) as C1.
  unfold dropna_resolucao. rewrite count_label_has_column.
  rewrite (text_step_resolucao _ _ (process_situacao_step _ _ E3)).
  rewrite (text_step_resolucao _ _ (process_responsavel_step _ _ E2)).
  now rewrite C1.
Qed.

Lemma process_dataframe_raises_witness :
  process_dataframe Samples.csv_two_dates = None.
Proof.
  apply (process_dataframe_raises Samples.csv_two_dates).
  left. vm_compute. discriminate.
Defined.

(** ** The team of a processed row *)

Lemma map_to_team_exact r :
  _map_to_team r =
  if mem r [lit "JULIO"; lit "LEANDRO"; lit "ADRIANO"] then r else OUTROS.
Proof.
  unfold _map_to_team, map_to_team_in, TEAM_MAPPING, mem.
  cbn [find snd existsb].
  destruct (str_eqb r (lit "JULIO")) eqn:E1.
  { apply str_eqb_eq in E1. now subst. }
  destruct (str_eqb r (lit "LEANDRO")) eqn:E2.
  { apply str_eqb_eq in E2. now subst. }
  destruct (str_eqb r (lit "ADRIANO")) eqn:E3.
  { apply str_eqb_eq in E3. now subst. }
  reflexivity.
Qed.

Lemma lookup_fillna_other col k v r :
  col <> k -> lookup k (text (fillna col v r)) = lookup k (text r).
Proof.
  intros H. unfold fillna. destruct (lookup col (text r)); [reflexivity|].
  simpl. now apply lookup_dict_set_ne.
Qed.

Lemma lookup_strip_upper_same col r :
  lookup col (text (strip_upper col r)) =
  Some (upper (strip (astype_str col r))).
Proof. unfold strip_upper. simpl. apply lookup_dict_set_eq. Qed.

Lemma lookup_strip_upper_other col k r :
  col <> k -> lookup k (text (strip_upper col r)) = lookup k (text r).
Proof. intros H. unfold strip_upper. simpl. now apply lookup_dict_set_ne. Qed.

Lemma labels_other :
  equipe <> responsavel /\ situacao <> responsavel /\ situacao <> equipe.
Proof. repeat split; discriminate. Qed.

(** The responsible step on one row. *)
Lemma responsavel_step_row r :
  let r1 := strip_upper responsavel (fillna responsavel NAO_INFORMADO r) in
  let r2 := set_text equipe (_map_to_team (astype_str responsavel r1)) r1 in
  exists s,
    lookup responsavel (text r2) = Some (upper (strip s)) /\
    lookup equipe (text r2) = Some (_map_to_team (upper (strip s))).
Proof.
  intros r1 r2. destruct labels_other as (N1 & _ & _).
  exists (astype_str responsavel (fillna responsavel NAO_INFORMADO r)).
  assert (H1 : lookup responsavel (text r1) =
               Some (upper (strip (astype_str responsavel
                        (fillna responsavel NAO_INFORMADO r))))).
  { apply lookup_strip_upper_same. }
  split.
  - unfold r2. simpl text. rewrite lookup_dict_set_ne by exact N1. exact H1.
  - unfold r2. simpl text. rewrite lookup_dict_set_eq.
    unfold astype_str at 1. now rewrite H1.
Qed.

(** The status step leaves the responsible and the team of a row. *)
Lemma process_situacao_rows p2 p3 :
  process_situacao p2 = Some p3 ->
  exists g,
    rows p3 = map g (rows p2) /\
    forall r, lookup responsavel (text (g r)) = lookup responsavel (text r) /\
              lookup equipe (text (g r)) = lookup equipe (text r).
Proof.
  destruct labels_other as (_ & N2 & N3).
  unfold process_situacao.
  destruct (count_label situacao p2) as [|[|n]]; intros [= <-].
  - exists (fun r => r). split; [now rewrite map_id|]. now split.
  - eexists. split; [reflexivity|]. intros r. cbv beta.
    now rewrite !lookup_strip_upper_other, !lookup_fillna_other.
Qed.

(** X16.  In the output of [process_dataframe], when one column resolves
    to the responsible, every row has the responsible as a stripped,
    upper-cased text, and its team is that text itself when it is exactly
    JULIO, LEANDRO or ADRIANO and OUTROS in every other case. *)
Theorem process_dataframe_equipe (df out : DataFrame) :
  process_dataframe df = Some out ->
  count_label responsavel (prepared df) = 1%nat ->
  forall r, In r (rows out) ->
    exists s,
      lookup responsavel (text r) = Some (upper (strip s)) /\
      lookup equipe (text r) =
      Some (if mem (upper (strip s)) [lit "JULIO"; lit "LEANDRO"; lit "ADRIANO"]
            then upper (strip s) else OUTROS).
Proof.
  unfold process_dataframe. generalize (prepared df). intros p H C r Hr.
  destruct responsavel_other as [N1 _].
  destruct (process_resolucao p) as [p1|] eqn:E1; [|discriminate].
  simpl bind in H.
  rewrite <- (process_resolucao_counts p p1 responsavel E1 N1) in C.
  destruct (process_responsavel p1) as [p2|] eqn:E2; [|discriminate].
  simpl bind in H.
  destruct (process_situacao p2) as [p3|] eqn:E3; [|discriminate].
  simpl bind in H. unfold dropna_resolucao in H.
  destruct (has_column resolucao p3); [|discriminate].
  injection H as <-. simpl rows in Hr. apply filter_In in Hr.
  destruct Hr as [Hr _].
  destruct (process_situacao_rows p2 p3 E3) as (g & R3 & G).
  rewrite R3 in Hr. apply in_map_iff in Hr. destruct Hr as (r2 & <- & Hr2).
  destruct (G r2) as [-> ->].
  unfold process_responsavel in E2. rewrite C in E2. injection E2 as <-.
  simpl rows in Hr2. apply in_map_iff in Hr2. destruct Hr2 as (r1 & <- & _).
  destruct (responsavel_step_row r1) as (s & H1 & H2).
  exists s. split; [exact H1|]. rewrite <- map_to_team_exact. exact H2.
Qed.

Lemma process_dataframe_equipe_witness :
  exists out,
    process_dataframe Samples.csv_two_rows = Some out /\
    forall r, In r (rows out) ->
      exists s,
        lookup responsavel (text r) = Some (upper (strip s)) /\
        lookup equipe (text r) =
        Some (if mem (upper (strip s))
                     [lit "JULIO"; lit "LEANDRO"; lit "ADRIANO"]
              then upper (strip s) else OUTROS).
Proof.
  destruct (process_dataframe Samples.csv_two_rows) as [out|] eqn:E.
  - exists out. split; [reflexivity|].
    apply (process_dataframe_equipe Samples.csv_two_rows out E).
    vm_compute. reflexivity.
  - vm_compute in E. discriminate E.
Defined.


(** ** The columns of the output *)

Lemma labels_prepared df :
  labels (prepared df) = map (renamed (identify_columns (labels df))) (labels df).
Proof.
  unfold prepared, rename, fill_objects, labels. simpl columns.
  now rewrite !map_map.
Qed.

Lemma lookup_retype_other c col (dt : dtype) l :
  c <> col ->
  lookup c (map (fun x => if str_eqb (fst x) col then (col, dt) else x) l)
  = lookup c l.
Proof.
  intros Hne.
  assert (E : str_eqb col c = false) by (apply str_eqb_neq; congruence).
  induction l as [|[k v] l IH]; [reflexivity|].
  simpl map. simpl fst. destruct (str_eqb k col) eqn:Ek.
  - apply str_eqb_eq in Ek. subst k. rewrite !lookup_cons, E. exact IH.
  - rewrite !lookup_cons. now rewrite IH.
Qed.

Lemma lookup_app_other c col (dt : dtype) l :
  c <> col -> lookup c (l ++ [(col, dt)]) = lookup c l.
Proof.
  intros Hne.
  assert (E : str_eqb col c = false) by (apply str_eqb_neq; congruence).
  induction l as [|[k v] l IH]; simpl app.
  - now rewrite lookup_cons, E.
  - rewrite !lookup_cons. now rewrite IH.
Qed.

Lemma lookup_retype_same col (dt : dtype) l :
  mem col (map fst l) = true ->
  lookup col (map (fun x => if str_eqb (fst x) col then (col, dt) else x) l)
  = Some dt.
Proof.
  induction l as [|[k v] l IH]; [discriminate|].
  simpl map. simpl fst. rewrite mem_cons. intros Hc.
  destruct (str_eqb k col) eqn:E.
  - now rewrite lookup_cons, str_eqb_refl.
  - rewrite lookup_cons, E. apply IH.
    rewrite str_eqb_sym, E in Hc. exact Hc.
Qed.

Lemma lookup_set_dtype_other c col dt df :
  c <> col -> lookup c (columns (set_dtype col dt df)) = lookup c (columns df).
Proof.
  intros Hne. unfold set_dtype. simpl columns.
  destruct (has_column col df).
  - now apply lookup_retype_other.
  - now apply lookup_app_other.
Qed.

Lemma lookup_set_dtype_same col dt df :
  has_column col df = true ->
  lookup col (columns (set_dtype col dt df)) = Some dt.
Proof.
  intros Hc. unfold set_dtype. simpl columns. rewrite Hc.
  now apply lookup_retype_same.
Qed.

Lemma process_resolucao_labels p p1 :
  process_resolucao p = Some p1 -> labels p1 = labels p.
Proof.
  unfold process_resolucao.
  destruct (count_label resolucao p) as [|[|n]] eqn:C; intros [= <-];
    [reflexivity|].
  rewrite labels_set_dtype, count_label_has_column.
  change (count_label resolucao (with_rows p _)) with (count_label resolucao p).
  now rewrite C.
Qed.

Lemma process_situacao_labels p p1 :
  process_situacao p = Some p1 -> labels p1 = labels p.
Proof.
  unfold process_situacao.
  destruct (count_label situacao p) as [|[|n]] eqn:C; intros [= <-];
    [reflexivity|].
  rewrite labels_set_dtype, count_label_has_column.
  change (count_label situacao (with_rows p _)) with (count_label situacao p).
  now rewrite C.
Qed.

Lemma process_responsavel_labels p p1 :
  process_responsavel p = Some p1 ->
  labels p1 =
  if (count_label responsavel p =? 1)%nat && negb (mem equipe (labels p))
  then labels p ++ [equipe] else labels p.
Proof.
  unfold process_responsavel.
  destruct (count_label responsavel p) as [|[|n]] eqn:C; intros [= <-];
    [reflexivity|].
  simpl Nat.eqb. simpl andb.
  assert (H1 : forall rs, labels (set_dtype responsavel object
                                      (with_rows p rs)) = labels p).
  { intros rs. rewrite labels_set_dtype, count_label_has_column.
    change (count_label responsavel (with_rows p rs))
      with (count_label responsavel p).
    now rewrite C. }
  rewrite labels_set_dtype. unfold has_column. rewrite H1.
  now destruct (mem equipe (labels p)).
Qed.

Lemma process_situacao_dtype p p1 c :
  process_situacao p = Some p1 -> c <> situacao ->
  lookup c (columns p1) = lookup c (columns p).
Proof.
  unfold process_situacao.
  destruct (count_label situacao p) as [|[|n]]; intros [= <-] Hc;
    [reflexivity|].
  now rewrite lookup_set_dtype_other.
Qed.

Lemma process_responsavel_dtype p p1 c :
  process_responsavel p = Some p1 -> c <> responsavel -> c <> equipe ->
  lookup c (columns p1) = lookup c (columns p).
Proof.
  unfold process_responsavel.
  destruct (count_label responsavel p) as [|[|n]]; intros [= <-] H1 H2;
    [reflexivity|].
  now rewrite !lookup_set_dtype_other.
Qed.

(** X17.  [process_dataframe] keeps every column, in order, under the
    name of its category when it resolved to one and under its own name
    otherwise, and appends the column [equipe] when a responsible column
    exists and no column has that name yet; the date column of the output
    holds timestamps. *)
Theorem process_dataframe_columns (df out : DataFrame) :
  process_dataframe df = Some out ->
  let renamed_labels :=
    map (renamed (identify_columns (labels df))) (labels df) in
  labels out =
  (if (count_label responsavel (prepared df) =? 1)%nat
      && negb (mem equipe renamed_labels)
   then renamed_labels ++ [equipe] else renamed_labels) /\
  is_datetime64_any_dtype resolucao out = true.
Proof.
  intros H. cbv zeta. rewrite <- labels_prepared.
  unfold process_dataframe in H. revert H. generalize (prepared df).
  intros p H.
  destruct responsavel_other as [N1 N2].
  destruct resolucao_other as (M1 & M2 & M3).
  destruct (process_resolucao p) as [p1|] eqn:E1; [|discriminate].
  simpl bind in H.
  destruct (process_responsavel p1) as [p2|] eqn:E2; [|discriminate].
  simpl bind in H.
  destruct (process_situacao p2) as [p3|] eqn:E3; [|discriminate].
  simpl bind in H. unfold dropna_resolucao in H.
  destruct (has_column resolucao p3) eqn:Hc; [|discriminate].
  injection H as <-. split.
  - change (labels (with_rows p3 _)) with (labels p3).
    rewrite (process_situacao_labels _ _ E3).
    rewrite (process_responsavel_labels _ _ E2).
    rewrite (process_resolucao_labels _ _ E1).
    now rewrite (process_resolucao_counts p p1 responsavel E1 N1).
  - assert (C3 : count_label resolucao p3 = count_label resolucao p1).
    { now rewrite (text_step_resolucao _ _ (process_situacao_step _ _ E3)),
        (text_step_resolucao _ _ (process_responsavel_step _ _ E2)). }
    rewrite count_label_has_column, C3 in Hc.
    assert (C : count_label resolucao p = 1%nat).
    { unfold process_resolucao in E1.
      destruct (count_label resolucao p) as [|[|n]] eqn:C; try discriminate;
        [|reflexivity].
      injection E1 as <-. rewrite C in Hc. discriminate. }
    destruct (process_resolucao_one p C) as (p1' & E1' & _ & C1 & _).
    rewrite E1 in E1'. injection E1' as <-.
    unfold is_datetime64_any_dtype, is_frame.
    change (column_count resolucao (with_rows p3 _))
      with (count_label resolucao p3).
    rewrite C3, C1. simpl negb. simpl andb. simpl columns.
    rewrite (process_situacao_dtype _ _ resolucao E3 M3).
    rewrite (process_responsavel_dtype _ _ resolucao E2 M1 M2).
    unfold process_resolucao in E1. rewrite C in E1. injection E1 as <-.
    rewrite lookup_set_dtype_same; [reflexivity|].
    rewrite count_label_has_column.
    change (count_label resolucao (with_rows p _))
      with (count_label resolucao p).
    now rewrite C.
Qed.

Lemma process_dataframe_columns_witness :
  exists out,
    process_dataframe Samples.csv_two_rows = Some out /\
    labels out = [resolucao; responsavel; situacao; equipe].
Proof.
  destruct (process_dataframe Samples.csv_two_rows) as [out|] eqn:E.
  - exists out. split; [reflexivity|].
    apply (process_dataframe_columns Samples.csv_two_rows out E).
  - vm_compute in E. discriminate E.
Defined.

End ProcessorMore.

(* ===================================================================== *)
(** * Processing a processed frame *)
(* ===================================================================== *)

Module ProcessorIdem.
Import Text TextFacts TextMore Frame FrameFacts.
Import DataProcessor DataProcessorProps ProcessorMore.

(** ** Dictionaries and rows *)

Lemma dict_set_same {V : Type} k (v : V) m :
  lookup k m = Some v -> dict_set k v m = m.
Proof.
  induction m as [|[k' v'] m IH]; [discriminate|].
  rewrite lookup_cons. simpl. destruct (str_eqb k' k) eqn:E.
  - apply str_eqb_eq in E. intros [= ->]. now subst.
  - intros H. now rewrite (IH H).
Qed.

Lemma lookup_dict_del_other {V : Type} k k' (m : list (str * V)) :
  k <> k' -> lookup k' (dict_del k m) = lookup k' m.
Proof.
  intros Hne. unfold dict_del.
  induction m as [|[k0 v0] m IH]; [reflexivity|].
  simpl. destruct (str_eqb k0 k) eqn:E; simpl.
  - apply str_eqb_eq in E. subst k0. rewrite lookup_cons.
    assert (E : str_eqb k k' = false) by now apply str_eqb_neq.
    now rewrite E.
  - rewrite !lookup_cons. now rewrite IH.
Qed.

Lemma row_eta r : {| text := text r; stamp := stamp r |} = r.
Proof. now destruct r. Qed.

Lemma map_fixed {A : Type} (f : A -> A) l :
  (forall x, In x l -> f x = x) -> map f l = l.
Proof.
  intros H. rewrite <- (map_id l) at 2. now apply map_ext_in.
Qed.

Lemma fillna_present col v r :
  lookup col (text r) <> None -> fillna col v r = r.
Proof. unfold fillna. now destruct (lookup col (text r)). Qed.

Lemma strip_upper_fixed col u r :
  lookup col (text r) = Some u -> upper (strip u) = u ->
  strip_upper col r = r.
Proof.
  intros H Hu. unfold strip_upper, set_text, astype_str. rewrite H, Hu.
  rewrite (dict_set_same _ _ _ H). apply row_eta.
Qed.

Lemma responsavel_row_fixed r u :
  lookup responsavel (text r) = Some u -> upper (strip u) = u ->
  lookup equipe (text r) = Some (_map_to_team u) ->
  responsavel_row r = r.
Proof.
  intros H Hu He. unfold responsavel_row.
  rewrite fillna_present by congruence.
  rewrite (strip_upper_fixed _ u r H Hu).
  unfold set_text, astype_str. rewrite H, (dict_set_same _ _ _ He).
  apply row_eta.
Qed.

Lemma situacao_row_fixed r u :
  lookup situacao (text r) = Some u -> upper (strip u) = u ->
  situacao_row r = r.
Proof.
  intros H Hu. unfold situacao_row. rewrite fillna_present by congruence.
  now apply (strip_upper_fixed _ u).
Qed.

Lemma fill_row_fixed df r :
  (forall c, In (c, object) (columns df) -> lookup c (text r) <> None) ->
  fill_row df r = r.
Proof.
  unfold fill_row. induction (columns df) as [|[c t] l IH]; [reflexivity|].
  intros H. simpl fold_left. simpl snd. simpl fst.
  assert (E : match t with
              | object => fillna c NAO_INFORMADO r
              | _ => r
              end = r).
  { destruct t; try reflexivity. apply fillna_present, H. now left. }
  rewrite E. apply IH. intros c' Hc'. apply H. now right.
Qed.

(** ** Labels that resolve to themselves *)

Lemma renamed_settled L k :
  (In k L -> settled k) -> renamed (identify_columns L) k = k.
Proof.
  intros H. unfold renamed. rewrite identify_columns_lookup.
  destruct (mem k L) eqn:Em; [|reflexivity].
  apply mem_In in Em. destruct (H Em) as [-> | ->]; reflexivity.
Qed.

Lemma rename_fixed q :
  (forall k, In k (labels q) -> settled k) ->
  rename (identify_columns (labels q)) q = q.
Proof.
  intros H.
  assert (Hk : forall k, renamed (identify_columns (labels q)) k = k).
  { intros k. apply renamed_settled. apply H. }
  unfold rename. destruct q as [cols rs]. simpl columns. simpl rows. f_equal.
  - apply map_fixed. intros [k t] _. simpl. now rewrite Hk.
  - apply map_fixed. intros [tx st] _. unfold rename_row. simpl. f_equal;
      apply map_fixed; intros [k v] _; simpl; now rewrite Hk.
Qed.

(** ** Columns that have their type already *)

Lemma retype_fixed col (dt : dtype) l :
  (forall t, In (col, t) l -> t = dt) ->
  map (fun c => if str_eqb (fst c) col then (col, dt) else c) l = l.
Proof.
  intros H. apply map_fixed. intros [k t] Hin. simpl.
  destruct (str_eqb k col) eqn:E; [|reflexivity].
  apply str_eqb_eq in E. subst k. now rewrite (H t Hin).
Qed.

Lemma set_dtype_same col dt q :
  has_column col q = true -> (forall t, In (col, t) (columns q) -> t = dt) ->
  set_dtype col dt q = q.
Proof.
  intros Hc H. unfold set_dtype. rewrite Hc, (retype_fixed col dt _ H).
  now destruct q.
Qed.

Lemma set_dtype_fixed col dt q rs :
  has_column col q = true -> (forall t, In (col, t) (columns q) -> t = dt) ->
  rs = rows q ->
  set_dtype col dt (with_rows q rs) = q.
Proof.
  intros Hc H ->. replace (with_rows q (rows q)) with q by now destruct q.
  now apply set_dtype_same.
Qed.

Lemma has_column_lookup col q :
  has_column col q = true -> exists t, In (col, t) (columns q) /\
                                       lookup col (columns q) = Some t.
Proof.
  unfold has_column, labels.
  induction (columns q) as [|[k t] l IH]; [discriminate|].
  simpl map. rewrite mem_cons, lookup_cons. rewrite str_eqb_sym.
  destruct (str_eqb k col) eqn:E.
  - apply str_eqb_eq in E. subst k. intros _. exists t. split; [now left|reflexivity].
  - simpl. intros H. destruct (IH H) as (t' & Hin & Hl).
    exists t'. split; [now right|exact Hl].
Qed.

Lemma count_one_has_column col q :
  count_label col q = 1%nat -> has_column col q = true.
Proof. intros H. now rewrite count_label_has_column, H. Qed.

(** ** Latin-1 texts *)

Lemma upper_cp_high c : (256 <= c)%N -> upper_cp c = [c].
Proof.
  intros H. unfold upper_cp.
  replace (c <=? 0x7A)%N with false by (symmetry; apply N.leb_gt; lia).
  replace (c =? 0xB5)%N with false by (symmetry; apply N.eqb_neq; lia).
  replace (c =? 0xDF)%N with false by (symmetry; apply N.eqb_neq; lia).
  replace (c <=? 0xFE)%N with false by (symmetry; apply N.leb_gt; lia).
  replace (c =? 0xFF)%N with false by (symmetry; apply N.eqb_neq; lia).
  now rewrite !andb_false_r.
Qed.

Lemma upper_latin1_inv y : latin1 (upper y) = true -> latin1 y = true.
Proof.
  induction y as [|c y IH]; [reflexivity|].
  change (upper (c :: y)) with (upper_cp c ++ upper y).
  unfold latin1 in *. rewrite forallb_app. intros H.
  apply andb_true_iff in H. destruct H as [H1 H2].
  simpl. rewrite (IH H2), andb_true_r.
  destruct (N.ltb_spec c 256) as [|Hc]; [reflexivity|].
  rewrite (upper_cp_high c Hc) in H1. simpl in H1.
  rewrite andb_true_r in H1. apply N.ltb_lt in H1. lia.
Qed.

(** An upper-cased, stripped text of Latin-1 is upper-cased and stripped
    to itself. *)
Lemma upper_strip_settled s :
  latin1 (upper (strip s)) = true ->
  upper (strip (upper (strip s))) = upper (strip s).
Proof.
  intros H. apply upper_latin1_inv in H.
  rewrite (strip_upper_comm _ H), strip_strip. now apply upper_upper.
Qed.

(** ** A processed frame is processed to itself *)

Lemma prepared_fixed q : processed q -> prepared q = q.
Proof.
  intros (_ & _ & _ & (_ & Hk & Hr) & _).
  unfold prepared.
  assert (E : fill_objects q = q).
  { unfold fill_objects. rewrite map_fixed; [now destruct q|].
    intros r Hin. apply fill_row_fixed. now apply Hr. }
  rewrite E. now apply rename_fixed.
Qed.

Lemma process_resolucao_fixed q : processed q -> process_resolucao q = Some q.
Proof.
  intros (C1 & _ & _ & (T1 & _) & _).
  unfold process_resolucao. rewrite C1. f_equal.
  pose proof (count_one_has_column _ _ C1) as Hc.
  destruct (has_column_lookup _ _ Hc) as (t & Hin & Hl).
  apply T1 in Hin. subst t.
  apply set_dtype_fixed; [exact Hc|exact T1|].
  unfold dtype_of. rewrite Hl. now apply map_fixed.
Qed.

Lemma process_responsavel_fixed q :
  processed q -> process_responsavel q = Some q.
Proof.
  intros (_ & C2 & _ & _ & D2 & _ & _ & L).
  unfold process_responsavel.
  destruct (count_label responsavel q) as [|[|n]] eqn:C; [reflexivity| |lia].
  destruct (D2 C) as (He & Ht & Hr). f_equal.
  assert (Hrows : map responsavel_row (rows q) = rows q).
  { apply map_fixed. intros r Hin.
    destruct (Hr r Hin) as (s & H1 & H2).
    apply (responsavel_row_fixed r (upper (strip s))); auto.
    apply upper_strip_settled.
    apply (L r responsavel _ Hin); [now left|exact H1]. }
  change (map _ (rows q)) with (map responsavel_row (rows q)).
  rewrite Hrows.
  rewrite (set_dtype_fixed responsavel object q (rows q)).
  - apply set_dtype_same; [exact He|]. intros t Hin. apply Ht. now right.
  - now apply count_one_has_column.
  - intros t Hin. apply Ht. now left.
  - reflexivity.
Qed.

Lemma process_situacao_fixed q : processed q -> process_situacao q = Some q.
Proof.
  intros (_ & _ & C3 & _ & _ & D3 & _ & L).
  unfold process_situacao.
  destruct (count_label situacao q) as [|[|n]] eqn:C; [reflexivity| |lia].
  destruct (D3 C) as (Ht & Hr). f_equal.
  assert (Hrows : map situacao_row (rows q) = rows q).
  { apply map_fixed. intros r Hin.
    destruct (Hr r Hin) as (s & H1).
    apply (situacao_row_fixed r (upper (strip s))); auto.
    apply upper_strip_settled.
    apply (L r situacao _ Hin); [right; now left|exact H1]. }
  change (map _ (rows q)) with (map situacao_row (rows q)).
  rewrite Hrows. apply set_dtype_fixed.
  - now apply count_one_has_column.
  - exact Ht.
  - reflexivity.
Qed.

Lemma dropna_fixed q : processed q -> dropna_resolucao q = Some q.
Proof.
  intros (C1 & _ & _ & _ & _ & _ & Hn & _).
  unfold dropna_resolucao. rewrite (count_one_has_column _ _ C1). f_equal.
  rewrite forallb_filter_id; [now destruct q|].
  apply forallb_forall. exact Hn.
Qed.

Lemma process_dataframe_fixed q : processed q -> process_dataframe q = Some q.
Proof.
  intros H. unfold process_dataframe. rewrite (prepared_fixed q H).
  rewrite (process_resolucao_fixed q H). simpl bind.
  rewrite (process_responsavel_fixed q H). simpl bind.
  rewrite (process_situacao_fixed q H). simpl bind.
  now apply dropna_fixed.
Qed.

(** ** What the steps leave *)

Lemma set_dtype_In k t col dt q :
  In (k, t) (columns (set_dtype col dt q)) ->
  (k = col /\ t = dt) \/ (k <> col /\ In (k, t) (columns q)).
Proof.
  unfold set_dtype. simpl columns. destruct (has_column col q) eqn:Hc.
  - intros H. apply in_map_iff in H. destruct H as ([k0 t0] & E & Hin).
    simpl in E. destruct (str_eqb k0 col) eqn:Ek.
    + injection E as <- <-. now left.
    + injection E as <- <-. right. split; [|exact Hin].
      now apply str_eqb_neq.
  - intros H. apply in_app_iff in H. destruct H as [H|[H|[]]].
    + right. split; [|exact H]. intros ->.
      assert (Hm : mem col (labels q) = true).
      { apply mem_In. unfold labels. apply in_map_iff. now exists (col, t). }
      unfold has_column in Hc. congruence.
    + injection H as <- <-. now left.
Qed.

Lemma lookup_set_text_other col k v r :
  col <> k -> lookup k (text (set_text col v r)) = lookup k (text r).
Proof. intros H. simpl. now apply lookup_dict_set_ne. Qed.

Lemma responsavel_row_other k r :
  k <> responsavel -> k <> equipe ->
  lookup k (text (responsavel_row r)) = lookup k (text r).
Proof.
  intros H1 H2. unfold responsavel_row.
  rewrite lookup_set_text_other by congruence.
  rewrite lookup_strip_upper_other by congruence.
  apply lookup_fillna_other. congruence.
Qed.

Lemma responsavel_row_spec r :
  exists s,
    lookup responsavel (text (responsavel_row r)) = Some (upper (strip s)) /\
    lookup equipe (text (responsavel_row r))
    = Some (_map_to_team (upper (strip s))).
Proof. exact (responsavel_step_row r). Qed.

Lemma situacao_row_other k r :
  k <> situacao -> lookup k (text (situacao_row r)) = lookup k (text r).
Proof.
  intros H. unfold situacao_row.
  rewrite lookup_strip_upper_other by congruence.
  apply lookup_fillna_other. congruence.
Qed.

Lemma situacao_row_spec r :
  exists s, lookup situacao (text (situacao_row r)) = Some (upper (strip s)).
Proof. eexists. unfold situacao_row. apply lookup_strip_upper_same. Qed.

Lemma to_datetime_row_other col dt k r :
  k <> col ->
  lookup k (text (to_datetime_row col dt r)) = lookup k (text r).
Proof.
  intros H. destruct dt; try reflexivity; simpl;
    apply lookup_dict_del_other; congruence.
Qed.

(** The steps, each as it acts when it finds its column. *)
Lemma process_resolucao_spec p p1 :
  process_resolucao p = Some p1 ->
  (count_label resolucao p = 0%nat /\ p1 = p) \/
  (count_label resolucao p = 1%nat /\
   p1 = set_dtype resolucao datetime64
          (with_rows p (map (to_datetime_row resolucao (dtype_of resolucao p))
                            (rows p)))).
Proof.
  unfold process_resolucao.
  destruct (count_label resolucao p) as [|[|n]]; intros [= <-]; auto.
Qed.

Lemma process_responsavel_spec p p1 :
  process_responsavel p = Some p1 ->
  (count_label responsavel p = 0%nat /\ p1 = p) \/
  (count_label responsavel p = 1%nat /\
   p1 = set_dtype equipe object
          (set_dtype responsavel object
             (with_rows p (map responsavel_row (rows p))))).
Proof.
  unfold process_responsavel.
  destruct (count_label responsavel p) as [|[|n]]; intros [= <-]; auto.
Qed.

Lemma process_situacao_spec p p1 :
  process_situacao p = Some p1 ->
  (count_label situacao p = 0%nat /\ p1 = p) \/
  (count_label situacao p = 1%nat /\
   p1 = set_dtype situacao object
          (with_rows p (map situacao_row (rows p)))).
Proof.
  unfold process_situacao.
  destruct (count_label situacao p) as [|[|n]]; intros [= <-]; auto.
Qed.

(** ** The frame before the steps *)

Lemma settled_target k target :
  expected_target k = Some target -> settled target.
Proof.
  unfold expected_target.
  destruct (find _ EXPECTED_COLUMNS) as [entry|] eqn:E; [|discriminate].
  intros [= <-]. apply find_some in E. destruct E as [Hin _].
  destruct Hin as [<-|[<-|[<-|[]]]]; right; reflexivity.
Qed.

Lemma settled_equipe : settled equipe.
Proof. left. reflexivity. Qed.

Lemma prepared_settled df k : In k (labels (prepared df)) -> settled k.
Proof.
  rewrite labels_prepared. intros H. apply in_map_iff in H.
  destruct H as (k0 & <- & Hin).
  unfold renamed. rewrite identify_columns_lookup.
  apply mem_In in Hin. rewrite Hin.
  destruct (expected_target (strip (upper k0))) eqn:E.
  - eapply settled_target; eassumption.
  - left. exact E.
Qed.

Lemma fillna_keeps col v k r :
  lookup k (text r) <> None -> lookup k (text (fillna col v r)) <> None.
Proof.
  intros H. unfold fillna.
  destruct (lookup col (text r)) eqn:E; [exact H|].
  simpl text. destruct (str_eqb col k) eqn:Ek.
  - apply str_eqb_eq in Ek. subst k. now rewrite lookup_dict_set_eq.
  - apply str_eqb_neq in Ek. now rewrite lookup_dict_set_ne.
Qed.

Lemma fillna_has col v r : lookup col (text (fillna col v r)) <> None.
Proof.
  unfold fillna. destruct (lookup col (text r)) eqn:E.
  - now rewrite E.
  - simpl text. now rewrite lookup_dict_set_eq.
Qed.

Lemma fill_row_keeps df k r :
  lookup k (text r) <> None -> lookup k (text (fill_row df r)) <> None.
Proof.
  unfold fill_row. revert r.
  induction (columns df) as [|[c t] l IH]; intros r H; [exact H|].
  simpl fold_left. apply IH. destruct t; auto using fillna_keeps.
Qed.

Lemma fill_row_has df c r :
  In (c, object) (columns df) -> lookup c (text (fill_row df r)) <> None.
Proof.
  unfold fill_row. revert r.
  induction (columns df) as [|[c' t] l IH]; intros r H; [destruct H|].
  destruct H as [H|H].
  - injection H as -> ->. simpl fold_left.
    apply (fill_row_keeps {| columns := l; rows := [] |}).
    apply fillna_has.
  - simpl fold_left. now apply IH.
Qed.

Lemma lookup_rename_some {V : Type} (f : str -> str) k (m : list (str * V)) :
  lookup k m <> None ->
  lookup (f k) (map (fun kv => (f (fst kv), snd kv)) m) <> None.
Proof.
  induction m as [|[k' v] m IH]; [easy|].
  simpl map. rewrite !lookup_cons. simpl fst.
  destruct (str_eqb (f k') (f k)) eqn:E; [easy|].
  destruct (str_eqb k' k) eqn:E'; [|exact IH].
  apply str_eqb_eq in E'. subst k'. now rewrite str_eqb_refl in E.
Qed.

Lemma prepared_filled df r c :
  In r (rows (prepared df)) -> In (c, object) (columns (prepared df)) ->
  lookup c (text r) <> None.
Proof.
  unfold prepared, rename. simpl rows. simpl columns.
  intros Hr Hc.
  apply in_map_iff in Hr. destruct Hr as (r1 & <- & Hr).
  unfold fill_objects in Hr. simpl rows in Hr.
  apply in_map_iff in Hr. destruct Hr as (r0 & <- & _).
  apply in_map_iff in Hc. destruct Hc as ([c0 t] & E & Hc).
  simpl in E. injection E as <- ->.
  unfold rename_row. simpl text. apply lookup_rename_some.
  now apply fill_row_has.
Qed.

(** ** The state after each step *)

Lemma has_column_set_dtype_same col dt q :
  has_column col (set_dtype col dt q) = true.
Proof.
  unfold has_column at 1. rewrite labels_set_dtype.
  destruct (has_column col q) eqn:E; [exact E|].
  apply mem_In, in_or_app. right. now left.
Qed.

Lemma resolucao_staged p p1 :
  process_resolucao p = Some p1 -> count_label resolucao p = 1%nat ->
  (forall k, In k (labels p) -> settled k) ->
  (forall r, In r (rows p) ->
     forall c, In (c, object) (columns p) -> lookup c (text r) <> None) ->
  staged p1.
Proof.
  intros E C Hk Hr. pose proof (process_resolucao_labels _ _ E) as HL.
  destruct (process_resolucao_spec _ _ E) as [[C0 _]|[_ ->]]; [congruence|].
  split; [|split].
  - intros t Hin. apply set_dtype_In in Hin.
    destruct Hin as [[_ ->]|[Hne _]]; [reflexivity|now elim Hne].
  - intros k Hin. apply Hk. now rewrite <- HL.
  - simpl rows. intros r Hin c Hc.
    apply in_map_iff in Hin. destruct Hin as (r0 & <- & Hin).
    apply set_dtype_In in Hc. destruct Hc as [[_ Hc]|[Hne Hc]]; [discriminate|].
    rewrite to_datetime_row_other by exact Hne.
    now apply (Hr r0 Hin).
Qed.

Lemma responsavel_staged q q' :
  process_responsavel q = Some q' -> staged q ->
  staged q' /\ responsavel_done q'.
Proof.
  intros E (Ht & Hk & Hr).
  pose proof (process_responsavel_labels _ _ E) as HL.
  destruct (process_responsavel_spec _ _ E) as [[C0 ->]|[C1 ->]].
  { split; [now repeat split|]. intros C. congruence. }
  split; [split; [|split]|].
  - intros t Hin. apply set_dtype_In in Hin.
    destruct Hin as [[Hin _]|[_ Hin]]; [discriminate|].
    apply set_dtype_In in Hin.
    destruct Hin as [[Hin _]|[_ Hin]]; [discriminate|].
    now apply Ht.
  - intros k Hin. rewrite HL in Hin.
    destruct (_ && _) in Hin; [|now apply Hk].
    apply in_app_or in Hin. destruct Hin as [Hin|[<-|[]]];
      [now apply Hk|apply settled_equipe].
  - simpl rows. intros r Hin c Hc.
    apply in_map_iff in Hin. destruct Hin as (r0 & <- & Hin).
    destruct (responsavel_row_spec r0) as (s & H1 & H2).
    apply set_dtype_In in Hc. destruct Hc as [[-> _]|[Hne Hc]];
      [now rewrite H2|].
    apply set_dtype_In in Hc. destruct Hc as [[-> _]|[Hne' Hc]];
      [now rewrite H1|].
    rewrite responsavel_row_other by assumption.
    now apply (Hr r0 Hin).
  - intros _. split; [apply has_column_set_dtype_same|]. split.
    + intros t [Hin|Hin]; apply set_dtype_In in Hin.
      * destruct Hin as [[Hin _]|[_ Hin]]; [discriminate|].
        apply set_dtype_In in Hin.
        destruct Hin as [[_ ->]|[Hne _]]; [reflexivity|now elim Hne].
      * destruct Hin as [[_ ->]|[Hne _]]; [reflexivity|now elim Hne].
    + simpl rows. intros r Hin.
      apply in_map_iff in Hin. destruct Hin as (r0 & <- & Hin).
      apply responsavel_row_spec.
Qed.

Lemma situacao_staged q q' :
  process_situacao q = Some q' -> staged q -> responsavel_done q ->
  staged q' /\ responsavel_done q' /\ situacao_done q'.
Proof.
  intros E (Ht & Hk & Hr) D.
  pose proof (process_situacao_labels _ _ E) as HL.
  destruct (process_situacao_spec _ _ E) as [[C0 ->]|[C1 ->]].
  { split; [now repeat split|]. split; [exact D|]. intros C. congruence. }
  split; [split; [|split]|split].
  - intros t Hin. apply set_dtype_In in Hin.
    destruct Hin as [[Hin _]|[_ Hin]]; [discriminate|].
    now apply Ht.
  - intros k Hin. apply Hk. now rewrite <- HL.
  - simpl rows. intros r Hin c Hc.
    apply in_map_iff in Hin. destruct Hin as (r0 & <- & Hin).
    destruct (situacao_row_spec r0) as (s & H1).
    apply set_dtype_In in Hc. destruct Hc as [[-> _]|[Hne Hc]];
      [now rewrite H1|].
    rewrite situacao_row_other by assumption.
    now apply (Hr r0 Hin).
  - intros C. rewrite count_label_set_dtype in C by discriminate.
    destruct (D C) as (He & Hty & Hrs).
    split; [|split].
    + rewrite has_column_set_dtype by discriminate. exact He.
    + intros t [Hin|Hin]; apply set_dtype_In in Hin;
        (destruct Hin as [[Hin _]|[_ Hin]]; [discriminate|]);
        apply Hty; [now left|now right].
    + simpl rows. intros r Hin.
      apply in_map_iff in Hin. destruct Hin as (r0 & <- & Hin).
      rewrite !situacao_row_other by discriminate.
      now apply Hrs.
  - intros _. split.
    + intros t Hin. apply set_dtype_In in Hin.
      destruct Hin as [[_ ->]|[Hne _]]; [reflexivity|now elim Hne].
    + simpl rows. intros r Hin.
      apply in_map_iff in Hin. destruct Hin as (r0 & <- & Hin).
      apply situacao_row_spec.
Qed.

Lemma process_responsavel_own_count q q' :
  process_responsavel q = Some q' ->
  (count_label responsavel q' <= 1)%nat.
Proof.
  intros E. destruct (process_responsavel_spec _ _ E) as [[C0 ->]|[C1 ->]];
    [lia|].
  rewrite count_label_set_dtype by discriminate.
  rewrite count_label_same_set_dtype.
  - change (count_label responsavel (with_rows q _))
      with (count_label responsavel q). lia.
  - rewrite count_label_has_column.
    change (count_label responsavel (with_rows q _))
      with (count_label responsavel q). now rewrite C1.
Qed.

Lemma process_situacao_own_count q q' :
  process_situacao q = Some q' ->
  (count_label situacao q' <= 1)%nat /\
  count_label responsavel q' = count_label responsavel q.
Proof.
  intros E. destruct (process_situacao_spec _ _ E) as [[C0 ->]|[C1 ->]];
    [split; [lia|reflexivity]|].
  split; [|now rewrite count_label_set_dtype by discriminate].
  rewrite count_label_same_set_dtype.
  - change (count_label situacao (with_rows q _))
      with (count_label situacao q). lia.
  - rewrite count_label_has_column.
    change (count_label situacao (with_rows q _))
      with (count_label situacao q). now rewrite C1.
Qed.

(** The steps after the renaming leave a processed frame. *)
Lemma process_steps_processed p out :
  bind (process_resolucao p) (fun df =>
  bind (process_responsavel df) (fun df =>
  bind (process_situacao df) dropna_resolucao)) = Some out ->
  (forall k, In k (labels p) -> settled k) ->
  (forall r, In r (rows p) ->
     forall c, In (c, object) (columns p) -> lookup c (text r) <> None) ->
  (forall r col s,
      In r (rows out) -> In col [responsavel; situacao] ->
      lookup col (text r) = Some s -> latin1 s = true) ->
  processed out.
Proof.
  intros H Hk Hr L.
  destruct (process_resolucao p) as [p1|] eqn:E1; [|discriminate].
  simpl bind in H.
  destruct (process_responsavel p1) as [p2|] eqn:E2; [|discriminate].
  simpl bind in H.
  destruct (process_situacao p2) as [p3|] eqn:E3; [|discriminate].
  simpl bind in H. unfold dropna_resolucao in H.
  destruct (has_column resolucao p3) eqn:Hc; [|discriminate].
  injection H as <-.
  assert (S2 := process_responsavel_step _ _ E2).
  assert (S3 := process_situacao_step _ _ E3).
  assert (C3 : count_label resolucao p3 = count_label resolucao p1).
  { now rewrite (text_step_resolucao _ _ S3), (text_step_resolucao _ _ S2). }
  rewrite count_label_has_column, C3 in Hc.
  assert (H1 : count_label resolucao p = 1%nat).
  { destruct (process_resolucao_spec _ _ E1) as [[C0 ->]|[C1 _]];
      [|exact C1].
    rewrite C0 in Hc. discriminate. }
  destruct (process_resolucao_one p H1) as (p1' & E1' & _ & C1 & _).
  rewrite E1 in E1'. injection E1' as <-.
  pose proof (resolucao_staged _ _ E1 H1 Hk Hr) as G1.
  destruct (responsavel_staged _ _ E2 G1) as [G2 D2].
  destruct (situacao_staged _ _ E3 G2 D2) as (G3 & D3 & F3).
  destruct (process_situacao_own_count _ _ E3) as [B3 B2].
  pose proof (process_responsavel_own_count _ _ E2) as B2'.
  destruct G3 as (Ga & Gb & Gc).
  split; [|split; [|split; [|split; [|split; [|split; [|split]]]]]].
  - change (count_label resolucao p3 = 1%nat). congruence.
  - change (count_label responsavel p3 <= 1)%nat. lia.
  - exact B3.
  - split; [exact Ga|]. split; [exact Gb|].
    simpl rows. intros r Hin. apply filter_In in Hin. now apply Gc.
  - intros C. destruct (D3 C) as (He & Hty & Hrs).
    split; [exact He|]. split; [exact Hty|].
    simpl rows. intros r Hin. apply filter_In in Hin. now apply Hrs.
  - intros C. destruct (F3 C) as (Hty & Hrs).
    split; [exact Hty|].
    simpl rows. intros r Hin. apply filter_In in Hin. now apply Hrs.
  - simpl rows. intros r Hin. apply filter_In in Hin. tauto.
  - exact L.
Qed.

(** X22.  [process_dataframe] is idempotent on what it returns: given its
    own output, whose responsible and status cells are Latin-1 text, it
    returns that frame unchanged, with the same columns and the same
    rows. *)
Theorem process_dataframe_idempotent (df out : DataFrame) :
  process_dataframe df = Some out ->
  (forall r col s,
      In r (rows out) -> In col [responsavel; situacao] ->
      lookup col (text r) = Some s -> latin1 s = true) ->
  process_dataframe out = Some out.
Proof.
  intros H L. apply process_dataframe_fixed.
  apply (process_steps_processed (prepared df)).
  - exact H.
  - apply prepared_settled.
  - intros r Hin c. now apply prepared_filled.
  - exact L.
Qed.

Lemma process_dataframe_idempotent_witness :
  exists out,
    process_dataframe Samples.csv_two_rows = Some out /\
    rows out <> [] /\
    process_dataframe out = Some out.
Proof.
  destruct (process_dataframe Samples.csv_two_rows) as [out|] eqn:E;
    vm_compute in E; [|discriminate E].
  injection E as E. exists out. split; [reflexivity|].
  split; [now rewrite <- E|].
  refine (process_dataframe_idempotent Samples.csv_two_rows out _ _).
  - rewrite <- E. vm_compute. reflexivity.
  - rewrite <- E.
    intros r col s [<-|[]] [<-|[<-|[]]] Hs; vm_compute in Hs;
      injection Hs as <-; reflexivity.
Defined.

End ProcessorIdem.

(* ===================================================================== *)
(** * The queries of the service taken together *)
(* ===================================================================== *)

Module CrossProps.
Import Text TextFacts TextMore Frame FrameFacts Metrics MetricsFacts.
Import DataServiceProps DashboardProps AggregationProps QueryProps.
Local Open Scope Z_scope.

Lemma filter_none {A : Type} (f : A -> bool) l :
  (forall x, In x l -> f x = false) -> filter f l = [].
Proof.
  induction l as [|x l IH]; intros H; [reflexivity|].
  simpl. rewrite (H x (or_introl eq_refl)). apply IH.
  intros y Hy. apply H. now right.
Qed.

(** ** Dates outside the range *)

(** A row that the date filter keeps holds, in a date column, a timestamp
    of the day asked for. *)
Lemma date_mask_sheet_dates date df r :
  In r (rows df) -> DataService.date_mask date df r = true ->
  exists t, In t (DataService.sheet_dates df) /\ date_of t = date_of date.
Proof.
  intros Hr H. unfold DataService.date_mask in H.
  apply existsb_exists in H. destruct H as (col & Hcol & H).
  apply andb_true_iff in H. destruct H as [Hc Hd].
  unfold dt_date_eq in Hd.
  destruct (lookup col (stamp r)) as [t|] eqn:Et; [|discriminate].
  apply Z.eqb_eq in Hd. exists t. split; [|exact Hd].
  unfold DataService.sheet_dates. apply in_flat_map. exists col.
  split; [exact Hcol|]. rewrite Hc. unfold DataService.stamps.
  apply in_flat_map. exists r. split; [exact Hr|]. rewrite Et. now left.
Qed.

Lemma sheet_dates_loaded (dfs : list (str * DataFrame)) name df t :
  In (name, df) dfs -> In t (DataService.sheet_dates df) ->
  In t (DataService.loaded_dates dfs).
Proof.
  intros Hin Ht. unfold DataService.loaded_dates. apply in_flat_map.
  exists df. split; [|exact Ht]. apply in_map_iff. now exists (name, df).
Qed.

Lemma date_of_le a b : a <= b -> date_of a <= date_of b.
Proof. intros H. unfold date_of. apply Z.div_le_mono; [reflexivity|exact H]. Qed.

Lemma get_daily_metrics_zero dfs date team :
  (forall name df, In (name, df) dfs ->
                   rows (DataService.df_date date team df) = []) ->
  counters (DataService.get_daily_metrics dfs date team) = zero.
Proof.
  intros H. rewrite get_daily_metrics_sum.
  apply (sum_all_in (fun m => m = zero)).
  - reflexivity.
  - intros a b -> ->. reflexivity.
  - intros df Hin. apply in_sheets in Hin. destruct Hin as [name Hin].
    apply sheet_contribution_no_rows. now apply (H name).
Qed.

(** X18.  The range of the dates bounds the queries: for a day before the
    day of the start that [get_date_range] returns, or after the day of
    its end, [get_daily_metrics] returns zero in every counter, whatever
    the team. *)
Theorem no_metrics_outside_date_range
        (dfs : list (str * DataFrame)) (date : Z) (team : option str) :
  date_of date < date_of (fst (DataService.get_date_range dfs)) \/
  date_of (snd (DataService.get_date_range dfs)) < date_of date ->
  counters (DataService.get_daily_metrics dfs date team) = zero.
Proof.
  intros H. apply get_daily_metrics_zero. intros name df Hin.
  rewrite df_date_rows. apply filter_none. intros r Hr.
  apply filter_In in Hr. destruct Hr as [Hr _].
  destruct (DataService.date_mask date df r) eqn:Em; [|reflexivity].
  exfalso.
  destruct (date_mask_sheet_dates date df r Hr Em) as (t & Ht & Hd).
  apply (sheet_dates_loaded dfs name) in Ht; [|exact Hin].
  rewrite DateRangeProps.get_date_range_folds in H. simpl fst in H.
  simpl snd in H.
  destruct (fold_min_lower (DataService.loaded_dates dfs) datetime_max)
    as [_ L].
  destruct (fold_max_upper (DataService.loaded_dates dfs) datetime_min)
    as [_ U].
  pose proof (date_of_le _ _ (L t Ht)). pose proof (date_of_le _ _ (U t Ht)).
  lia.
Qed.

Lemma no_metrics_outside_date_range_witness :
  counters (DataService.get_daily_metrics
              Samples.loaded (Samples.midnight 2025 1 12) None) = zero.
Proof.
  apply (no_metrics_outside_date_range
           Samples.loaded (Samples.midnight 2025 1 12) None).
  right. vm_compute. reflexivity.
Defined.

(** ** Teams that are not listed *)

Lemma team_text_listed (dfs : list (str * DataFrame)) name df e r s :
  In (name, df) dfs -> DataService.equipe_column df = Some e ->
  In r (rows df) -> lookup e (text r) = Some s ->
  In s (DataService.get_teams dfs).
Proof.
  intros Hin He Hr Hs.
  destruct (TeamsProps.get_teams_from (map snd dfs) []) as [_ Hm];
    [constructor|].
  unfold DataService.get_teams. apply Hm. right.
  exists df, e, r. repeat split; auto.
  apply in_map_iff. now exists (name, df).
Qed.

(** X19.  The list of the teams bounds the queries: when every sheet has
    a team column, a query for a team whose upper-case form is neither
    that of a team that [get_teams] lists nor "NAN" (the form of a
    missing team) selects no row, and every counter is zero, in the
    service and in the dashboard. *)
Theorem no_metrics_for_unlisted_team
        (dfs : list (str * DataFrame)) (date : Z) (team : str) :
  (forall name df, In (name, df) dfs ->
                   DataService.equipe_column df <> None) ->
  team <> [] ->
  ~ In (upper team) (map upper (DataService.get_teams dfs)) ->
  upper team <> lit "NAN" ->
  counters (DataService.get_daily_metrics dfs date (Some team)) = zero /\
  Dashboard.calculate_daily_metrics dfs date (Some team) = zero.
Proof.
  intros Hcol Hne Hnot Hnan.
  assert (Hnone : forall name df, In (name, df) dfs ->
            filter (DataService.team_mask (Some team) df) (rows df) = []).
  { intros name df Hin. apply filter_none. intros r Hr.
    destruct (DataService.equipe_column df) as [e|] eqn:He;
      [|now apply Hcol in Hin].
    apply (eq_trans (team_mask_some team df e r Hne He)).
    apply str_eqb_neq. intros E. unfold astype_str in E.
    destruct (lookup e (text r)) as [s|] eqn:Es.
    - apply Hnot. rewrite <- E. apply in_map.
      now apply (team_text_listed dfs name df e r s).
    - apply Hnan. now rewrite <- E. }
  split.
  - apply get_daily_metrics_zero. intros name df Hin.
    now rewrite df_date_rows, (Hnone name df Hin).
  - rewrite dashboard_sum. apply (sum_all_in (fun m => m = zero)).
    + reflexivity.
    + intros a b -> ->. reflexivity.
    + intros df Hin. apply in_sheets in Hin. destruct Hin as [name Hin].
      rewrite dashboard_sheet_rows.
      destruct (Dashboard.get_situacao_column df); [|reflexivity].
      unfold Dashboard.selected. rewrite (Hnone name df Hin).
      apply chunk_counts_nil.
Qed.

Lemma no_metrics_for_unlisted_team_witness :
  counters (DataService.get_daily_metrics
              [(lit "DEMANDAS", Samples.sheet_demandas)] Samples.d10
              (Some (lit "ADRIANO"))) = zero.
Proof.
  apply (no_metrics_for_unlisted_team
           [(lit "DEMANDAS", Samples.sheet_demandas)] Samples.d10
           (lit "ADRIANO")).
  - intros name df [E|[]]. injection E as _ <-. vm_compute. discriminate.
  - discriminate.
  - vm_compute. intros [E|[E|[]]]; discriminate E.
  - vm_compute. discriminate.
Defined.

(** ** A team and the whole *)

Lemma le_zero : le zero zero.
Proof. unfold le. simpl. lia. Qed.

Lemma le_add a b a' b' : le a a' -> le b b' -> le (add a b) (add a' b').
Proof. unfold le. simpl. lia. Qed.

Lemma le_sum {A : Type} (f g : A -> Counters) l :
  (forall x, le (f x) (g x)) -> le (sum (map f l)) (sum (map g l)).
Proof.
  intros H. induction l as [|x l IH]; simpl.
  - apply le_zero.
  - now apply le_add.
Qed.

(** Fewer rows pass a filter after another filter. *)
Lemma mask_sum_filter_le (f d t : Row -> bool) rs :
  mask_sum f (filter d (filter t rs)) <= mask_sum f (filter d rs).
Proof.
  induction rs as [|r rs IH]; [reflexivity|].
  simpl. destruct (t r); simpl.
  - destruct (d r); [|exact IH]. rewrite !mask_sum_cons. lia.
  - destruct (d r); [|exact IH]. rewrite mask_sum_cons.
    destruct (f r); lia.
Qed.

Lemma sheet_counts_filter_le c ch (d t : Row -> bool) rs :
  le (DataService.sheet_counts c ch (filter d (filter t rs)))
     (DataService.sheet_counts c ch (filter d rs)).
Proof.
  unfold le, DataService.sheet_counts. simpl.
  repeat split; try reflexivity; destruct ch; try reflexivity;
    apply mask_sum_filter_le.
Qed.

Lemma chunk_counts_filter_le c ch ok date (d t : Row -> bool) rs :
  le (Dashboard.chunk_counts c ch ok date (filter d (filter t rs)))
     (Dashboard.chunk_counts c ch ok date (filter d rs)).
Proof.
  unfold le, Dashboard.chunk_counts. simpl. rewrite !analise_dia_any.
  repeat split; try reflexivity; destruct ch, ok; try reflexivity;
    apply mask_sum_filter_le.
Qed.

Lemma filter_all {A : Type} (f : A -> bool) l :
  (forall x, f x = true) -> filter f l = l.
Proof.
  intros H. induction l as [|x l IH]; [reflexivity|].
  simpl. now rewrite H, IH.
Qed.

(** X20.  A team never has more than the whole: counter by counter, the
    query for a team returns at most what the query for all teams
    returns, for the same sheets and date, in the service and in the
    dashboard. *)
Theorem team_counters_within_total
        (dfs : list (str * DataFrame)) (date : Z) (team : option str) :
  le (counters (DataService.get_daily_metrics dfs date team))
     (counters (DataService.get_daily_metrics dfs date None)) /\
  le (Dashboard.calculate_daily_metrics dfs date team)
     (Dashboard.calculate_daily_metrics dfs date None).
Proof.
  split.
  - rewrite !get_daily_metrics_sum. apply le_sum. intros df.
    rewrite !service_sheet_rows.
    destruct (DataService.get_situacao_column df); [|apply le_zero].
    rewrite (filter_all (DataService.team_mask None df) (rows df))
      by reflexivity.
    apply sheet_counts_filter_le.
  - rewrite !dashboard_sum. apply le_sum. intros df.
    rewrite !dashboard_sheet_rows.
    destruct (Dashboard.get_situacao_column df); [|apply le_zero].
    unfold Dashboard.selected.
    rewrite (filter_all (DataService.team_mask None df) (rows df))
      by reflexivity.
    apply chunk_counts_filter_le.
Qed.

End CrossProps.

(* ===================================================================== *)
(** * Dates as texts *)
(* ===================================================================== *)

Module DateTextProps.
Import Text TextFacts Frame FrameFacts DataProcessor.
Import DemandasAnalyzer.
Local Open Scope Z_scope.

Lemma digit_char_digit q :
  0 <= q <= 9 -> is_digit (digit_char q) = true /\ digit (digit_char q) = q.
Proof.
  intros H.
  assert (E : q = 0 \/ q = 1 \/ q = 2 \/ q = 3 \/ q = 4 \/ q = 5 \/ q = 6 \/
              q = 7 \/ q = 8 \/ q = 9) by lia.
  repeat (destruct E as [->|E]; [split; reflexivity|]).
  subst. split; reflexivity.
Qed.

Lemma match_Y_four_digits y :
  1000 <= y <= 9999 -> match_Y (four_digits y) = [(y, [])].
Proof.
  intros H. unfold four_digits, match_Y.
  destruct (digit_char_digit (y / 1000)) as [A1 A2].
  { Z.div_mod_to_equations. lia. }
  destruct (digit_char_digit (y / 100 mod 10)) as [B1 B2].
  { Z.div_mod_to_equations. lia. }
  destruct (digit_char_digit (y / 10 mod 10)) as [C1 C2].
  { Z.div_mod_to_equations. lia. }
  destruct (digit_char_digit (y mod 10)) as [D1 D2].
  { Z.div_mod_to_equations. lia. }
  rewrite A1, B1, C1, D1, A2, B2, C2, D2. simpl andb. cbv iota.
  do 2 f_equal. Z.div_mod_to_equations. lia.
Qed.

(** The days of the years 1678 to 2261 fit the 64-bit nanosecond range. *)
Lemma days_from_civil_bounds y m d :
  1678 <= y <= 2261 -> 1 <= m <= 12 -> 1 <= d <= 31 ->
  -106751 <= days_from_civil y m d <= 106751.
Proof.
  intros Hy Hm Hd. unfold days_from_civil.
  destruct (m <=? 2) eqn:E; [apply Z.leb_le in E|apply Z.leb_gt in E];
    Z.div_mod_to_equations; lia.
Qed.

Lemma days_in_month_le y m : days_in_month y m <= 31.
Proof.
  unfold days_in_month.
  destruct (m =? 2); [destruct (is_leap y); lia|].
  destruct (_ || _); lia.
Qed.

(** A property of the numbers from 1 to [n], by cases. *)
Lemma small_cases (P : Z -> Prop) (n : nat) d :
  1 <= d <= Z.of_nat n ->
  (forall k, (k < n)%nat -> P (1 + Z.of_nat k)) -> P d.
Proof.
  intros H HP. replace d with (1 + Z.of_nat (Z.to_nat (d - 1))) by lia.
  apply HP. lia.
Qed.

(** The day on two digits before a slash is read in one way. *)
Lemma match_d_two_digits {A : Type} (F : Z -> str -> list A) d R :
  1 <= d <= 31 ->
  flat_map (fun dd => flat_map (F (fst dd)) (match_slash (snd dd)))
           (match_d (two_digits d ++ 47%N :: R)) = F d R.
Proof.
  intros H.
  apply (small_cases
           (fun d => flat_map _ (match_d (two_digits d ++ 47%N :: R)) = F d R)
           31 d H).
  intros k Hk.
  do 31 (destruct k as [|k]; [cbn; rewrite ?app_nil_r; reflexivity|]).
  lia.
Qed.

(** So is the month. *)
Lemma match_m_two_digits {A : Type} (F : Z -> str -> list A) m R :
  1 <= m <= 12 ->
  flat_map (fun mm => flat_map (F (fst mm)) (match_slash (snd mm)))
           (match_m (two_digits m ++ 47%N :: R)) = F m R.
Proof.
  intros H.
  apply (small_cases
           (fun m => flat_map _ (match_m (two_digits m ++ 47%N :: R)) = F m R)
           12 m H).
  intros k Hk.
  do 12 (destruct k as [|k]; [cbn; rewrite ?app_nil_r; reflexivity|]).
  lia.
Qed.

Lemma match_dmy_strftime y m d :
  1000 <= y <= 9999 -> 1 <= m <= 12 -> 1 <= d <= 31 ->
  match_dmy (strftime_dmy y m d) = [(d, m, y, [])].
Proof.
  intros Hy Hm Hd. unfold match_dmy, strftime_dmy.
  change (two_digits d ++ [47%N] ++ two_digits m ++ [47%N] ++ four_digits y)
    with (two_digits d ++ 47%N :: (two_digits m ++ 47%N :: four_digits y)).
  rewrite (match_d_two_digits
             (fun dv s1 =>
                flat_map (fun mm =>
                  flat_map (fun s2 =>
                    map (fun yy => (dv, fst mm, fst yy, snd yy)) (match_Y s2))
                    (match_slash (snd mm)))
                  (match_m s1)) d _ Hd).
  rewrite (match_m_two_digits
             (fun mv s2 =>
                map (fun yy => (d, mv, fst yy, snd yy)) (match_Y s2)) m _ Hm).
  now rewrite (match_Y_four_digits y Hy).
Qed.

(** X21.  The date parser of [process_dataframe] reads back what
    [strftime('%d/%m/%Y')] writes: for every day of the calendar from
    1678 to 2261, the text of the day parses, to the midnight of that
    day, so a row dated in this form is never dropped for its date. *)
Theorem to_datetime_reads_strftime (y m d : Z) :
  1678 <= y <= 2261 -> 1 <= m <= 12 -> 1 <= d <= days_in_month y m ->
  to_datetime_dmy (strftime_dmy y m d) = Some (days_from_civil y m d * day_ns).
Proof.
  intros Hy Hm Hd. pose proof (days_in_month_le y m) as H31.
  unfold to_datetime_dmy.
  rewrite match_dmy_strftime by lia.
  pose proof (days_from_civil_bounds y m d Hy Hm ltac:(lia)) as Hb.
  replace (1 <=? y) with true by (symmetry; apply Z.leb_le; lia).
  replace (d <=? days_in_month y m) with true
    by (symmetry; apply Z.leb_le; lia).
  replace (- (2 ^ 63 - 1) <=? days_from_civil y m d * day_ns) with true.
  2:{ symmetry. apply Z.leb_le. unfold day_ns.
      change (2 ^ 63) with 9223372036854775808. lia. }
  replace (days_from_civil y m d * day_ns <=? 2 ^ 63 - 1) with true.
  2:{ symmetry. apply Z.leb_le. unfold day_ns.
      change (2 ^ 63) with 9223372036854775808. lia. }
  reflexivity.
Qed.

Lemma to_datetime_reads_strftime_witness :
  to_datetime_dmy (lit "29/02/2024") = Some (Samples.midnight 2024 2 29).
Proof.
  apply (to_datetime_reads_strftime 2024 2 29); vm_compute; split; discriminate.
Defined.

End DateTextProps.

(* ===================================================================== *)
(** * The service with its handler *)
(* ===================================================================== *)

Module ServiceHandler.
Import Text TextFacts Frame FrameFacts Metrics MetricsFacts.
Import DataServiceProps DashboardProps AggregationProps QueryProps.
Import DataService.
Local Open Scope Z_scope.

(** ** Frames under a label *)

Lemma is_frame_has_column col df :
  is_frame col df = true -> has_column col df = true.
Proof.
  unfold is_frame, column_count, has_column, mem.
  induction (labels df) as [|c l IH]; [discriminate|].
  simpl. destruct (str_eqb col c); [reflexivity|exact IH].
Qed.

Lemma has_column_and_frame col df :
  has_column col df && is_frame col df = is_frame col df.
Proof.
  destruct (is_frame col df) eqn:E; [|apply andb_false_r].
  now rewrite (is_frame_has_column _ _ E).
Qed.

(** ** Where the call raises, and what it returns where it does not *)

Lemma filter_team_try_eq team df :
  filter_team_try team df =
  if filter_team_raises team df then None else Some (filter_team team df).
Proof.
  unfold filter_team_raises, filter_team_try, filter_team.
  destruct team as [[|c t]|]; try reflexivity.
  destruct (equipe_column df) as [e|]; [|reflexivity].
  now destruct (is_frame e df).
Qed.


Lemma df_date_with_rows date team df :
  df_date date team df = with_rows df (rows (df_date date team df)).
Proof. unfold df_date. rewrite filter_team_rows. reflexivity. Qed.

(** The loop body on one sheet, case by case. *)
Lemma sheet_metrics_try_cases date team m df :
  sheet_metrics_try date team m df =
  if empty df then Some m
  else if filter_team_raises team df then None
  else match get_situacao_column df with
       | None => Some m
       | Some c =>
         match rows (df_date date team df) with
         | [] => Some m
         | _ :: _ =>
           if is_frame c df || is_frame ATIVO_RECEPTIVO df then None
           else Some (add m (sheet_counts c (has_column ATIVO_RECEPTIVO df)
                                          (rows (df_date date team df))))
         end
       end.
Proof.
  unfold sheet_metrics_try.
  destruct (empty df) eqn:Ee; [reflexivity|].
  rewrite filter_team_try_eq.
  destruct (filter_team_raises team df); [reflexivity|].
  rewrite get_situacao_column_filter_team.
  destruct (get_situacao_column df) as [c|]; [|reflexivity].
  change (with_rows (filter_team team df)
            (filter (date_mask date (filter_team team df))
                    (rows (filter_team team df))))
    with (df_date date team df).
  rewrite (df_date_with_rows date team df) at 1.
  rewrite (empty_with_rows _ _ Ee).
  destruct (rows (df_date date team df)) as [|r0 rs] eqn:Er; [reflexivity|].
  rewrite (df_date_with_rows date team df), Er.
  change (is_frame c (with_rows df (r0 :: rs))) with (is_frame c df).
  change (is_frame ATIVO_RECEPTIVO (with_rows df (r0 :: rs)))
    with (is_frame ATIVO_RECEPTIVO df).
  change (has_column ATIVO_RECEPTIVO (with_rows df (r0 :: rs)))
    with (has_column ATIVO_RECEPTIVO df).
  rewrite has_column_and_frame.
  destruct (is_frame c df); [reflexivity|].
  destruct (is_frame ATIVO_RECEPTIVO df); reflexivity.
Qed.

Lemma sheet_raises_cases date team df :
  sheet_raises date team df =
  negb (empty df) &&
  (filter_team_raises team df
   || match get_situacao_column df with
      | None => false
      | Some c =>
        match rows (df_date date team df) with
        | [] => false
        | _ :: _ => is_frame c df || is_frame ATIVO_RECEPTIVO df
        end
      end).
Proof.
  unfold sheet_raises. rewrite sheet_metrics_try_cases.
  destruct (empty df); [reflexivity|].
  destruct (filter_team_raises team df); [reflexivity|].
  destruct (get_situacao_column df) as [c|]; [|reflexivity].
  destruct (rows (df_date date team df)); [reflexivity|].
  now destruct (is_frame c df || is_frame ATIVO_RECEPTIVO df).
Qed.

Lemma sheet_metrics_try_eq date team m df :
  sheet_metrics_try date team m df =
  if sheet_raises date team df then None
  else Some (sheet_metrics date team m df).
Proof.
  rewrite sheet_raises_cases, sheet_metrics_try_cases.
  rewrite DataServiceProps.sheet_metrics_add, sheet_contribution_eq.
  destruct (empty df); [now rewrite add_zero_r|].
  destruct (filter_team_raises team df); [reflexivity|].
  destruct (get_situacao_column df) as [c|]; [|now rewrite add_zero_r].
  destruct (rows (df_date date team df));
    [now rewrite sheet_counts_nil, add_zero_r|].
  now destruct (is_frame c df || is_frame ATIVO_RECEPTIVO df).
Qed.

Lemma fold_try_none date team sheets :
  fold_left (fun metrics df =>
               match metrics with
               | Some metrics => sheet_metrics_try date team metrics df
               | None => None
               end) sheets None = None.
Proof. induction sheets as [|df sheets IH]; [reflexivity|exact IH]. Qed.

Lemma fold_try date team sheets m :
  fold_left (fun metrics df =>
               match metrics with
               | Some metrics => sheet_metrics_try date team metrics df
               | None => None
               end) sheets (Some m)
  = if existsb (sheet_raises date team) sheets then None
    else Some (fold_left (sheet_metrics date team) sheets m).
Proof.
  revert m. induction sheets as [|df sheets IH]; intros m; [reflexivity|].
  simpl. rewrite sheet_metrics_try_eq.
  destruct (sheet_raises date team df); [apply fold_try_none|].
  apply IH.
Qed.

(** The call raises when the loop body raises on a sheet, and returns
    the counters of [get_daily_metrics] when it does not. *)
Lemma get_daily_metrics_try_eq dfs date team :
  get_daily_metrics_try dfs date team =
  if existsb (sheet_raises date team) (map snd dfs) then None
  else Some (get_daily_metrics dfs date team).
Proof.
  unfold get_daily_metrics_try. rewrite fold_try.
  now destruct (existsb _ _).
Qed.

Lemma get_daily_metrics_try_some dfs date team m :
  get_daily_metrics_try dfs date team = Some m ->
  m = get_daily_metrics dfs date team /\
  forall df, In df (map snd dfs) -> sheet_raises date team df = false.
Proof.
  rewrite get_daily_metrics_try_eq.
  destruct (existsb _ _) eqn:E; [discriminate|].
  intros [= <-]. split; [reflexivity|].
  intros df Hin. destruct (sheet_raises date team df) eqn:Er; [|reflexivity].
  assert (existsb (sheet_raises date team) (map snd dfs) = true).
  { apply existsb_exists. now exists df. }
  congruence.
Qed.

Lemma get_daily_metrics_try_returns dfs date team :
  (forall df, In df (map snd dfs) -> sheet_raises date team df = false) ->
  get_daily_metrics_try dfs date team = Some (get_daily_metrics dfs date team).
Proof.
  intros H. rewrite get_daily_metrics_try_eq.
  now rewrite (existsb_none _ _ H).
Qed.

(** Where [get_teams] returns, it returns the list of [get_teams]. *)
Lemma get_teams_try_some dfs l :
  get_teams_try dfs = Some l -> l = get_teams dfs.
Proof.
  unfold get_teams_try, get_teams. generalize (@nil str).
  induction (map snd dfs) as [|df sheets IH]; intros acc.
  - simpl. now intros [= <-].
  - cbn [fold_left]. destruct (equipe_column df) as [e|]; [|apply IH].
    destruct (is_frame e df); [|apply IH].
    intros H. exfalso. revert H. clear.
    induction sheets as [|d sheets IH]; [discriminate|exact IH].
Qed.

End ServiceHandler.

(* ===================================================================== *)
(** * The dashboard with its handlers *)
(* ===================================================================== *)

Module DashboardHandler.
Import Text TextFacts Frame FrameFacts Metrics MetricsFacts.
Import DataServiceProps DashboardProps AggregationProps QueryProps.
Import ServiceHandler Dashboard.
Local Open Scope Z_scope.

(** ** The block of the inner handler *)

Lemma chunk_block_add c date df_date m :
  chunk_block c date df_date m = add m (chunk_block c date df_date zero).
Proof.
  unfold chunk_block.
  destruct (is_frame c df_date); [now rewrite add_zero_r|].
  destruct (has_column DataService.ATIVO_RECEPTIVO df_date);
    [destruct (is_frame DataService.ATIVO_RECEPTIVO df_date)|];
    now rewrite add_zero_l.
Qed.

(** What the block adds for some rows of a sheet, by the labels of the
    sheet. *)
Lemma block_counts_eq c date df rs :
  block_counts c date df rs =
  if is_frame c df then zero
  else
    let data_ok := has_column (lit "DATA") df
                   && is_datetime64_any_dtype (lit "DATA") df in
    if has_column DataService.ATIVO_RECEPTIVO df
    then if is_frame DataService.ATIVO_RECEPTIVO df
         then chunk_counts c false false date rs
         else chunk_counts c true data_ok date rs
    else chunk_counts c false data_ok date rs.
Proof.
  unfold block_counts, chunk_block.
  change (is_frame c (with_rows df rs)) with (is_frame c df).
  change (is_frame DataService.ATIVO_RECEPTIVO (with_rows df rs))
    with (is_frame DataService.ATIVO_RECEPTIVO df).
  change (has_column DataService.ATIVO_RECEPTIVO (with_rows df rs))
    with (has_column DataService.ATIVO_RECEPTIVO df).
  change (has_column (lit "DATA") (with_rows df rs))
    with (has_column (lit "DATA") df).
  change (is_datetime64_any_dtype (lit "DATA") (with_rows df rs))
    with (is_datetime64_any_dtype (lit "DATA") df).
  simpl rows. cbv zeta.
  destruct (is_frame c df); [reflexivity|].
  destruct (has_column DataService.ATIVO_RECEPTIVO df);
    [destruct (is_frame DataService.ATIVO_RECEPTIVO df)|];
    now rewrite add_zero_l.
Qed.

Lemma block_counts_nil c date df : block_counts c date df [] = zero.
Proof.
  rewrite block_counts_eq. cbv zeta.
  destruct (is_frame c df); [reflexivity|].
  destruct (has_column DataService.ATIVO_RECEPTIVO df);
    [destruct (is_frame DataService.ATIVO_RECEPTIVO df)|];
    apply chunk_counts_nil.
Qed.

Lemma block_counts_app c date df a b :
  block_counts c date df (a ++ b) =
  add (block_counts c date df a) (block_counts c date df b).
Proof.
  rewrite !block_counts_eq. cbv zeta.
  destruct (is_frame c df); [now rewrite add_zero_l|].
  destruct (has_column DataService.ATIVO_RECEPTIVO df);
    [destruct (is_frame DataService.ATIVO_RECEPTIVO df)|];
    apply chunk_counts_app.
Qed.

(** ** One chunk *)

(** What the rows [rs] of the sheet [df] add as a chunk. *)
Lemma chunk_filter_team_try_eq team df rs :
  filter_team_try team (with_rows df rs) =
  if DataService.filter_team_raises team df
     && match rs with [] => false | _ :: _ => true end
  then None
  else Some (filter_team team (with_rows df rs)).
Proof.
  unfold DataService.filter_team_raises, DataService.filter_team_try,
    filter_team_try, filter_team.
  destruct team as [[|c t]|]; try reflexivity.
  change (DataService.equipe_column (with_rows df rs))
    with (DataService.equipe_column df).
  destruct (DataService.equipe_column df) as [e|]; [|reflexivity].
  change (is_frame e (with_rows df rs)) with (is_frame e df).
  unfold series_empty. simpl rows.
  destruct rs; simpl; [now destruct (is_frame e df)|].
  now destruct (is_frame e df).
Qed.

Lemma rows_counts_nil date team df : rows_counts date team df [] = zero.
Proof.
  unfold rows_counts. destruct (get_situacao_column df); [|reflexivity].
  apply block_counts_nil.
Qed.

Lemma rows_counts_app date team df a b :
  rows_counts date team df (a ++ b) =
  add (rows_counts date team df a) (rows_counts date team df b).
Proof.
  unfold rows_counts. destruct (get_situacao_column df);
    [|now rewrite add_zero_l].
  unfold selected. now rewrite !filter_app, block_counts_app.
Qed.

Lemma chunk_metrics_try_eq date team m df rs :
  chunk_metrics_try date team m (with_rows df rs) =
  if DataService.filter_team_raises team df
     && match rs with [] => false | _ :: _ => true end
  then None
  else Some (add m (rows_counts date team df rs)).
Proof.
  unfold chunk_metrics_try. rewrite chunk_filter_team_try_eq.
  destruct (_ && _); [reflexivity|].
  rewrite chunk_filter_team_rows.
  set (L := filter (DataService.team_mask team (with_rows df rs))
                   (rows (with_rows df rs))).
  change (get_situacao_column (with_rows (with_rows df rs) L))
    with (get_situacao_column df).
  assert (HL : filter (date_mask date (with_rows (with_rows df rs) L))
                      (rows (with_rows (with_rows df rs) L))
               = selected date team df rs).
  { rewrite filter_date_mask. reflexivity. }
  rewrite HL. unfold rows_counts.
  destruct (get_situacao_column df) as [c|] eqn:Ec.
  - unfold empty. simpl columns. simpl rows.
    destruct (columns df) eqn:Ecol.
    + unfold get_situacao_column, DataService.get_situacao_column,
        has_column, labels in Ec. rewrite Ecol in Ec. discriminate.
    + destruct (selected date team df rs) as [|r0 sel] eqn:Es.
      * now rewrite block_counts_nil, add_zero_r.
      * rewrite chunk_block_add. reflexivity.
  - rewrite add_zero_r. now destruct (empty _).
Qed.

(** ** One sheet *)

Lemma fold_raised date team (f : nat -> DataFrame) l m :
  fold_left (fun s i => chunk_step date team s (f i)) l (Raised m) = Raised m.
Proof. induction l as [|i l IH]; [reflexivity|exact IH]. Qed.

Lemma fold_running date team df (chunks : list (list Row)) m :
  DataService.filter_team_raises team df = false ->
  fold_left (fun s rs => chunk_step date team s (with_rows df rs))
            chunks (Running m)
  = Running (add m (sum (map (rows_counts date team df) chunks))).
Proof.
  intros Hr. revert m.
  induction chunks as [|rs chunks IH]; intros m.
  - simpl. now rewrite add_zero_r.
  - assert (E : chunk_step date team (Running m) (with_rows df rs)
                = Running (add m (rows_counts date team df rs))).
    { unfold chunk_step. now rewrite chunk_metrics_try_eq, Hr. }
    cbn [fold_left map sum fold_right]. rewrite E, IH.
    now rewrite add_assoc.
Qed.

Lemma firstn_nonempty {A : Type} k (l : list A) :
  (0 < k)%nat -> l <> [] -> firstn k l <> [].
Proof.
  intros Hk Hl. destruct k; [lia|]. destruct l; [congruence|].
  simpl. discriminate.
Qed.

(** The loop over the chunks of a sheet: it stops at the first chunk
    when the team filter raises, and adds what the sheet adds as one
    chunk when it does not. *)
Lemma dashboard_sheet_try_eq chunk_size date team m df :
  sheet_metrics_try chunk_size date team (Running m) df =
  if empty df then Running m
  else if DataService.filter_team_raises team df then Raised m
  else Running (add m (sheet_counts_try date team df)).
Proof.
  unfold sheet_metrics_try, sheet_counts_try.
  destruct (empty df) eqn:Ee; [reflexivity|].
  unfold range. rewrite fold_left_map.
  set (step := Pos.to_nat chunk_size).
  set (n := ((len df + step - 1) / step)%nat).
  assert (Hstep : (0 < step)%nat) by (subst step; lia).
  assert (Hrows : rows df <> []).
  { unfold empty in Ee. destruct (columns df); [discriminate|].
    destruct (rows df); [discriminate|discriminate]. }
  transitivity
    (fold_left (fun s rs => chunk_step date team s (with_rows df rs))
               (chunks_of step n (rows df)) (Running m)).
  { unfold chunks_of. rewrite fold_left_map. apply fold_left_ext.
    intros s i. reflexivity. }
  destruct (DataService.filter_team_raises team df) eqn:Hr.
  - assert (Hn : (0 < n)%nat).
    { subst n. apply Nat.div_str_pos. unfold len.
      destruct (rows df); [congruence|]. simpl length. lia. }
    unfold chunks_of. destruct n as [|n']; [lia|].
    rewrite <- cons_seq, map_cons. simpl fold_left.
    rewrite chunk_metrics_try_eq, Hr.
    assert (Hc : firstn (Nat.min (0 * step + step) (length (rows df))
                         - 0 * step) (skipn (0 * step) (rows df)) <> []).
    { simpl skipn. apply firstn_nonempty; [|exact Hrows].
      destruct (rows df); [congruence|]. simpl length. lia. }
    destruct (firstn _ _); [congruence|]. simpl andb.
    rewrite fold_left_map.
    apply (fold_raised date team
             (fun i => with_rows df
                         (firstn (Nat.min (i * step + step) (length (rows df))
                                  - i * step)
                                 (skipn (i * step) (rows df))))).
  - rewrite (fold_running _ _ _ _ _ Hr). f_equal. f_equal.
    rewrite (sum_map_concat (rows_counts date team df)).
    + rewrite concat_chunks_of; [reflexivity|exact Hstep|].
      apply chunk_count_enough. exact Hstep.
    + apply rows_counts_nil.
    + apply rows_counts_app.
Qed.

Lemma sheet_counts_try_empty date team df :
  empty df = true -> sheet_counts_try date team df = zero.
Proof. unfold sheet_counts_try. now intros ->. Qed.

(** ** The sheets *)

Lemma fold_sheets_raised chunk_size date team sheets m :
  fold_left (sheet_metrics_try chunk_size date team) sheets (Raised m)
  = Raised m.
Proof. induction sheets as [|df sheets IH]; [reflexivity|exact IH]. Qed.

(** The counters so far are carried through the loop. *)
Lemma fold_sheets_shift chunk_size date team sheets m :
  returned (fold_left (sheet_metrics_try chunk_size date team) sheets
                      (Running m))
  = add m (returned (fold_left (sheet_metrics_try chunk_size date team)
                               sheets (Running zero))).
Proof.
  revert m. induction sheets as [|df sheets IH]; intros m.
  - simpl. now rewrite add_zero_r.
  - cbn [fold_left]. rewrite !dashboard_sheet_try_eq.
    destruct (empty df); [apply IH|].
    destruct (DataService.filter_team_raises team df).
    + rewrite !fold_sheets_raised. simpl. now rewrite add_zero_r.
    + rewrite IH. rewrite (IH (add zero _)).
      now rewrite add_zero_l, add_assoc.
Qed.

Lemma sheet_counts_try_rows date team df :
  sheet_counts_try date team df = rows_counts date team df (rows df).
Proof.
  unfold sheet_counts_try. destruct (empty df) eqn:Ee; [|reflexivity].
  unfold rows_counts.
  destruct (get_situacao_column df) as [c|] eqn:Ec; [|reflexivity].
  apply get_situacao_column_columns in Ec.
  unfold empty in Ee. destruct (columns df); [congruence|].
  destruct (rows df); [|discriminate].
  unfold selected. simpl filter. now rewrite block_counts_nil.
Qed.

Lemma fold_sheets_running chunk_size date team sheets m :
  (forall df, In df sheets ->
              DataService.filter_team_raises team df = false) ->
  fold_left (sheet_metrics_try chunk_size date team) sheets (Running m)
  = Running (add m (sum (map (sheet_counts_try date team) sheets))).
Proof.
  revert m. induction sheets as [|df sheets IH]; intros m H.
  - simpl. now rewrite add_zero_r.
  - cbn [fold_left map sum fold_right]. rewrite dashboard_sheet_try_eq.
    rewrite (H df (or_introl eq_refl)).
    assert (H' : forall d, In d sheets ->
                           DataService.filter_team_raises team d = false).
    { intros d Hd. apply H. now right. }
    destruct (empty df) eqn:Ee.
    + rewrite (IH m H'), (sheet_counts_try_empty _ _ _ Ee).
      now rewrite add_zero_l.
    + rewrite (IH _ H'). now rewrite add_assoc.
Qed.

(** Sheets read after sheets on which the team filter does not raise
    add to what those add. *)
Lemma calculate_daily_metrics_try_app chunk_size dfs more date team :
  (forall df, In df (map snd dfs) ->
              DataService.filter_team_raises team df = false) ->
  calculate_daily_metrics_try_with chunk_size (dfs ++ more) date team
  = add (sum (map (sheet_counts_try date team) (map snd dfs)))
        (calculate_daily_metrics_try_with chunk_size more date team).
Proof.
  intros H. unfold calculate_daily_metrics_try_with.
  rewrite map_app, fold_left_app, (fold_sheets_running _ _ _ _ _ H).
  rewrite fold_sheets_shift. now rewrite add_zero_l.
Qed.

(** Without a sheet on which the team filter raises, the result is the
    sum of what the sheets add. *)
Lemma calculate_daily_metrics_try_sum chunk_size dfs date team :
  (forall df, In df (map snd dfs) ->
              DataService.filter_team_raises team df = false) ->
  calculate_daily_metrics_try_with chunk_size dfs date team
  = sum (map (sheet_counts_try date team) (map snd dfs)).
Proof.
  unfold calculate_daily_metrics_try_with.
  induction (map snd dfs) as [|df sheets IH]; intros H; [reflexivity|].
  cbn [fold_left]. rewrite dashboard_sheet_try_eq.
  rewrite (H df (or_introl eq_refl)).
  assert (IH' := IH (fun d Hd => H d (or_intror Hd))).
  destruct (empty df) eqn:Ee.
  - simpl. rewrite (sheet_counts_try_empty _ _ _ Ee), add_zero_l. exact IH'.
  - rewrite fold_sheets_shift, IH'. simpl. now rewrite add_zero_l.
Qed.

(** A property of counters that [zero] has and [add] keeps holds of the
    result when it holds of what each sheet adds. *)
Lemma calculate_daily_metrics_try_all (P : Counters -> Prop)
      chunk_size dfs date team :
  P zero -> (forall a b, P a -> P b -> P (add a b)) ->
  (forall df, In df (map snd dfs) -> P (sheet_counts_try date team df)) ->
  P (calculate_daily_metrics_try_with chunk_size dfs date team).
Proof.
  intros H0 Hadd. unfold calculate_daily_metrics_try_with.
  assert (G : forall sheets m,
             P m ->
             (forall df, In df sheets -> P (sheet_counts_try date team df)) ->
             P (returned (fold_left (sheet_metrics_try chunk_size date team)
                                    sheets (Running m)))).
  { induction sheets as [|df sheets IH]; intros m Hm H; [exact Hm|].
    cbn [fold_left]. rewrite dashboard_sheet_try_eq.
    destruct (empty df); [apply IH; auto; intros d Hd; apply H; now right|].
    destruct (DataService.filter_team_raises team df).
    - now rewrite fold_sheets_raised.
    - apply IH.
      + apply Hadd; [exact Hm|]. apply H. now left.
      + intros d Hd. apply H. now right. }
  intros H. now apply G.
Qed.

(** Where the team, the status and the channel are read as series, the
    result is that of [calculate_daily_metrics]. *)
Lemma calculate_daily_metrics_try_series dfs date team :
  (forall df, In df (map snd dfs) ->
              DataService.filter_team_raises team df = false) ->
  (forall df c, In df (map snd dfs) ->
                get_situacao_column df = Some c -> is_frame c df = false) ->
  (forall df, In df (map snd dfs) ->
              is_frame DataService.ATIVO_RECEPTIVO df = false) ->
  calculate_daily_metrics_try dfs date team =
  calculate_daily_metrics dfs date team.
Proof.
  intros Hf Hs Hc. unfold calculate_daily_metrics_try.
  rewrite (calculate_daily_metrics_try_sum _ _ _ _ Hf), dashboard_sum.
  f_equal. apply map_ext_in. intros df Hin.
  rewrite dashboard_sheet_rows, sheet_counts_try_rows. unfold rows_counts.
  destruct (get_situacao_column df) as [c|] eqn:Ec; [|reflexivity].
  rewrite block_counts_eq, (Hs df c Hin Ec), (Hc df Hin). cbv zeta.
  now destruct (has_column DataService.ATIVO_RECEPTIVO df).
Qed.

End DashboardHandler.

(* ===================================================================== *)
(** * Queries, with the calls that raise *)
(* ===================================================================== *)

Module HandlerProps.
Import Text TextFacts Frame FrameFacts Metrics MetricsFacts.
Import DataServiceProps DashboardProps AggregationProps QueryProps.
Import ServiceHandler DashboardHandler.
Local Open Scope Z_scope.

(** ** Queries without data *)





(** ** The range of the dates *)

(** C8, as amended.  [get_date_range] reads the columns DATA, RESOLUCAO
    and Data that hold timestamps, and no other column.  When they hold
    a timestamp, it returns the least and the greatest of their
    timestamps (each within the range of [datetime], as every timestamp
    is); when they hold none, it returns its initial values
    [(datetime.max, datetime.min)]; a sheet in which they hold no
    timestamp does not change the result. *)
Theorem get_date_range_min_max
        (dfs pre post : list (str * DataFrame)) (name : str) (df : DataFrame) :
  (DataService.loaded_dates dfs = [] ->
   DataService.get_date_range dfs = (datetime_max, datetime_min)) /\
  ((forall t, In t (DataService.loaded_dates dfs) ->
              datetime_min <= t <= datetime_max) ->
   DataService.loaded_dates dfs <> [] ->
   In (fst (DataService.get_date_range dfs)) (DataService.loaded_dates dfs) /\
   In (snd (DataService.get_date_range dfs)) (DataService.loaded_dates dfs) /\
   forall t, In t (DataService.loaded_dates dfs) ->
             fst (DataService.get_date_range dfs) <= t
             <= snd (DataService.get_date_range dfs)) /\
  (DataService.sheet_dates df = [] ->
   DataService.get_date_range (pre ++ (name, df) :: post) =
   DataService.get_date_range (pre ++ post)).
Proof.
  split; [|split].
  - intros E. now rewrite get_date_range_widen, E.
  - intros Hb Hne. rewrite get_date_range_widen, fold_widen. simpl fst.
    simpl snd. set (D := DataService.loaded_dates dfs) in *.
    destruct (fold_min_lower D datetime_max) as [L1 L2].
    destruct (fold_max_upper D datetime_min) as [U1 U2].
    destruct D as [|t0 D'] eqn:ED; [congruence|]. rewrite <- ED in *.
    assert (H0 : In t0 D) by (rewrite ED; now left).
    repeat split.
    + destruct (fold_min_attained D datetime_max) as [E|E]; [|exact E].
      specialize (L2 t0 H0). specialize (Hb t0 H0).
      replace (fold_left Z.min D datetime_max) with t0 by lia. exact H0.
    + destruct (fold_max_attained D datetime_min) as [E|E]; [|exact E].
      specialize (U2 t0 H0). specialize (Hb t0 H0).
      replace (fold_left Z.max D datetime_min) with t0 by lia. exact H0.
    + now apply L2.
    + now apply U2.
  - intros Hn. rewrite !get_date_range_widen. f_equal.
    rewrite !loaded_dates_app. f_equal.
    unfold DataService.loaded_dates. simpl. now rewrite Hn.
Qed.

Lemma get_date_range_min_max_witness :
  DataService.get_date_range [(lit "CONCLUIDOS", Samples.sheet_concluidos)]
  = (datetime_max, datetime_min) /\
  (forall t, In t (DataService.loaded_dates Samples.loaded) ->
             fst (DataService.get_date_range Samples.loaded) <= t
             <= snd (DataService.get_date_range Samples.loaded)) /\
  DataService.get_date_range
    (Samples.loaded
     ++ (lit "VAZIA", mkDataFrame [(lit "DATA", datetime64)] [mkRow [] []])
     :: []) =
  DataService.get_date_range (Samples.loaded ++ []).
Proof.
  split; [|split].
  - apply (proj1 (get_date_range_min_max
                    [(lit "CONCLUIDOS", Samples.sheet_concluidos)] [] []
                    [] Samples.sheet_concluidos)).
    reflexivity.
  - apply (proj1 (proj2 (get_date_range_min_max
                           Samples.loaded [] [] [] Samples.sheet_concluidos))).
    + intros t Ht. vm_compute in Ht.
      repeat (destruct Ht as [<-|Ht]; [vm_compute; split; discriminate|]).
      destruct Ht.
    + vm_compute. discriminate.
  - apply (proj2 (proj2 (get_date_range_min_max
                           [] Samples.loaded [] (lit "VAZIA")
                           (mkDataFrame [(lit "DATA", datetime64)]
                                        [mkRow [] []])))).
    reflexivity.
Defined.

(** C8, as stated, fails: the sheet holds one date, the 10th, in its
    column 'DATA CONCLUSAO', a column of timestamps that the dashboard
    reads as a date column; [get_date_range] does not read it and
    returns its initial values, not the 10th. *)
Lemma get_date_range_misses_other_date_column :
  flat_map DataService.all_dates
           (map snd [(lit "CONCLUIDOS", Samples.sheet_concluidos)])
  = [Samples.d10] /\
  In Samples.DATA_CONCLUSAO Dashboard.date_columns /\
  DataService.get_date_range [(lit "CONCLUIDOS", Samples.sheet_concluidos)]
  = (datetime_max, datetime_min) /\
  DataService.get_date_range [(lit "CONCLUIDOS", Samples.sheet_concluidos)]
  <> (Samples.d10, Samples.d10).
Proof.
  split; [reflexivity|]. split; [vm_compute; tauto|].
  split; [reflexivity|]. vm_compute. discriminate.
Qed.

(** ** Teams *)

Lemma filter_team_raises_none df :
  DataService.filter_team_raises None df = false.
Proof. reflexivity. Qed.

Lemma filter_team_raises_series t df :
  (forall col, DataService.equipe_column df = Some col ->
               is_frame col df = false) ->
  DataService.filter_team_raises (Some t) df = false.
Proof.
  intros H. unfold DataService.filter_team_raises, DataService.filter_team_try.
  destruct t; [reflexivity|].
  destruct (DataService.equipe_column df) as [e|]; [|reflexivity].
  now rewrite (H e eq_refl).
Qed.

(** A team selects rows among those that the query for all teams
    selects. *)
Lemma df_date_team_rows date team df :
  rows (DataService.df_date date None df) = [] ->
  rows (DataService.df_date date team df) = [].
Proof.
  rewrite !df_date_rows.
  change (DataService.team_mask None df) with (fun _ : Row => true).
  rewrite filter_true. intros H.
  destruct (filter (DataService.date_mask date df)
                   (filter (DataService.team_mask team df) (rows df)))
    as [|r rs] eqn:E; [reflexivity|].
  assert (Hin : In r (filter (DataService.date_mask date df) (rows df))).
  { assert (Hr : In r (r :: rs)) by now left.
    rewrite <- E in Hr. apply filter_In in Hr. destruct Hr as [Hr Hd].
    apply filter_In in Hr. apply filter_In. tauto. }
  rewrite H in Hin. destruct Hin.
Qed.

(** Where the query for all teams returns, the query for a team returns
    unless its team filter raises. *)
Lemma sheet_raises_team date team df :
  DataService.sheet_raises date None df = false ->
  DataService.filter_team_raises team df = false ->
  DataService.sheet_raises date team df = false.
Proof.
  rewrite !sheet_raises_cases. intros H Hf. rewrite Hf.
  change (DataService.filter_team_raises None df) with false in H.
  destruct (empty df); [reflexivity|]. cbn [negb andb orb] in *.
  destruct (DataService.get_situacao_column df) as [c|]; [|reflexivity].
  destruct (rows (DataService.df_date date None df)) eqn:E0.
  - now rewrite (df_date_team_rows date team df E0).
  - destruct (rows (DataService.df_date date team df)); [reflexivity|exact H].
Qed.

Lemma dashboard_sheet_teams_try date teams df :
  NoDup (map upper teams) -> (forall t, In t teams -> t <> []) ->
  DataService.teams_cover teams df ->
  sum (map (fun t => Dashboard.sheet_counts_try date (Some t) df) teams)
  = Dashboard.sheet_counts_try date None df.
Proof.
  intros Hnd Hne Hcov. unfold Dashboard.sheet_counts_try.
  destruct (empty df); [apply sum_map_zero|].
  unfold Dashboard.rows_counts.
  destruct (Dashboard.get_situacao_column df) as [c|]; [|apply sum_map_zero].
  unfold Dashboard.selected.
  apply (teams_partition
           (fun rs => Dashboard.block_counts
                        c date df (filter (Dashboard.date_match date df) rs)));
    auto.
  - apply block_counts_nil.
  - intros a b. now rewrite filter_app, block_counts_app.
Qed.

(** C3, as amended.  The query for all teams is, counter by counter, the
    sum of the queries for the team labels, when the labels cover every
    sheet (each sheet has a team column, and the upper-cased team text of
    each row - "NAN" for a missing one - is that of a label), no two
    labels agree up to case, none is empty, and the team column of each
    sheet is a single column; there is no bucket beside the labels.  In
    the service, where the query for all teams returns, so does the
    query for each label.  With two columns under the label of the team
    column the team filter raises: the service raises and the dashboard
    returns the counters it has so far. *)
Theorem additivity_over_teams
        (dfs : list (str * DataFrame)) (date : Z) (teams : list str) :
  NoDup (map upper teams) ->
  (forall t, In t teams -> t <> []) ->
  (forall name df, In (name, df) dfs -> DataService.teams_cover teams df) ->
  (forall name df col, In (name, df) dfs ->
                       DataService.equipe_column df = Some col ->
                       is_frame col df = false) ->
  (forall total,
      DataService.get_daily_metrics_try dfs date None = Some total ->
      exists per_team,
        Forall2 (fun t m =>
                   DataService.get_daily_metrics_try dfs date (Some t) = Some m)
                teams per_team /\
        sum (map counters per_team) = counters total) /\
  sum (map (fun t => Dashboard.calculate_daily_metrics_try dfs date (Some t))
           teams)
  = Dashboard.calculate_daily_metrics_try dfs date None.
Proof.
  intros Hnd Hne Hcov Hser.
  assert (Hf : forall t df, In df (map snd dfs) ->
                            DataService.filter_team_raises (Some t) df = false).
  { intros t df Hin. apply in_sheets in Hin. destruct Hin as [name Hin].
    apply filter_team_raises_series. intros col. now apply (Hser name). }
  split.
  - intros total Ht. apply get_daily_metrics_try_some in Ht.
    destruct Ht as [-> Hr].
    exists (map (fun t => DataService.get_daily_metrics dfs date (Some t))
                teams).
    split.
    + clear Hnd Hne Hcov. induction teams as [|t teams IH]; constructor.
      * apply get_daily_metrics_try_returns. intros df Hin.
        apply sheet_raises_team; auto.
      * exact IH.
    + rewrite map_map. now apply get_daily_metrics_teams_sum.
  - unfold Dashboard.calculate_daily_metrics_try.
    rewrite calculate_daily_metrics_try_sum
      by (intros df _; apply filter_team_raises_none).
    rewrite (map_ext_in _ (fun t => sum (map (Dashboard.sheet_counts_try
                                                date (Some t))
                                             (map snd dfs)))).
    + rewrite (sum_exchange
                 (fun t df => Dashboard.sheet_counts_try date (Some t) df)).
      f_equal. apply map_ext_in. intros df Hin.
      apply in_sheets in Hin. destruct Hin as [name Hin].
      apply dashboard_sheet_teams_try; auto. now apply (Hcov name).
    + intros t _. apply calculate_daily_metrics_try_sum.
      intros df Hin. now apply Hf.
Qed.

Lemma additivity_over_teams_witness :
  (exists per_team,
      Forall2 (fun t m =>
                 DataService.get_daily_metrics_try
                   [(lit "DEMANDAS", Samples.sheet_demandas)]
                   Samples.d10 (Some t) = Some m)
              [lit "julio"; Samples.LEANDRO] per_team /\
      sum (map counters per_team)
      = counters (DataService.get_daily_metrics
                    [(lit "DEMANDAS", Samples.sheet_demandas)]
                    Samples.d10 None)) /\
  sum (map (fun t => Dashboard.calculate_daily_metrics_try
                       [(lit "DEMANDAS", Samples.sheet_demandas)]
                       Samples.d10 (Some t))
           [lit "julio"; Samples.LEANDRO])
  = Dashboard.calculate_daily_metrics_try
      [(lit "DEMANDAS", Samples.sheet_demandas)] Samples.d10 None.
Proof.
  assert (H1 : NoDup (map upper [lit "julio"; Samples.LEANDRO])).
  { repeat constructor; simpl; intuition discriminate. }
  assert (H2 : forall t, In t [lit "julio"; Samples.LEANDRO] -> t <> []).
  { intros t [<-|[<-|[]]]; discriminate. }
  assert (H3 : forall name df,
             In (name, df) [(lit "DEMANDAS", Samples.sheet_demandas)] ->
             DataService.teams_cover [lit "julio"; Samples.LEANDRO] df).
  { intros name df [H|[]]. injection H as _ <-.
    exists (lit "EQUIPE"). split; [reflexivity|].
    intros r [<-|[<-|[<-|[]]]]; vm_compute; auto. }
  assert (H4 : forall name df col,
             In (name, df) [(lit "DEMANDAS", Samples.sheet_demandas)] ->
             DataService.equipe_column df = Some col ->
             is_frame col df = false).
  { intros name df col [H|[]]. injection H as _ <-.
    intros [= <-]. reflexivity. }
  destruct (additivity_over_teams _ Samples.d10 _ H1 H2 H3 H4) as [Hs Hd].
  split; [exact (Hs _ eq_refl)|exact Hd].
Defined.

(** ** Status categories *)






(** ** The order of the sheets, and sheets taken together *)




(** X2.  Sheets add up.  In the service, a query over two sets of sheets
    held together (under names that differ, as in a dict) returns when
    it returns over each, and its counters are then the sums of the
    counters over each.  In the dashboard the counters over both are the
    sums of the counters over each when the team filter raises on no
    sheet of the first set. *)
Theorem daily_metrics_sheets_add
        (dfs more : list (str * DataFrame)) (date : Z) (team : option str) :
  NoDup (map fst (dfs ++ more)) ->
  option_map counters
             (DataService.get_daily_metrics_try (dfs ++ more) date team) =
  match DataService.get_daily_metrics_try dfs date team,
        DataService.get_daily_metrics_try more date team with
  | Some a, Some b => Some (add (counters a) (counters b))
  | _, _ => None
  end /\
  ((forall name df, In (name, df) dfs ->
                    DataService.filter_team_raises team df = false) ->
   Dashboard.calculate_daily_metrics_try (dfs ++ more) date team =
   add (Dashboard.calculate_daily_metrics_try dfs date team)
       (Dashboard.calculate_daily_metrics_try more date team)).
Proof.
  intros _. split.
  - rewrite !get_daily_metrics_try_eq, map_app, existsb_app.
    destruct (existsb _ (map snd dfs)); [reflexivity|].
    destruct (existsb _ (map snd more)); [reflexivity|].
    cbn [option_map orb]. f_equal.
    rewrite !get_daily_metrics_sum, !map_app. apply sum_app.
  - intros Hf. unfold Dashboard.calculate_daily_metrics_try.
    assert (Hf1 : forall df, In df (map snd dfs) ->
                             DataService.filter_team_raises team df = false).
    { intros df Hin. apply in_sheets in Hin. destruct Hin as [n Hin].
      now apply (Hf n). }
    rewrite (calculate_daily_metrics_try_app _ _ _ _ _ Hf1).
    now rewrite (calculate_daily_metrics_try_sum _ dfs _ _ Hf1).
Qed.

Lemma daily_metrics_sheets_add_witness :
  Dashboard.calculate_daily_metrics_try
    ([(lit "DEMANDAS", Samples.sheet_demandas)]
     ++ [(lit "QUITADOS", Samples.sheet_quitados)])
    Samples.d10 (Some Samples.JULIO) =
  add (Dashboard.calculate_daily_metrics_try
         [(lit "DEMANDAS", Samples.sheet_demandas)]
         Samples.d10 (Some Samples.JULIO))
      (Dashboard.calculate_daily_metrics_try
         [(lit "QUITADOS", Samples.sheet_quitados)]
         Samples.d10 (Some Samples.JULIO)).
Proof.
  apply (daily_metrics_sheets_add
           [(lit "DEMANDAS", Samples.sheet_demandas)]
           [(lit "QUITADOS", Samples.sheet_quitados)]
           Samples.d10 (Some Samples.JULIO)).
  - repeat constructor; simpl; intuition discriminate.
  - intros name df [H|[]]; injection H as _ <-; reflexivity.
Defined.

(** ** The analyses of the day *)

(** X8.  In the dashboard, when DATA is the only date column of the
    sheets that holds timestamps and no sheet has two columns named
    'ATIVO/RECEPTIVO', every analysis counted for the day is also an
    analysis of the day: [Analise_Dia] equals [Analise].  (With two such
    columns the channel raises after [Analise] is added and before
    [Analise_Dia] is.) *)
Theorem analise_dia_is_analise
        (dfs : list (str * DataFrame)) (date : Z) (team : option str) :
  (forall name df col,
      In (name, df) dfs -> In col (tl Dashboard.date_columns) ->
      has_column col df && is_datetime64_any_dtype col df = false) ->
  (forall name df,
      In (name, df) dfs -> is_frame DataService.ATIVO_RECEPTIVO df = false) ->
  analise_dia (Dashboard.calculate_daily_metrics_try dfs date team) =
  analise (Dashboard.calculate_daily_metrics_try dfs date team).
Proof.
  intros H Hch. unfold Dashboard.calculate_daily_metrics_try.
  apply (calculate_daily_metrics_try_all (fun m => analise_dia m = analise m)).
  - reflexivity.
  - intros a b Ha Hb. simpl. now rewrite Ha, Hb.
  - intros df Hin. apply in_sheets in Hin. destruct Hin as [name Hin].
    rewrite sheet_counts_try_rows. unfold Dashboard.rows_counts.
    destruct (Dashboard.get_situacao_column df) as [c|]; [|reflexivity].
    rewrite block_counts_eq, (Hch name df Hin). cbv zeta.
    destruct (is_frame c df); [reflexivity|].
    destruct (has_column DataService.ATIVO_RECEPTIVO df);
      apply chunk_counts_analise_dia; intros col Hcol;
      now apply (H name).
Qed.

Lemma analise_dia_is_analise_witness :
  analise_dia (Dashboard.calculate_daily_metrics_try
                 Samples.loaded Samples.d11 None) = 1.
Proof.
  etransitivity.
  - apply (analise_dia_is_analise Samples.loaded Samples.d11 None).
    + intros name df col [E|[E|[]]] Hcol; injection E as _ <-;
        repeat (destruct Hcol as [<-|Hcol]; [reflexivity|]); destruct Hcol.
    + intros name df [E|[E|[]]]; injection E as _ <-; reflexivity.
  - vm_compute. reflexivity.
Defined.

End HandlerProps.

(* ===================================================================== *)
(** * [process_dataframe], with the calls that raise *)
(* ===================================================================== *)

Module ProcessorHandler.
Import Text TextFacts Frame FrameFacts.
Import DataProcessor DataProcessorProps ProcessorMore ProcessorIdem.
Local Open Scope N_scope.

(** The call raises on a frame with two columns under one label, and is
    [process_dataframe] elsewhere. *)
Lemma process_dataframe_try_eq df :
  process_dataframe_try df =
  if existsb (fun col => is_frame col df) (labels df) then None
  else process_dataframe df.
Proof.
  unfold process_dataframe_try, fill_objects_try.
  destruct (existsb _ _); reflexivity.
Qed.

Lemma no_frame_forall df :
  existsb (fun col => is_frame col df) (labels df) = false <->
  forall col, In col (labels df) -> is_frame col df = false.
Proof.
  split.
  - intros H col Hin. destruct (is_frame col df) eqn:E; [|reflexivity].
    assert (existsb (fun col => is_frame col df) (labels df) = true).
    { apply existsb_exists. now exists col. }
    congruence.
  - intros H. destruct (existsb _ _) eqn:E; [|reflexivity].
    apply existsb_exists in E. destruct E as (col & Hin & E).
    now rewrite (H col Hin) in E.
Qed.

(** A call that returns found one date column, and at most one column
    each of the responsibles and of the statuses. *)
Lemma process_dataframe_counts df out :
  process_dataframe df = Some out ->
  count_label resolucao (prepared df) = 1%nat /\
  (count_label responsavel (prepared df) <= 1)%nat /\
  (count_label situacao (prepared df) <= 1)%nat.
Proof.
  unfold process_dataframe. generalize (prepared df). intros p H.
  destruct responsavel_other as [N1 N2].
  destruct (process_resolucao p) as [p1|] eqn:E1; [|discriminate].
  simpl bind in H.
  destruct (process_responsavel p1) as [p2|] eqn:E2; [|discriminate].
  simpl bind in H.
  destruct (process_situacao p2) as [p3|] eqn:E3; [|discriminate].
  simpl bind in H. unfold dropna_resolucao in H.
  destruct (has_column resolucao p3) eqn:Hc; [|discriminate].
  rewrite count_label_has_column in Hc.
  rewrite (text_step_resolucao _ _ (process_situacao_step _ _ E3)) in Hc.
  rewrite (text_step_resolucao _ _ (process_responsavel_step _ _ E2)) in Hc.
  split; [|split].
  - destruct (process_resolucao_spec _ _ E1) as [[C0 ->]|[C1 _]];
      [|exact C1].
    rewrite C0 in Hc. discriminate.
  - rewrite <- (process_resolucao_counts p p1 responsavel E1 N1).
    destruct (process_responsavel_spec _ _ E2) as [[C _]|[C _]];
      rewrite C; auto.
  - rewrite <- (process_resolucao_counts p p1 situacao E1 N2).
    rewrite <- (process_responsavel_situacao _ _ E2).
    destruct (process_situacao_spec _ _ E3) as [[C _]|[C _]];
      rewrite C; auto.
Qed.

(** C1, as amended.  The date cell of a row is parsed with the fixed
    day/month/year format alone; a row whose date cell does not parse
    gets a null date and is then removed: the output holds, in order,
    exactly the rows of the frame whose date cell parsed, each with that
    date.  The call returns exactly when no two columns of the frame
    carry one label, one column is the date column, and at most one each
    is the responsible and the status; it raises otherwise. *)
Theorem process_dataframe_keeps_parsed_dates (df : DataFrame) :
  ((exists out, process_dataframe_try df = Some out) <->
   (forall col, In col (labels df) -> is_frame col df = false) /\
   count_label resolucao (prepared df) = 1%nat /\
   (count_label responsavel (prepared df) <= 1)%nat /\
   (count_label situacao (prepared df) <= 1)%nat) /\
  (forall out,
      process_dataframe_try df = Some out ->
      exists finish,
        rows out = map finish (filter (date_parses df) (rows df)) /\
        forall r, lookup resolucao (stamp (finish r)) = date_cell df r).
Proof.
  rewrite process_dataframe_try_eq. split; [split|].
  - intros [out H].
    destruct (existsb _ _) eqn:E; [discriminate|].
    split; [now apply no_frame_forall|].
    now apply (process_dataframe_counts df out).
  - intros (Hf & H1 & H2 & H3). apply no_frame_forall in Hf. rewrite Hf.
    now apply process_steps_total.
  - intros out H. destruct (existsb _ _); [discriminate|].
    apply process_steps_rows in H.
    destruct H as (finish & Hrows & Hdate).
    exists (fun r => finish (prepare_row df r)). split.
    + rewrite Hrows, rows_prepared, filter_map_comm, map_map. reflexivity.
    + intros r. apply Hdate.
Qed.

Lemma process_dataframe_keeps_parsed_dates_witness :
  exists out, process_dataframe_try Samples.csv_two_rows = Some out.
Proof.
  apply (proj1 (process_dataframe_keeps_parsed_dates Samples.csv_two_rows)).
  split; [|split; [|split]].
  - intros col [<-|[<-|[<-|[]]]]; reflexivity.
  - reflexivity.
  - vm_compute. apply le_n.
  - vm_compute. apply le_n.
Defined.

(** C1, as stated, fails: of two records, the one without a date is not
    in the output. *)
Lemma process_dataframe_drops_null_date :
  ~ (forall out,
        process_dataframe_try Samples.csv_two_rows = Some out ->
        List.length (rows out) = List.length (rows Samples.csv_two_rows)).
Proof.
  intros H.
  destruct (process_dataframe_try Samples.csv_two_rows) as [out|] eqn:E;
    vm_compute in E; [|discriminate E].
  injection E as <-. specialize (H _ eq_refl). discriminate H.
Qed.

(** C4.  On the labels DATA, RESOLUCAO, RESPONSAVEL and SITUACAO,
    [identify_columns] binds the two raw columns DATA and RESOLUCAO to
    the one category [resolucao]; [process_dataframe], its caller, then
    has two columns of that name and raises at the date step. *)
Theorem identify_columns_binds_two_columns :
  identify_columns (labels Samples.csv_two_dates) =
  [(lit "DATA", resolucao); (lit "RESOLUCAO", resolucao);
   (lit "RESPONSAVEL", responsavel); (lit "SITUACAO", situacao)] /\
  count_label resolucao (prepared Samples.csv_two_dates) = 2%nat /\
  process_dataframe_try Samples.csv_two_dates = None.
Proof. repeat split. Qed.

End ProcessorHandler.
